(** * MicroSaas CRM front-end: the REST client and the three list pages

    A shallow embedding of [frontend/src/lib/crm.ts] and of the pages
    [Kanban.tsx], [Contacts.tsx] and [Calendar.tsx], with the properties of
    the optimistic list synchronizer proved over it.

    Conventions of the embedding.
    - A JavaScript string is the [string] of its text in UTF-8 (well-formed
      text): emptiness, concatenation, [includes], [join] and [replace] on
      it are those of the code units. The literals of the source are copied
      as they are written.
    - [toLowerCase], [trim] and [sort] are built-ins of the engine the page
      runs in: they are taken from a [Runtime], of which only what the
      language guarantees is assumed.
    - An entity identity ([id: number]) is a [Z], an integer of magnitude
      below 10^21 (which a template literal writes in decimal digits); a
      monetary value is a [Q], a finite number.
    - A promise that settles is a [result]: [Resolved v] or [Rejected e].
    - An [async] event handler is a [Proc]: a tree of state updates, blocking
      dialogs and awaited remote calls, run against an environment that
      answers the dialogs and settles the calls.
    - React state is updated by the setters only; arrays and entity records
      are never written in place by the handlers ([slice], [map], [filter]
      and the spread build new values), so a collection is a [list]. The one
      in-place write of the pages, [data.sort] of the calendar, is modelled
      on a store of arrays. *)

From Stdlib Require Import ZArith QArith List Ascii String DecimalString DecimalZ Sorted Permutation.
From stdpp Require Import gmap strings list.

Local Open Scope string_scope.

(** ** JavaScript strings *)

Module JS.

Fixpoint startsWith (p s : string) : bool :=
  match p, s with
  | EmptyString, _ => true
  | String a p', String b s' => if Ascii.eqb a b then startsWith p' s' else false
  | String _ _, EmptyString => false
  end.

(** [hay.includes(s)] *)
Fixpoint includes (hay s : string) : bool :=
  startsWith s hay ||
  match hay with
  | EmptyString => false
  | String _ t => includes t s
  end.

(** [arr.join(sep)] on an array of strings *)
Fixpoint join (sep : string) (l : list string) : string :=
  match l with
  | [] => EmptyString
  | [x] => x
  | x :: t => x +:+ sep +:+ join sep t
  end.

(** Truthiness of a string: the empty string is falsy. *)
Definition truthy (s : string) : bool :=
  match s with EmptyString => false | _ => true end.

(** [a || b] on strings *)
Definition or_else (a b : string) : string := if truthy a then a else b.

(** [o || b] on an optional string ([undefined] and [null] are falsy) *)
Definition opt_or (o : option string) (b : string) : string :=
  match o with Some a => or_else a b | None => b end.

(** [String(n)] for a non-negative integer *)
Definition String_of_N (n : N) : string := NilEmpty.string_of_uint (N.to_uint n).

(** [s.replace(a, b)] with a one-unit pattern: the first occurrence only. *)
Fixpoint replace (s : string) (a : ascii) (b : string) : string :=
  match s with
  | EmptyString => EmptyString
  | String c t => if Ascii.eqb c a then b +:+ t else String c (replace t a b)
  end.

(** [SortCompare] of [Array.prototype.sort]: a comparator that answers [NaN]
    ([None]) counts as answering [+0]. *)
Definition SortCompare {A} (comparefn : A -> A -> option Z) (x y : A) : Z :=
  default 0%Z (comparefn x y).

Fixpoint insert {A} (comparefn : A -> A -> option Z) (x : A) (l : list A) : list A :=
  match l with
  | [] => [x]
  | y :: t =>
      if (SortCompare comparefn x y <=? 0)%Z then x :: y :: t
      else y :: insert comparefn x t
  end.

(** The order a stable sort gives: every element is put in front of the
    first later element it does not compare greater than. *)
Definition stable_sort {A} (comparefn : A -> A -> option Z) (l : list A) : list A :=
  fold_right (insert comparefn) [] l.

(** A comparator is consistent on the elements of [l] when its answers are
    those of a ranking of the elements by integers. *)
Definition consistent {A} (comparefn : A -> A -> option Z) (l : list A) : Prop :=
  exists rank : A -> Z, forall a b, In a l -> In b l ->
    (SortCompare comparefn a b ?= 0)%Z = (rank a ?= rank b)%Z.

(** Lower case of the letters A to Z. *)
Definition ascii_lower_unit (c : ascii) : ascii :=
  let n := nat_of_ascii c in
  if (65 <=? n)%nat && (n <=? 90)%nat then ascii_of_nat (n + 32) else c.

Fixpoint ascii_lower (s : string) : string :=
  match s with
  | EmptyString => EmptyString
  | String c t => String (ascii_lower_unit c) (ascii_lower t)
  end.

(** The text is made of the characters U+0000 to U+007F. *)
Fixpoint is_ascii (s : string) : bool :=
  match s with
  | EmptyString => true
  | String c t => (nat_of_ascii c <? 128)%nat && is_ascii t
  end.

(** The built-ins the pages take from the engine: [s.toLowerCase()],
    [s.trim()] and [arr.sort(comparefn)], with what the pages rely on and
    every engine provides. [toLowerCase] follows the Unicode case mappings,
    under which the lower case of a letter may depend on its neighbours; on
    text of U+0000 to U+007F it is [ascii_lower]. [trim] of the empty string
    is the empty string. [sort] returns the elements it was given; their
    order is the stable one when the comparator is consistent (ECMAScript
    2019) and is the engine's own choice when it is not. *)
Record Runtime := mkRuntime {
  toLowerCase : string -> string;
  trim : string -> string;
  sort : forall A : Type, (A -> A -> option Z) -> list A -> list A;
  toLowerCase_ascii : forall s, is_ascii s = true -> toLowerCase s = ascii_lower s;
  trim_empty : trim EmptyString = EmptyString;
  sort_elements : forall A comparefn l, Permutation (sort A comparefn l) l;
  sort_consistent : forall A comparefn l,
    consistent comparefn l -> sort A comparefn l = stable_sort comparefn l
}.
Arguments sort _ {A} _ _.

(** An [Error] object; only its [message] is observed. *)
Record Error := mkError { message : string }.

(** A settled promise. *)
Inductive result (A : Type) : Type :=
| Resolved (a : A)
| Rejected (e : Error).
Arguments Resolved {A} a.
Arguments Rejected {A} e.

End JS.

Export JS.

(** ** lib/crm.ts: entity types *)

Inductive Stage := lead | client.
Inductive Heat := hot | warm | cold.
Inductive AwaitStatus := none | awaiting_client | awaiting_us | awaiting_payment.
Inductive Column := novo | qualificacao | proposta | fechamento | ganho | perdido.
Module Status.
Inductive t := open | done.
End Status.

Global Instance Stage_eq_dec : EqDecision Stage.
Proof. solve_decision. Defined.
Global Instance Heat_eq_dec : EqDecision Heat.
Proof. solve_decision. Defined.
Global Instance AwaitStatus_eq_dec : EqDecision AwaitStatus.
Proof. solve_decision. Defined.
Global Instance Column_eq_dec : EqDecision Column.
Proof. solve_decision. Defined.
Global Instance Status_eq_dec : EqDecision Status.t.
Proof. solve_decision. Defined.

Module Contact.
Record t := mk {
    id : Z;
    owner_user_id : Z;
    name : string;
    phone : option string;
    email : option string;
    stage : Stage;
    heat : Heat;
    await_status : AwaitStatus;
    is_real : bool;
    notes : option string;
    created_at : string;
    updated_at : string
  }.
  (** [{ ...r, is_real: v }] *)
Definition with_is_real (r : t) (v : bool) : t :=
    mk (id r) (owner_user_id r) (name r) (phone r) (email r) (stage r) (heat r)
       (await_status r) v (notes r) (created_at r) (updated_at r).
End Contact.

Module Deal.
Record t := mk {
    id : Z;
    contact_id : Z;
    title : string;
    value : Q;
    column : Column;
    priority : string;
    due_date : option string;
    tags : option (list string);
    created_at : string
  }.
  (** [{ ...x, column: to }] *)
Definition with_column (x : t) (to : Column) : t :=
    mk (id x) (contact_id x) (title x) (value x) to (priority x) (due_date x)
       (tags x) (created_at x).
End Deal.

Module Obligation.
Record t := mk {
    id : Z;
    owner_user_id : Z;
    title : string;
    description : option string;
    due_date : string;
    status : Status.t;
    contact_id : option Z;
    created_at : string
  }.
  (** [{ ...x, status: s }] *)
Definition with_status (x : t) (s : Status.t) : t :=
    mk (id x) (owner_user_id x) (title x) (description x) (due_date x) s
       (contact_id x) (created_at x).
End Obligation.

(** [Omit<Contact, "id" | "owner_user_id" | "created_at" | "updated_at">] *)
Module ContactCreate.
Record t := mk {
    name : string;
    phone : option string;
    email : option string;
    stage : Stage;
    heat : Heat;
    await_status : AwaitStatus;
    is_real : bool;
    notes : option string
  }.
End ContactCreate.

(** [Partial<ContactCreate>] *)
Module ContactUpdate.
Record t := mk {
    name : option string;
    phone : option string;
    email : option string;
    stage : option Stage;
    heat : option Heat;
    await_status : option AwaitStatus;
    is_real : option bool;
    notes : option string
  }.
Definition empty : t := mk None None None None None None None None.
End ContactUpdate.

(** [Omit<Deal, "id" | "created_at">] *)
Module DealCreate.
Record t := mk {
    contact_id : Z;
    title : string;
    value : Q;
    column : Column;
    priority : string;
    due_date : option string;
    tags : option (list string)
  }.
End DealCreate.

(** [Partial<DealCreate>] *)
Module DealUpdate.
Record t := mk {
    contact_id : option Z;
    title : option string;
    value : option Q;
    column : option Column;
    priority : option string;
    due_date : option string;
    tags : option (list string)
  }.
Definition empty : t := mk None None None None None None None.
End DealUpdate.

(** [Omit<Obligation, "id" | "owner_user_id" | "created_at">] *)
Module ObligationCreate.
Record t := mk {
    title : string;
    description : option string;
    due_date : string;
    status : Status.t;
    contact_id : option Z
  }.
End ObligationCreate.

(** [Partial<ObligationCreate>] *)
Module ObligationUpdate.
Record t := mk {
    title : option string;
    description : option string;
    due_date : option string;
    status : option Status.t;
    contact_id : option Z
  }.
Definition empty : t := mk None None None None None.
End ObligationUpdate.

(** ** lib/crm.ts: the HTTP helper *)

(** [JSON.stringify(payload)]: the body of a request, kept structured. *)
Inductive Payload :=
| ContactCreateJSON (p : ContactCreate.t)
| ContactUpdateJSON (p : ContactUpdate.t)
| DealCreateJSON (p : DealCreate.t)
| DealUpdateJSON (p : DealUpdate.t)
| ObligationCreateJSON (p : ObligationCreate.t)
| ObligationUpdateJSON (p : ObligationUpdate.t).

(** [HeadersInit]: what a caller may pass as [init.headers]. *)
Inductive HeadersInit :=
| Record_ (h : gmap string string)
| Headers (h : list (string * string))
| Pairs (h : list (string * string)).

(** The own enumerable properties of a [HeadersInit], which are what the
    spread [...(init?.headers || {})] copies: the entries of a plain
    object, nothing of a [Headers] instance (its entries are not
    properties), and of an array of pairs the indices, each with its pair
    (sent as [String(pair)], the two strings joined by a comma). *)
Definition own_properties (h : HeadersInit) : gmap string string :=
  match h with
  | Record_ m => m
  | Headers _ => ∅
  | Pairs l =>
      list_to_map (imap (fun i kv => (String_of_N (N.of_nat i), kv.1 +:+ "," +:+ kv.2)) l)
  end.

(** The fields of [RequestInit] the client uses. *)
Record RequestInit := mkInit {
  init_method : option string;
  init_body : option Payload;
  init_headers : option HeadersInit
}.

(** The URL handed to [fetch], kept structured: [`${BASE_URL}${path}`]
    followed, when [search] is [Some qs], by [`?${qs.toString()}`]. *)
Record URL := mkURL {
  url_base : string;
  url_path : string;
  url_search : option (list (string * string))
}.

(** The two arguments of [fetch]; [req_headers] is the object built for
    [headers], with the property names as they are written. *)
Record Request := mkRequest {
  req_url : URL;
  req_method : option string;
  req_body : option Payload;
  req_headers : gmap string string
}.

(** The [Response] of [fetch]: its status, and how the promises [res.text()]
    and [res.json()] (read at type [T]) settle. *)
Record Response (T : Type) := mkResponse {
  status : N;
  text : result string;
  json : result T
}.
Arguments mkResponse {T} _ _ _.
Arguments status {T} _.
Arguments text {T} _.
Arguments json {T} _.

(** [res.ok] *)
Definition ok {T} (res : Response T) : bool :=
  (200 <=? status res)%N && (status res <=? 299)%N.

(** What the helper reads from its surroundings: the build-time variable,
    the browser's [localStorage] and the network behind [fetch]. *)
Record World := mkWorld {
  VITE_API_BASE_URL : option string;
  localStorage : gmap string string;
  fetch : forall T : Type, Request -> result (Response T)
}.

(** [{ ...a, ...b }]: the properties of [b] override those of [a]. *)
Definition spread (a b : gmap string string) : gmap string string := b ∪ a.

Module crm.

Definition BASE_URL (w : World) : string :=
  opt_or (VITE_API_BASE_URL w) "http://localhost:8000".

Definition authHeaders (w : World) : gmap string string :=
  match localStorage w !! "token" with
  | Some token =>
      if truthy token then {[ "Authorization" := "Bearer " +:+ token ]} else ∅
  | None => ∅
  end.

(** A query object: its entries in order, [None] for [undefined] or [null].
    The callers pass strings only. *)
Definition Query := list (string * option string).

Definition querystring (query : Query) : list (string * string) :=
  omap (fun kv => match kv.2 with
                  | Some v => if truthy v then Some (kv.1, v) else None
                  | None => None
                  end) query.

(** The request [http] hands to [fetch]. *)
Definition http_request (w : World) (path : string) (init : option RequestInit)
    (query : option Query) : Request :=
  let url :=
    mkURL (BASE_URL w) path
      match query with
      | Some (kv :: q) => Some (querystring (kv :: q))
      | _ => None
      end in
  mkRequest url
    (init ≫= init_method)
    (init ≫= init_body)
    (spread (spread {[ "Content-Type" := "application/json" ]} (authHeaders w))
            (from_option own_properties ∅ (init ≫= init_headers))).

Definition http {T : Type} (w : World) (path : string) (init : option RequestInit)
    (query : option Query) : result T :=
  match fetch w T (http_request w path init query) with
  | Rejected e => Rejected e
  | Resolved res =>
      if negb (ok res) then
        let text := match text res with Resolved t => t | Rejected _ => "" end in
        Rejected (mkError (or_else text ("HTTP " +:+ String_of_N (status res))))
      else json res
  end.

(** [{ ok: boolean } | any], the answer to a delete: its [ok], if it has one. *)
Definition Ack : Type := option bool.

(** [{ start?: string; end?: string }]: each key is absent ([None]), or
    holds [undefined] ([Some None]) or a string. *)
Record Range := mkRange {
  start : option (option string);
  end_ : option (option string)
}.

(** [Object.entries(params)] *)
Definition Range_entries (r : Range) : list (string * option string) :=
  (match start r with Some v => [("start", v)] | None => [] end ++
   match end_ r with Some v => [("end", v)] | None => [] end)%list.

(** The exported functions. Each is one call of [http]; a value of [Api A]
    is such a call with its arguments, and [request_of] gives the arguments
    it passes to [http]. *)
Inductive Api : Type -> Type :=
| listContacts : Api (list Contact.t)
| getContact (id : Z) : Api Contact.t
| createContact (payload : ContactCreate.t) : Api Contact.t
| updateContact (id : Z) (payload : ContactUpdate.t) : Api Contact.t
| deleteContact (id : Z) : Api Ack
| listDeals (column : option Column) : Api (list Deal.t)
| createDeal (payload : DealCreate.t) : Api Deal.t
| updateDeal (id : Z) (payload : DealUpdate.t) : Api Deal.t
| deleteDeal (id : Z) : Api Ack
| listObligations (params : option Range) : Api (list Obligation.t)
| createObligation (payload : ObligationCreate.t) : Api Obligation.t
| updateObligation (id : Z) (payload : ObligationUpdate.t) : Api Obligation.t
| deleteObligation (id : Z) : Api Ack.

Definition Column_name (c : Column) : string :=
  match c with
  | novo => "novo" | qualificacao => "qualificacao" | proposta => "proposta"
  | fechamento => "fechamento" | ganho => "ganho" | perdido => "perdido"
  end.

(** [`${id}`], for an identity (see the conventions) *)
Definition String_of_Z (z : Z) : string := NilEmpty.string_of_int (Z.to_int z).

(** [{ method: "POST", body: JSON.stringify(payload) }], and likewise for
    [PATCH] and [DELETE]. *)
Definition POST (b : Payload) : option RequestInit :=
  Some (mkInit (Some "POST") (Some b) None).
Definition PATCH (b : Payload) : option RequestInit :=
  Some (mkInit (Some "PATCH") (Some b) None).
Definition DELETE : option RequestInit :=
  Some (mkInit (Some "DELETE") None None).

Definition request_of {A} (c : Api A)
    : string * option RequestInit * option Query :=
  match c with
  | listContacts => ("/contacts", None, None)
  | getContact id => ("/contacts/" +:+ String_of_Z id, None, None)
  | createContact payload => ("/contacts", POST (ContactCreateJSON payload), None)
  | updateContact id payload =>
      ("/contacts/" +:+ String_of_Z id, PATCH (ContactUpdateJSON payload), None)
  | deleteContact id => ("/contacts/" +:+ String_of_Z id, DELETE, None)
  | listDeals column =>
      ("/deals", None,
       match column with
       | Some c => Some [("column", Some (Column_name c))]
       | None => None
       end)
  | createDeal payload => ("/deals", POST (DealCreateJSON payload), None)
  | updateDeal id payload =>
      ("/deals/" +:+ String_of_Z id, PATCH (DealUpdateJSON payload), None)
  | deleteDeal id => ("/deals/" +:+ String_of_Z id, DELETE, None)
  | listObligations params =>
      ("/obligations", None,
       match params with
       | Some r => Some (Range_entries r)
       | None => None
       end)
  | createObligation payload =>
      ("/obligations", POST (ObligationCreateJSON payload), None)
  | updateObligation id payload =>
      ("/obligations/" +:+ String_of_Z id, PATCH (ObligationUpdateJSON payload), None)
  | deleteObligation id => ("/obligations/" +:+ String_of_Z id, DELETE, None)
  end.

(** The request a call puts on the wire. *)
Definition outgoing (w : World) {A} (c : Api A) : Request :=
  let '(path, init, query) := request_of c in http_request w path init query.

(** How a call settles in a given world. *)
Definition perform (w : World) {A} (c : Api A) : result A :=
  let '(path, init, query) := request_of c in http w path init query.

End crm.

(** ** Event handlers *)

(** The blocking dialogs of the browser. *)
Inductive Dialog : Type -> Type :=
| confirm (message : string) : Dialog bool
| prompt (message : string) (default : option string) : Dialog (option string).

(** An [async] function over a component state [St] that returns an [R]. *)
Inductive Proc (St R : Type) : Type :=
| Return (r : R)
| Throw (e : Error)
| SetState (f : St -> St) (k : Proc St R)
| Ask {A : Type} (d : Dialog A) (k : A -> Proc St R)
| Await {A : Type} (c : crm.Api A) (k : result A -> Proc St R).
Arguments Return {St R} r.
Arguments Throw {St R} e.
Arguments SetState {St R} f k.
Arguments Ask {St R A} d k.
Arguments Await {St R A} c k.

Fixpoint bind {St R R'} (p : Proc St R) (f : R -> Proc St R') : Proc St R' :=
  match p with
  | Return r => f r
  | Throw e => Throw e
  | SetState g k => SetState g (bind k f)
  | Ask d k => Ask d (fun a => bind (k a) f)
  | Await c k => Await c (fun a => bind (k a) f)
  end.

Notation "x <- p ;; q" := (bind p (fun x => q))
  (at level 100, p at next level, right associativity).
Notation "p ;; q" := (bind p (fun _ => q))
  (at level 100, right associativity).

(** [try { p } catch (e) { h e }] *)
Fixpoint try_catch {St R} (p : Proc St R) (h : Error -> Proc St R) : Proc St R :=
  match p with
  | Return r => Return r
  | Throw e => h e
  | SetState g k => SetState g (try_catch k h)
  | Ask d k => Ask d (fun a => try_catch (k a) h)
  | Await c k => Await c (fun a => try_catch (k a) h)
  end.

(** [try { p } finally { q }] *)
Fixpoint finally {St R} (p : Proc St R) (q : Proc St unit) : Proc St R :=
  match p with
  | Return r => q ;; Return r
  | Throw e => q ;; Throw e
  | SetState g k => SetState g (finally k q)
  | Ask d k => Ask d (fun a => finally (k a) q)
  | Await c k => Await c (fun a => finally (k a) q)
  end.

(** A call of a state setter. *)
Definition set {St} (f : St -> St) : Proc St unit := SetState f (Return tt).
(** [confirm(..)], [prompt(..)] *)
Definition ask {St A} (d : Dialog A) : Proc St A := Ask d Return.
(** [await c]: the value of a fulfilled promise, the exception of a rejected one. *)
Definition await {St A} (c : crm.Api A) : Proc St A :=
  Await c (fun r => match r with Resolved a => Return a | Rejected e => Throw e end).

(** The surroundings of a handler: the user in front of the dialogs and the
    service behind the calls. *)
Record Env := mkEnv {
  answer : forall A : Type, Dialog A -> A;
  settle : forall A : Type, crm.Api A -> result A
}.

(** One remote call, as it appears in the log of a run. *)
Definition Call : Type := { A : Type & crm.Api A }.
Definition call {A} (c : crm.Api A) : Call := existT A c.

(** A finished run: the state left behind, how the handler's own promise
    settled (a [Rejected] is a rejection nobody handled), and the remote
    calls issued, in order. *)
Record Run (St R : Type) := mkRun {
  final : St;
  outcome : result R;
  calls : list Call
}.
Arguments mkRun {St R} _ _ _.
Arguments final {St R} _.
Arguments outcome {St R} _.
Arguments calls {St R} _.

(** [exec env inflight p s] runs [p] from state [s]. While the handler is
    suspended at an [await], other handlers may update the state: [inflight]
    is what they do to it ([fun s => s] when nothing else runs). *)
Fixpoint exec {St R} (env : Env) (inflight : St -> St) (p : Proc St R) (s : St)
    : Run St R :=
  match p with
  | Return r => mkRun s (Resolved r) []
  | Throw e => mkRun s (Rejected e) []
  | SetState f k => exec env inflight k (f s)
  | Ask d k => exec env inflight (k (answer env _ d)) s
  | Await c k =>
      let r := exec env inflight (k (settle env _ c)) (inflight s) in
      mkRun (final r) (outcome r) (call c :: calls r)
  end.

Definition run {St R} (env : Env) (p : Proc St R) (s : St) : Run St R :=
  exec env (fun s => s) p s.

(** The state at the moment the handler first suspends at an [await] (the
    final state when it never does), and the call it then waits for. *)
Fixpoint suspended {St R} (env : Env) (p : Proc St R) (s : St) : St * option Call :=
  match p with
  | Return _ | Throw _ => (s, None)
  | SetState f k => suspended env k (f s)
  | Ask d k => suspended env (k (answer env _ d)) s
  | Await c _ => (s, Some (call c))
  end.

(** ** pages/Kanban.tsx *)

Module Kanban.

Definition COLUMNS : list Column :=
  [novo; qualificacao; proposta; fechamento; ganho; perdido].

Definition LABEL (c : Column) : string :=
  match c with
  | novo => "Novo"
  | qualificacao => "Qualificação"
  | proposta => "Proposta"
  | fechamento => "Fechamento"
  | ganho => "Ganho"
  | perdido => "Perdido"
  end.

Record State := mkState {
  items : list Deal.t;
  loading : bool;
  q : string;
  error : option string
}.

(** [useState] initial values *)
Definition initial : State := mkState [] true "" None.

Definition setItems (f : list Deal.t -> list Deal.t) (s : State) : State :=
  mkState (f (items s)) (loading s) (q s) (error s).
Definition setLoading (b : bool) (s : State) : State :=
  mkState (items s) b (q s) (error s).
Definition setQ (v : string) (s : State) : State :=
  mkState (items s) (loading s) v (error s).
Definition setError (e : option string) (s : State) : State :=
  mkState (items s) (loading s) (q s) e.

Definition refresh : Proc State unit :=
  finally
    (try_catch
       (set (setLoading true) ;;
        ds <- await (crm.listDeals None) ;;
        set (setItems (fun _ => ds)))
       (fun e => set (setError (Some (or_else (message e) "Falha ao carregar pipeline")))))
    (set (setLoading false)).

(** [`${d.title} ${d.tags?.join(" ") || ""}`] *)
Definition searchable (d : Deal.t) : string :=
  Deal.title d +:+ " " +:+ opt_or (join " " <$> Deal.tags d) "".

(** [map[c].push(d)] *)
Definition push (map : Column -> list Deal.t) (c : Column) (d : Deal.t)
    : Column -> list Deal.t :=
  fun c' => if decide (c' = c) then (map c' ++ [d])%list else map c'.

Definition filteredByCol (rt : Runtime) (items : list Deal.t) (q : string)
    : Column -> list Deal.t :=
  let s := toLowerCase rt (trim rt q) in
  fold_left
    (fun map d =>
       if truthy s && negb (includes (toLowerCase rt (searchable d)) s)
       then map
       else push map (Deal.column d) d)
    items (fun _ => []).

(** One [<section className="kanban-col">] of the board: its key, its title,
    whether the note "Sem cartões" is shown, and its cards, top to bottom. *)
Record ColumnView := mkColumnView {
  col_key : Column;
  col_title : string;
  col_empty : bool;
  col_cards : list Deal.t
}.

(** What the component returns below the toolbar: [None] is the text
    "Carregando pipeline...", [Some] the board, a section per entry of
    [COLUMNS]. *)
Definition board (rt : Runtime) (s : State) : option (list ColumnView) :=
  if loading s then None
  else Some (List.map (fun col =>
               let cards := filteredByCol rt (items s) (q s) col in
               mkColumnView col (LABEL col) (length cards =? 0)%nat cards)
             COLUMNS).

(** The handlers close over the state of the render they belong to. *)
Definition move (render : State) (d : Deal.t) (to : Column) : Proc State unit :=
  if decide (Deal.column d = to) then Return tt else
  let prev := items render in
  set (setItems (List.map (fun x =>
         if (Deal.id x =? Deal.id d)%Z then Deal.with_column x to else x))) ;;
  try_catch
    (_ <- await (crm.updateDeal (Deal.id d)
                   (DealUpdate.mk None None None (Some to) None None None)) ;;
     Return tt)
    (fun _ => set (setItems (fun _ => prev))).

Section QuickAdd.
(** [Number(s)]: the numeric value of a string that reads as a finite
    number, [None] for [NaN]. *)
Variable Number : string -> option Q.

Definition quickAdd : Proc State unit :=
  title <- ask (prompt "Título do negócio:" None) ;;
  match title with
  | None | Some EmptyString => Return tt
  | Some title =>
      v <- ask (prompt "Valor (apenas número):" (Some "0")) ;;
      let valueStr := opt_or v "0" in
      let value := default 0%Q (Number valueStr) in
      novo <- await (crm.createDeal
                (DealCreate.mk 0 title value novo "normal" None (Some []))) ;;
      set (setItems (fun it => novo :: it))
  end.
End QuickAdd.

Definition remove (render : State) (id : Z) : Proc State unit :=
  sure <- ask (confirm "Excluir este negócio?") ;;
  if negb sure then Return tt else
  let prev := items render in
  set (setItems (List.filter (fun x => negb (Deal.id x =? id)%Z))) ;;
  try_catch
    (_ <- await (crm.deleteDeal id) ;; Return tt)
    (fun _ => set (setItems (fun _ => prev))).

End Kanban.

(** ** pages/Contacts.tsx *)

Module Contacts.

Record State := mkState {
  rows : list Contact.t;
  loading : bool;
  q : string;
  stage : option Stage;
  heat : option Heat;
  awaiting : option AwaitStatus;
  onlyReal : bool;
  error : option string
}.

(** [useState] initial values; the empty option of a select is [None]. *)
Definition initial : State := mkState [] true "" None None None false None.

Definition setRows (f : list Contact.t -> list Contact.t) (s : State) : State :=
  mkState (f (rows s)) (loading s) (q s) (stage s) (heat s) (awaiting s)
          (onlyReal s) (error s).
Definition setLoading (b : bool) (s : State) : State :=
  mkState (rows s) b (q s) (stage s) (heat s) (awaiting s) (onlyReal s) (error s).
Definition setError (e : option string) (s : State) : State :=
  mkState (rows s) (loading s) (q s) (stage s) (heat s) (awaiting s) (onlyReal s) e.

Definition refresh : Proc State unit :=
  finally
    (try_catch
       (set (setLoading true) ;;
        data <- await crm.listContacts ;;
        set (setRows (fun _ => data)))
       (fun e => set (setError (Some (or_else (message e) "Falha ao carregar contatos")))))
    (set (setLoading false)).

(** [`${c.name} ${c.email || ""} ${c.phone || ""}`] *)
Definition searchable (c : Contact.t) : string :=
  Contact.name c +:+ " " +:+ opt_or (Contact.email c) "" +:+ " "
    +:+ opt_or (Contact.phone c) "".

(** [sel && v !== sel] for the value [sel] of a select *)
Definition excluded {A} `{EqDecision A} (sel : option A) (v : A) : bool :=
  match sel with
  | Some x => negb (bool_decide (v = x))
  | None => false
  end.

Definition filtered (rt : Runtime) (rows : list Contact.t) (q : string)
    (stage : option Stage) (heat : option Heat) (awaiting : option AwaitStatus)
    (onlyReal : bool) : list Contact.t :=
  let s := toLowerCase rt (trim rt q) in
  List.filter (fun c =>
    if truthy s && negb (includes (toLowerCase rt (searchable c)) s) then false
    else if excluded stage (Contact.stage c) then false
    else if excluded heat (Contact.heat c) then false
    else if excluded awaiting (Contact.await_status c) then false
    else if onlyReal && negb (Contact.is_real c) then false
    else true) rows.

Definition toggleReal (render : State) (id : Z) (current : bool) : Proc State unit :=
  let previous := rows render in
  set (setRows (List.map (fun r =>
         if (Contact.id r =? id)%Z then Contact.with_is_real r (negb current) else r))) ;;
  try_catch
    (_ <- await (crm.updateContact id
                   (ContactUpdate.mk None None None None None None
                      (Some (negb current)) None)) ;;
     Return tt)
    (fun _ => set (setRows (fun _ => previous))).

Definition quickAdd : Proc State unit :=
  name <- ask (prompt "Nome do contato:" None) ;;
  match name with
  | None | Some EmptyString => Return tt
  | Some name =>
      newC <- await (crm.createContact
                (ContactCreate.mk name None None lead warm none true None)) ;;
      set (setRows (fun r => newC :: r))
  end.

Definition remove (render : State) (id : Z) : Proc State unit :=
  sure <- ask (confirm "Excluir este contato?") ;;
  if negb sure then Return tt else
  let prev := rows render in
  set (setRows (List.filter (fun x => negb (Contact.id x =? id)%Z))) ;;
  try_catch
    (_ <- await (crm.deleteContact id) ;; Return tt)
    (fun _ => set (setRows (fun _ => prev))).

End Contacts.

(** ** pages/Calendar.tsx *)

Module Calendar.

(** What [toISODate] reads of a [Date]: its local year, month (from 0) and
    day of the month. *)
Record Date := mkDate {
  getFullYear : Z;
  getMonth : Z;
  getDate : Z
}.

(** [(n) => (n < 10 ? `0${n}` : `${n}`)] *)
Definition pad (n : Z) : string :=
  if (n <? 10)%Z then "0" +:+ crm.String_of_Z n else crm.String_of_Z n.

Definition toISODate (d : Date) : string :=
  crm.String_of_Z (getFullYear d) +:+ "-" +:+ pad (getMonth d + 1) +:+ "-"
    +:+ pad (getDate d).

Record State := mkState {
  start : string;
  end_ : string;
  rows : list Obligation.t;
  loading : bool;
  q : string;
  error : option string
}.

Definition setRows (f : list Obligation.t -> list Obligation.t) (s : State) : State :=
  mkState (start s) (end_ s) (f (rows s)) (loading s) (q s) (error s).
Definition setLoading (b : bool) (s : State) : State :=
  mkState (start s) (end_ s) (rows s) b (q s) (error s).
Definition setError (e : option string) (s : State) : State :=
  mkState (start s) (end_ s) (rows s) (loading s) (q s) e.

Definition refresh (render : State) : Proc State unit :=
  finally
    (try_catch
       (set (setLoading true) ;;
        data <- await (crm.listObligations
                  (Some (crm.mkRange (Some (Some (start render)))
                                     (Some (Some (end_ render)))))) ;;
        set (setRows (fun _ => data)))
       (fun e => set (setError (Some (or_else (message e) "Falha ao carregar obrigações")))))
    (set (setLoading false)).

(** [`${o.title} ${o.description || ""}`] *)
Definition searchable (o : Obligation.t) : string :=
  Obligation.title o +:+ " " +:+ opt_or (Obligation.description o) "".

(** The callback of [rows.filter] in [filtered], for [s] the trimmed,
    lower-cased query. *)
Definition matches (rt : Runtime) (s : string) (o : Obligation.t) : bool :=
  if negb (truthy s) then true
  else includes (toLowerCase rt (searchable o)) s.

Definition filtered (rt : Runtime) (rows : list Obligation.t) (q : string)
    : list Obligation.t :=
  let s := toLowerCase rt (trim rt q) in
  List.filter (matches rt s) rows.

Definition toggleDone (render : State) (o : Obligation.t) : Proc State unit :=
  let prev := rows render in
  let nextStatus := if decide (Obligation.status o = Status.done) then Status.open else Status.done in
  set (setRows (List.map (fun x =>
         if (Obligation.id x =? Obligation.id o)%Z
         then Obligation.with_status x nextStatus else x))) ;;
  try_catch
    (_ <- await (crm.updateObligation (Obligation.id o)
                   (ObligationUpdate.mk None None None (Some nextStatus) None)) ;;
     Return tt)
    (fun _ => set (setRows (fun _ => prev))).

(** [today] is the render's [toISODate(new Date())]. *)
Definition quickAdd (today : string) : Proc State unit :=
  title <- ask (prompt "Título da obrigação:" None) ;;
  match title with
  | None | Some EmptyString => Return tt
  | Some title =>
      w <- ask (prompt "Data/hora (YYYY-MM-DD HH:MM):" (Some (today +:+ " 09:00"))) ;;
      let when := opt_or w (today +:+ " 09:00") in
      let iso := replace when " " "T" +:+ ":00" in
      created <- await (crm.createObligation
                   (ObligationCreate.mk title None iso Status.open None)) ;;
      set (setRows (fun r => created :: r))
  end.

Definition remove (render : State) (id : Z) : Proc State unit :=
  sure <- ask (confirm "Excluir esta obrigação?") ;;
  if negb sure then Return tt else
  let prev := rows render in
  set (setRows (List.filter (fun x => negb (Obligation.id x =? id)%Z))) ;;
  try_catch
    (_ <- await (crm.deleteObligation id) ;; Return tt)
    (fun _ => set (setRows (fun _ => prev))).

(** The arrays of one render, by reference (see the store below). *)
Abbreviation Store := (list (list Obligation.t)).
Abbreviation Ref := nat.

Section Render.
Variable rt : Runtime.
(** The time value of [new Date(iso)], in milliseconds; [None] is an invalid
    date, whose time value is [NaN]. *)
Variable Date_parse : string -> option Z.
(** The time values [new Date()] gives during the render: [clock n] is what
    the reading made after [n] others gives. *)
Variable clock : nat -> Z.

(** A computation that reads the clock: from the number of readings made
    before it, its value and the number of readings made after it. *)
Definition Reading (A : Type) : Type := nat -> A * nat.

(** [new Date()] *)
Definition new_Date : Reading Z := fun n => (clock n, S n).

(** [arr.filter(p)] for a callback that reads the clock: the callback is
    called on the elements in order. *)
Fixpoint filterM {A} (p : A -> Reading bool) (l : list A) : Reading (list A) :=
  fun n =>
    match l with
    | [] => ([], n)
    | x :: t =>
        let '(b, n) := p x n in
        let '(r, n) := filterM p t n in
        (if b then x :: r else r, n)
    end.

Definition due (o : Obligation.t) : option Z := Date_parse (Obligation.due_date o).

(** [o.status === "open" && new Date(o.due_date) < new Date()]: the clock
    is read for an open obligation only, and a comparison with [NaN] is
    false. *)
Definition is_overdue (o : Obligation.t) : Reading bool :=
  fun n =>
    if bool_decide (Obligation.status o = Status.open) then
      let '(now, n) := new_Date n in
      (match due o with Some t => (t <? now)%Z | None => false end, n)
    else (false, n).
(** [o.status === "open" && new Date(o.due_date) >= new Date()] *)
Definition is_upcoming (o : Obligation.t) : Reading bool :=
  fun n =>
    if bool_decide (Obligation.status o = Status.open) then
      let '(now, n) := new_Date n in
      (match due o with Some t => (now <=? t)%Z | None => false end, n)
    else (false, n).
Definition is_done (o : Obligation.t) : bool :=
  bool_decide (Obligation.status o = Status.done).

Definition overdue (filtered : list Obligation.t) : Reading (list Obligation.t) :=
  filterM is_overdue filtered.
Definition upcoming (filtered : list Obligation.t) : Reading (list Obligation.t) :=
  filterM is_upcoming filtered.
Definition done (filtered : list Obligation.t) : list Obligation.t :=
  List.filter is_done filtered.

(** The three constants [overdue], [upcoming] and [done] of one render, in
    the order the component body computes them; the first reading of the
    render is [clock 0]. *)
Definition buckets (filtered : list Obligation.t)
    : list Obligation.t * list Obligation.t * list Obligation.t :=
  let '(overdue, n) := overdue filtered 0%nat in
  let '(upcoming, _) := upcoming filtered n in
  (overdue, upcoming, done filtered).

(** [(a, b) => +new Date(a.due_date) - +new Date(b.due_date)] *)
Definition by_due_date (a b : Obligation.t) : option Z :=
  match due a, due b with
  | Some x, Some y => Some (x - y)%Z
  | _, _ => None
  end.

(** The component [Section]: the obligations it lists, top to bottom. *)
Definition Section_ (data : list Obligation.t) : list Obligation.t :=
  match data with
  | [] => []
  | _ => sort rt by_due_date data
  end.

(** *** The render with its arrays in a store

    [sort] writes the array it is called on. The arrays of one render are
    therefore kept in a store and addressed by reference, so that what
    [data.sort] overwrites is visible. *)

Definition deref (h : Store) (r : Ref) : list Obligation.t := default [] (h !! r).

(** A new array object. *)
Definition alloc (h : Store) (v : list Obligation.t) : Ref * Store :=
  (length h, (h ++ [v])%list).

(** [arr.filter(p)] returns a new array. *)
Definition Array_filter (p : Obligation.t -> bool) (arr : Ref) (h : Store)
    : Ref * Store :=
  alloc h (List.filter p (deref h arr)).

(** [arr.filter(p)] for a callback that reads the clock. *)
Definition Array_filterM (p : Obligation.t -> Reading bool) (arr : Ref) (h : Store)
    : Reading (Ref * Store) :=
  fun n => let '(v, n) := filterM p (deref h arr) n in (alloc h v, n).

(** [arr.sort(comparefn)] sorts [arr] in place and returns it. *)
Definition Array_sort (comparefn : Obligation.t -> Obligation.t -> option Z)
    (arr : Ref) (h : Store) : Ref * Store :=
  (arr, <[arr := sort rt comparefn (deref h arr)]> h).

Definition Section_in_store (data : Ref) (h : Store) : list Obligation.t * Store :=
  match deref h data with
  | [] => ([], h)
  | _ => let '(sorted, h) := Array_sort by_due_date data h in (deref h sorted, h)
  end.

(** One render of the component body from the state's [rows] and [q]: the
    three lists shown, and the store it leaves. *)
Definition render (rows : Ref) (q : string) (h : Store)
    : list Obligation.t * list Obligation.t * list Obligation.t * Store :=
  let s := toLowerCase rt (trim rt q) in
  let '(filtered, h) := Array_filter (matches rt s) rows h in
  let '(overdue, h, n) := Array_filterM is_overdue filtered h 0%nat in
  let '(upcoming, h, _) := Array_filterM is_upcoming filtered h n in
  let '(done, h) := Array_filter is_done filtered h in
  let '(atrasados, h) := Section_in_store overdue h in
  let '(proximos, h) := Section_in_store upcoming h in
  let '(concluidos, h) := Section_in_store done h in
  (atrasados, proximos, concluidos, h).

End Render.

End Calendar.

(** * Vocabulary of the statements *)

(** A service on which every call is rejected. *)
Definition rejecting (env : Env) : Prop :=
  forall (A : Type) (c : crm.Api A), exists e, settle env A c = Rejected e.

(** Every remote call issued during the run [r] was rejected. *)
Definition all_rejected {St R} (env : Env) (r : Run St R) : Prop :=
  Forall (fun c : Call => exists e, settle env (projT1 c) (projT2 c) = Rejected e)
         (calls r).

(** [x'] is [x] in every field but the designated one. *)
Definition Deal_but_column (x x' : Deal.t) : Prop :=
  Deal.id x' = Deal.id x /\ Deal.contact_id x' = Deal.contact_id x /\
  Deal.title x' = Deal.title x /\ Deal.value x' = Deal.value x /\
  Deal.priority x' = Deal.priority x /\ Deal.due_date x' = Deal.due_date x /\
  Deal.tags x' = Deal.tags x /\ Deal.created_at x' = Deal.created_at x.

Definition Obligation_but_status (x x' : Obligation.t) : Prop :=
  Obligation.id x' = Obligation.id x /\
  Obligation.owner_user_id x' = Obligation.owner_user_id x /\
  Obligation.title x' = Obligation.title x /\
  Obligation.description x' = Obligation.description x /\
  Obligation.due_date x' = Obligation.due_date x /\
  Obligation.contact_id x' = Obligation.contact_id x /\
  Obligation.created_at x' = Obligation.created_at x.

Definition Contact_but_is_real (x x' : Contact.t) : Prop :=
  Contact.id x' = Contact.id x /\
  Contact.owner_user_id x' = Contact.owner_user_id x /\
  Contact.name x' = Contact.name x /\ Contact.phone x' = Contact.phone x /\
  Contact.email x' = Contact.email x /\ Contact.stage x' = Contact.stage x /\
  Contact.heat x' = Contact.heat x /\
  Contact.await_status x' = Contact.await_status x /\
  Contact.notes x' = Contact.notes x /\
  Contact.created_at x' = Contact.created_at x /\
  Contact.updated_at x' = Contact.updated_at x.

(** The frame of an optimistic update of the entity [id]: [arr'] has the
    length of [arr]; position by position it holds the entity [arr] holds
    there, changed at most in the designated field ([but]) and not at all
    when its identity is not [id]; and at most one position differs. *)
Definition frame {A} (key : A -> Z) (but : A -> A -> Prop) (id : Z)
    (arr arr' : list A) : Prop :=
  length arr' = length arr /\
  (forall i x, arr !! i = Some x ->
     exists x', arr' !! i = Some x' /\ but x x' /\ (key x <> id -> x' = x)) /\
  (forall i j x y, arr !! i = Some x -> arr !! j = Some y ->
     arr' !! i <> Some x -> arr' !! j <> Some y -> i = j).

(** The text a query is looked up in: for a contact its name, a space, its
    e-mail, a space and its phone; for a deal its title, a space and its tags
    with a space between them; for an obligation its title, a space and its
    description. A part that is absent counts as empty. *)
Definition Contact_text (c : Contact.t) : string :=
  Contact.name c +:+ " " +:+ default "" (Contact.email c) +:+ " "
    +:+ default "" (Contact.phone c).
Definition Deal_text (d : Deal.t) : string :=
  Deal.title d +:+ " " +:+ join " " (default [] (Deal.tags d)).
Definition Obligation_text (o : Obligation.t) : string :=
  Obligation.title o +:+ " " +:+ default "" (Obligation.description o).

(** The query [q] is found in the text [hay]: the text, lower-cased as a
    whole by the engine, has the trimmed and lower-cased query as a
    substring. *)
Definition found (rt : Runtime) (hay q : string) : Prop :=
  exists pre post, toLowerCase rt hay = pre +:+ toLowerCase rt (trim rt q) +:+ post.

(** [hay] contains [q] as a case-insensitive substring: some stretch [u] of
    [hay] is [q] up to the case of the letters A to Z. *)
Definition contains_ci (hay q : string) : Prop :=
  exists pre u post, hay = pre +:+ u +:+ post /\ ascii_lower u = ascii_lower q.

(** The clock reads [t] throughout the render. *)
Definition steady (clock : nat -> Z) (t : Z) : Prop := forall n, clock n = t.

(** The clock never goes back during the render. *)
Definition never_back (clock : nat -> Z) : Prop :=
  forall i j, (i <= j)%nat -> (clock i <= clock j)%Z.

(** The clock reads times from [lo] to [hi] during the render. *)
Definition within (clock : nat -> Z) (lo hi : Z) : Prop :=
  forall n, (lo <= clock n <= hi)%Z.

(** The store [h'] holds every array of [h], unchanged, and possibly more. *)
Definition extends (h h' : Calendar.Store) : Prop :=
  (length h <= length h')%nat /\ forall r, (r < length h)%nat -> h' !! r = h !! r.

(** [a] is due no later than [b], both carrying a due timestamp. *)
Definition due_le (Date_parse : string -> option Z) (a b : Obligation.t) : Prop :=
  exists x y, Calendar.due Date_parse a = Some x /\
              Calendar.due Date_parse b = Some y /\ (x <= y)%Z.


(** The calls of [env] go through the HTTP helper into the world [w]. *)
Definition through (w : World) (env : Env) : Prop :=
  forall (A : Type) (c : crm.Api A), settle env A c = crm.perform w c.

(** A service on which every call is accepted. *)
Definition accepting (env : Env) : Prop :=
  forall (A : Type) (c : crm.Api A), exists v, settle env A c = Resolved v.

(** The message for a response of a status outside 200..299: its body text,
    or ["HTTP <status>"] when the text is empty or cannot be read. *)
Definition status_message {T} (res : Response T) : string :=
  match text res with
  | Resolved (String a t) => String a t
  | _ => "HTTP " +:+ String_of_N (status res)
  end.

(** The handler [p] issues at most one remote call, whatever happens. *)
Definition at_most_one_call {St R} (p : Proc St R) : Prop :=
  forall env inflight s, (length (calls (exec env inflight p s)) <= 1)%nat.

(** Decimal digits, and a number written on two and on four of them, with
    leading zeros. *)
Definition digit (n : Z) : ascii := ascii_of_nat (48 + Z.to_nat n).
Definition two_digits (n : Z) : string :=
  String (digit (n / 10)) (String (digit (n mod 10)) "").
Definition four_digits (n : Z) : string :=
  two_digits (n / 100) +:+ two_digits (n mod 100).

(** The open obligations [new Date] makes no date of: they are in no list
    of the calendar. *)
Definition undated (Date_parse : string -> option Z) (o : Obligation.t) : bool :=
  bool_decide (Obligation.status o = Status.open) &&
  match Calendar.due Date_parse o with Some _ => false | None => true end.

(** The path a call asks for. *)
Definition path_of {A} (c : crm.Api A) : string := (crm.request_of c).1.1.

(** The stable order holds the elements it was given. *)
Lemma insert_Permutation {A} (cmp : A -> A -> option Z) (x : A) (l : list A) :
  Permutation (JS.insert cmp x l) (x :: l).
Proof.
  induction l as [|y l IH]; simpl; [reflexivity|].
  destruct (SortCompare cmp x y <=? 0)%Z; [reflexivity|].
  rewrite IH. apply perm_swap.
Qed.

Lemma stable_sort_Permutation {A} (cmp : A -> A -> option Z) (l : list A) :
  Permutation (stable_sort cmp l) l.
Proof.
  induction l as [|x l IH]; simpl; [reflexivity|].
  unfold stable_sort in *. simpl. rewrite insert_Permutation, IH. reflexivity.
Qed.

(** * Sample data

    Worlds, environments and collections on which the statements below are
    evaluated. *)

Module Sample.

(** A service that answers every request with the same status and body;
    [parsed] is how [res.json()] settles. *)
Definition world (token : option string) (st : N) (body : string)
    (parsed : forall T : Type, result T) : World :=
  mkWorld None
    (match token with Some t => {[ "token" := t ]} | None => ∅ end)
    (fun T _ => Resolved (mkResponse st (Resolved body) (parsed T))).

Definition unparsable (T : Type) : result T :=
  Rejected (mkError "Unexpected end of JSON input").

(** Nobody is logged in, and a delete is answered [204 No Content]. *)
Definition logged_out : World := world None 204 "" unparsable.

(** A logged-in session against a service that answers [404]. *)
Definition not_found : World := world (Some "s3cr3t") 404 "Not Found" unparsable.

Definition deal (id : Z) (title : string) (column : Column) : Deal.t :=
  Deal.mk id 0 title 0 column "normal" None (Some []) "2024-01-01T00:00:00".

Definition contact (id : Z) (name : string) (is_real : bool) : Contact.t :=
  Contact.mk id 1 name None None lead warm none is_real None
             "2024-01-01T00:00:00" "2024-01-01T00:00:00".

Definition obligation (id : Z) (title due_date : string) (status : Status.t)
    : Obligation.t :=
  Obligation.mk id 1 title None due_date status None "2023-12-01T00:00:00".

(** A service on which every call fails. *)
Definition failing (A : Type) (c : crm.Api A) : result A :=
  Rejected (mkError "Failed to fetch").

(** A service on which every call succeeds; what it creates gets identity 42. *)
Definition serving (A : Type) (c : crm.Api A) : result A :=
  match c in crm.Api A return result A with
  | crm.listContacts => Resolved [contact 1 "Ana" true]
  | crm.getContact id => Resolved (contact id "Ana" true)
  | crm.createContact p =>
      Resolved (Contact.mk 42 1 (ContactCreate.name p) (ContactCreate.phone p)
                  (ContactCreate.email p) (ContactCreate.stage p)
                  (ContactCreate.heat p) (ContactCreate.await_status p)
                  (ContactCreate.is_real p) (ContactCreate.notes p)
                  "2024-01-01T00:00:00" "2024-01-01T00:00:00")
  | crm.updateContact id _ => Resolved (contact id "Ana" true)
  | crm.deleteContact _ => Resolved (Some true)
  | crm.listDeals _ => Resolved [deal 1 "Site" novo]
  | crm.createDeal p =>
      Resolved (Deal.mk 42 (DealCreate.contact_id p) (DealCreate.title p)
                  (DealCreate.value p) (DealCreate.column p)
                  (DealCreate.priority p) (DealCreate.due_date p)
                  (DealCreate.tags p) "2024-01-01T00:00:00")
  | crm.updateDeal id _ => Resolved (deal id "Site" ganho)
  | crm.deleteDeal _ => Resolved (Some true)
  | crm.listObligations _ =>
      Resolved [obligation 1 "Ligar" "2024-01-01T09:00" Status.open]
  | crm.createObligation p =>
      Resolved (Obligation.mk 42 1 (ObligationCreate.title p)
                  (ObligationCreate.description p) (ObligationCreate.due_date p)
                  (ObligationCreate.status p) (ObligationCreate.contact_id p)
                  "2024-01-01T00:00:00")
  | crm.updateObligation id _ =>
      Resolved (obligation id "Ligar" "2024-01-01T09:00" Status.done)
  | crm.deleteObligation _ => Resolved (Some true)
  end.

(** A user who answers every [confirm] with [sure] and types [typed] into
    every [prompt] ([None]: cancels it). *)
Definition user (sure : bool) (typed : option string) (A : Type) (d : Dialog A) : A :=
  match d in Dialog A return A with
  | confirm _ => sure
  | prompt _ _ => typed
  end.

Definition env (sure : bool) (typed : option string)
    (service : forall A : Type, crm.Api A -> result A) : Env :=
  mkEnv (user sure typed) service.

(** A user who types [typed m] into the prompt that shows the text [m]. *)
Definition scripted (sure : bool) (typed : string -> option string)
    (A : Type) (d : Dialog A) : A :=
  match d in Dialog A return A with
  | confirm _ => sure
  | prompt m _ => typed m
  end.

(** The page in a browser: the calls go through [http] into the world [w]. *)
Definition browser (sure : bool) (typed : option string) (w : World) : Env :=
  mkEnv (user sure typed) (fun A c => crm.perform w c).

Definition kanban (items : list Deal.t) : Kanban.State :=
  Kanban.mkState items false "" None.
Definition contacts (rows : list Contact.t) : Contacts.State :=
  Contacts.mkState rows false "" None None None false None.
Definition calendar (rows : list Obligation.t) : Calendar.State :=
  Calendar.mkState "2024-01-01" "2024-01-08" rows false "" None.

(** The time values of the two timestamps of the calendar scenario, read as
    UTC; every other string is taken for an invalid date. *)
Definition Date_parse (iso : string) : option Z :=
  if String.eqb iso "2024-01-01T09:00" then Some 1704099600000%Z
  else if String.eqb iso "2024-01-02T09:00" then Some 1704186000000%Z
  else None.

(** A clock that reads [t] whenever it is read. *)
Definition at_ (t : Z) : nat -> Z := fun _ => t.

(** A clock that advances by one millisecond between two readings, for a
    second. *)
Definition ticking (t : Z) : nat -> Z := fun n => (t + Z.of_nat (Nat.min n 1000))%Z.

(** *** An engine

    The built-ins on text made of ASCII characters and Greek capital
    letters, which is what the samples are written in; any other character
    is left as it is. *)

Definition isWhiteSpace (c : ascii) : bool :=
  let n := nat_of_ascii c in
  (n =? 32)%nat || (9 <=? n)%nat && (n <=? 13)%nat.

Fixpoint trimStart (s : string) : string :=
  match s with
  | EmptyString => EmptyString
  | String c t => if isWhiteSpace c then trimStart t else s
  end.

Fixpoint trimEnd (s : string) : string :=
  match s with
  | EmptyString => EmptyString
  | String c t =>
      match trimEnd t with
      | EmptyString => if isWhiteSpace c then EmptyString else String c EmptyString
      | t' => String c t'
      end
  end.

Definition trim (s : string) : string := trimEnd (trimStart s).

Definition between (lo hi : nat) (c : ascii) : bool :=
  (lo <=? nat_of_ascii c)%nat && (nat_of_ascii c <=? hi)%nat.

(** The text starts with a letter: A to Z, a to z, or a Greek letter, which
    UTF-8 writes CE 91 to CE A9 (capitals), CE B1 to CE BF and CF 80 to
    CF 89 (small letters). *)
Definition starts_with_letter (s : string) : bool :=
  match s with
  | String c t =>
      between 65 90 c || between 97 122 c ||
      match t with
      | String b _ =>
          between 206 206 c && (between 145 169 b || between 177 191 b) ||
          between 207 207 c && between 128 137 b
      | EmptyString => false
      end
  | EmptyString => false
  end.

(** [toLowerCase]: the letters A to Z and the Greek capitals go to their
    small letters. A capital sigma (CE A3) that ends a word, a letter before
    it and none after it, goes to the final small sigma (CF 82), any other
    one to the small sigma (CF 83). [after_letter] tells whether the
    character before [s] is a letter. *)
Fixpoint lower (after_letter : bool) (s : string) : string :=
  match s with
  | EmptyString => EmptyString
  | String c t =>
      if between 206 206 c then
        match t with
        | String b t' =>
            if between 163 163 b then
              String "207"
                (String (if after_letter && negb (starts_with_letter t')
                         then "130" else "131")%char
                   (lower true t'))
            else if between 145 159 b then
              String c (String (ascii_of_nat (nat_of_ascii b + 32)) (lower true t'))
            else if between 160 169 b then
              String "207" (String (ascii_of_nat (nat_of_ascii b - 32)) (lower true t'))
            else String c (String b (lower (between 177 191 b) t'))
        | EmptyString => String c EmptyString
        end
      else if between 207 207 c then
        match t with
        | String b t' => String c (String b (lower (between 128 137 b) t'))
        | EmptyString => String c EmptyString
        end
      else
        String (ascii_lower_unit c) (lower (between 65 90 c || between 97 122 c) t)
  end.

Definition toLowerCase (s : string) : string := lower false s.

Lemma lower_ascii (after_letter : bool) (s : string) :
  is_ascii s = true -> lower after_letter s = ascii_lower s.
Proof.
  revert after_letter. induction s as [|c s IH]; intros after_letter H; [reflexivity|].
  simpl in H. apply andb_true_iff in H as [Hc Hs].
  change (ascii_lower (String c s)) with (String (ascii_lower_unit c) (ascii_lower s)).
  rewrite <- (IH (between 65 90 c || between 97 122 c) Hs).
  assert (H206 : between 206 206 c = false).
  { unfold between. apply Nat.ltb_lt in Hc.
    destruct (Nat.leb_spec 206 (nat_of_ascii c)); [lia | reflexivity]. }
  assert (H207 : between 207 207 c = false).
  { unfold between. apply Nat.ltb_lt in Hc.
    destruct (Nat.leb_spec 207 (nat_of_ascii c)); [lia | reflexivity]. }
  cbn [lower]. rewrite H206, H207. reflexivity.
Qed.

(** An engine whose [sort] is the insertion sort, whatever the comparator. *)
Definition runtime : Runtime :=
  mkRuntime toLowerCase trim (@stable_sort)
    (lower_ascii false) eq_refl (@stable_sort_Permutation) (fun _ _ _ _ => eq_refl).

End Sample.

(** * Properties *)

(** ** The HTTP helper *)

Section Http.
Context {T : Type} (w : World) (path : string) (init : option RequestInit)
        (query : option crm.Query).

Lemma ok_iff (res : Response T) :
  ok res = true <-> (200 <= status res <= 299)%N.
Proof.
  unfold ok. rewrite andb_true_iff, !N.leb_le. tauto.
Qed.

(** The header set of a request: the caller's headers first, then the
    authorization header, then the content type. *)
Lemma http_request_headers (k : string) :
  req_headers (crm.http_request w path init query) !! k =
  match from_option own_properties ∅ (init ≫= init_headers) !! k with
  | Some v => Some v
  | None =>
      match crm.authHeaders w !! k with
      | Some v => Some v
      | None => ({[ "Content-Type" := "application/json" ]} : gmap string string) !! k
      end
  end.
Proof.
  unfold crm.http_request, spread. simpl.
  rewrite !lookup_union.
  destruct (from_option own_properties ∅ (init ≫= init_headers) !! k) as [v|] eqn:E1;
    destruct (crm.authHeaders w !! k) as [v'|] eqn:E2;
    destruct (({[ "Content-Type" := "application/json" ]} : gmap string string) !! k);
    reflexivity.
Qed.

Lemma authHeaders_lookup :
  crm.authHeaders w !! "Authorization" =
  match localStorage w !! "token" with
  | Some token => if truthy token then Some ("Bearer " +:+ token) else None
  | None => None
  end.
Proof.
  unfold crm.authHeaders.
  destruct (localStorage w !! "token") as [token|]; [|apply lookup_empty].
  destruct (truthy token); [apply lookup_singleton_eq | apply lookup_empty].
Qed.

End Http.

Lemma truthy_iff (s : string) : truthy s = true <-> s <> "".
Proof. destruct s; simpl; split; congruence. Qed.

(** No exported function passes headers of its own. *)
Lemma request_of_no_headers {A} (c : crm.Api A) :
  from_option own_properties ∅ ((crm.request_of c).1.2 ≫= init_headers) = ∅.
Proof. destruct c; reflexivity. Qed.

Lemma outgoing_eq (w : World) {A} (c : crm.Api A) :
  crm.outgoing w c =
  crm.http_request w (crm.request_of c).1.1 (crm.request_of c).1.2 (crm.request_of c).2.
Proof. unfold crm.outgoing. destruct (crm.request_of c) as [[p i] q]. reflexivity. Qed.

Lemma outgoing_authorization (w : World) {A} (c : crm.Api A) :
  req_headers (crm.outgoing w c) !! "Authorization" =
  match localStorage w !! "token" with
  | Some token => if truthy token then Some ("Bearer " +:+ token) else None
  | None => None
  end.
Proof.
  rewrite outgoing_eq, http_request_headers, request_of_no_headers, lookup_empty.
  rewrite authHeaders_lookup.
  destruct (localStorage w !! "token") as [token|]; [destruct (truthy token)|];
    reflexivity.
Qed.

(** ** C7: how the helper settles *)

(** C7, as the claim states it, fails: a [2xx] response whose body is not
    JSON (here [204 No Content], body empty) has [res.ok] true, so the helper
    awaits [res.json()], and the rejection of that promise rejects the
    helper. *)
Lemma C7_http_2xx_may_reject :
  ok (mkResponse 204 (Resolved "") (Sample.unparsable crm.Ack) : Response crm.Ack) = true /\
  crm.perform Sample.logged_out (crm.deleteContact 7) =
    Rejected (mkError "Unexpected end of JSON input").
Proof. split; reflexivity. Qed.

(** C7 (amended): once [fetch] has answered with a response, a status
    outside 200..299 rejects the helper with an [Error] whose message is the
    body text when that text is non-empty and ["HTTP <status>"] when the body
    is empty or cannot be read; a status inside 200..299 settles the helper
    as [res.json()] settles: it resolves with the parsed body, and rejects
    when the body does not parse. *)
Theorem C7_http_settles {T : Type} (w : World) (path : string)
    (init : option RequestInit) (query : option crm.Query) (res : Response T) :
  fetch w T (crm.http_request w path init query) = Resolved res ->
  (~ (200 <= status res <= 299)%N ->
     (forall body, text res = Resolved body -> body <> "" ->
        crm.http (T:=T) w path init query = Rejected (mkError body)) /\
     (text res = Resolved "" \/ (exists e, text res = Rejected e) ->
        crm.http (T:=T) w path init query =
          Rejected (mkError ("HTTP " +:+ String_of_N (status res))))) /\
  ((200 <= status res <= 299)%N ->
     (forall v, json res = Resolved v ->
        crm.http w path init query = Resolved v) /\
     (forall e, json res = Rejected e ->
        crm.http (T:=T) w path init query = Rejected e)).
Proof.
  intros Hfetch. unfold crm.http. rewrite Hfetch. split.
  - intros Hst.
    assert (Hok : ok res = false).
    { destruct (ok res) eqn:E; [|reflexivity]. apply ok_iff in E. contradiction. }
    rewrite Hok. simpl. split.
    + intros body Hbody Hne. rewrite Hbody. unfold or_else.
      apply truthy_iff in Hne. rewrite Hne. reflexivity.
    + intros [Hempty | [e He]].
      * rewrite Hempty. reflexivity.
      * rewrite He. reflexivity.
  - intros Hst. apply ok_iff in Hst. rewrite Hst. simpl. split.
    + intros v Hv. exact Hv.
    + intros e He. exact He.
Qed.

Lemma C7_http_settles_witness :
  let res : Response (list Contact.t) :=
    mkResponse 404 (Resolved "Not Found") (Sample.unparsable _) in
  fetch Sample.not_found _ (crm.http_request Sample.not_found "/contacts" None None)
    = Resolved res /\
  ~ (200 <= status res <= 299)%N /\
  crm.http (T:=list Contact.t) Sample.not_found "/contacts" None None =
    Rejected (mkError "Not Found").
Proof.
  intros res.
  assert (Hf : fetch Sample.not_found _
                 (crm.http_request Sample.not_found "/contacts" None None)
               = Resolved res) by reflexivity.
  assert (Hst : ~ (200 <= status res <= 299)%N) by (simpl; lia).
  split; [exact Hf|]. split; [exact Hst|].
  apply (proj1 (proj1 (C7_http_settles Sample.not_found "/contacts" None None res Hf) Hst)
           "Not Found"); [reflexivity | discriminate].
Defined.

(** ** C9: the authorization header *)

(** C9, as the claim states it, fails: with no token in [localStorage],
    [authHeaders] returns the empty object and the request leaves without an
    [Authorization] header. *)
Lemma C9_no_token_no_authorization :
  req_headers (crm.outgoing Sample.logged_out crm.listContacts) !! "Authorization"
    = None.
Proof. reflexivity. Qed.

(** C9 (amended): for every call of an exported function (list, get,
    create, update and delete of contacts, deals and obligations), when
    [localStorage] holds a non-empty token the outgoing request carries the
    header [Authorization: Bearer <token>]; when it holds no token, or an
    empty one, the request carries no [Authorization] header. *)
Theorem C9_bearer_when_token (w : World) {A : Type} (c : crm.Api A) :
  (forall token, localStorage w !! "token" = Some token -> token <> "" ->
     req_headers (crm.outgoing w c) !! "Authorization" = Some ("Bearer " +:+ token)) /\
  (localStorage w !! "token" = None \/ localStorage w !! "token" = Some "" ->
     req_headers (crm.outgoing w c) !! "Authorization" = None).
Proof.
  rewrite outgoing_authorization. split.
  - intros token Htok Hne. rewrite Htok. apply truthy_iff in Hne. rewrite Hne.
    reflexivity.
  - intros [Hnone | Hempty]; [rewrite Hnone | rewrite Hempty]; reflexivity.
Qed.

Lemma C9_bearer_when_token_witness :
  localStorage Sample.not_found !! "token" = Some "s3cr3t" /\
  req_headers (crm.outgoing Sample.not_found (crm.updateDeal 1 DealUpdate.empty))
    !! "Authorization" = Some "Bearer s3cr3t".
Proof.
  split; [reflexivity|].
  apply (proj1 (C9_bearer_when_token Sample.not_found (crm.updateDeal 1 DealUpdate.empty))
           "s3cr3t"); [reflexivity | discriminate].
Defined.

(** ** Handlers *)

Ltac settle_cases env c :=
  let E := fresh "Hsettle" in destruct (settle env _ c) eqn:E.

(** *** C10: moving a deal to the column it is in *)

(** C10: when the target column is the deal's current column, [move]
    returns at once: it is the handler that does nothing, so no snapshot is
    taken, the state is left as it is (whatever else happens meanwhile) and
    no remote call is issued. *)
Theorem C10_move_same_column_noop (env : Env) (inflight : Kanban.State -> Kanban.State)
    (render s : Kanban.State) (d : Deal.t) (to : Column) :
  to = Deal.column d ->
  Kanban.move render d to = Return tt /\
  final (exec env inflight (Kanban.move render d to) s) = s /\
  calls (exec env inflight (Kanban.move render d to) s) = [] /\
  suspended env (Kanban.move render d to) s = (s, None).
Proof.
  intros ->. unfold Kanban.move.
  destruct (decide (Deal.column d = Deal.column d)) as [_|Hne]; [|contradiction].
  repeat split.
Qed.

Lemma C10_move_same_column_noop_witness :
  let s := Sample.kanban [Sample.deal 1 "Site" novo] in
  novo = Deal.column (Sample.deal 1 "Site" novo) /\
  final (exec (Sample.env true None Sample.serving) (Kanban.setItems (fun _ => []))
           (Kanban.move s (Sample.deal 1 "Site" novo) novo) s) = s /\
  calls (exec (Sample.env true None Sample.serving) (Kanban.setItems (fun _ => []))
           (Kanban.move s (Sample.deal 1 "Site" novo) novo) s) = [].
Proof.
  intros s. split; [reflexivity|].
  pose proof (C10_move_same_column_noop (Sample.env true None Sample.serving)
                (Kanban.setItems (fun _ => [])) s s (Sample.deal 1 "Site" novo) novo
                eq_refl) as (_ & Hfinal & Hcalls & _).
  split; [exact Hfinal | exact Hcalls].
Defined.

(** *** C8: loading *)

Lemma or_else_nonempty (a b : string) : b <> "" -> or_else a b <> "".
Proof. unfold or_else. destruct a; simpl; [tauto | discriminate]. Qed.

(** C8: on each page, a rejected fetch makes [refresh] store a non-empty
    error message (the error's own message, or the page's fallback), leave
    the collection as it was and clear the loading flag; a fetch that
    resolves replaces the collection by the sequence returned and clears the
    loading flag. One list call is issued either way, and [refresh] itself
    never rejects. *)
Theorem C8_refresh (env : Env) :
  (forall s : Kanban.State,
     let r := run env Kanban.refresh s in
     calls r = [call (crm.listDeals None)] /\ outcome r = Resolved tt /\
     Kanban.loading (final r) = false /\
     match settle env _ (crm.listDeals None) with
     | Rejected e =>
         Kanban.items (final r) = Kanban.items s /\
         exists msg, Kanban.error (final r) = Some msg /\ msg <> "" /\
                     (message e <> "" -> msg = message e)
     | Resolved ds => Kanban.items (final r) = ds
     end) /\
  (forall s : Contacts.State,
     let r := run env Contacts.refresh s in
     calls r = [call crm.listContacts] /\ outcome r = Resolved tt /\
     Contacts.loading (final r) = false /\
     match settle env _ crm.listContacts with
     | Rejected e =>
         Contacts.rows (final r) = Contacts.rows s /\
         exists msg, Contacts.error (final r) = Some msg /\ msg <> "" /\
                     (message e <> "" -> msg = message e)
     | Resolved data => Contacts.rows (final r) = data
     end) /\
  (forall s : Calendar.State,
     let window := Some (crm.mkRange (Some (Some (Calendar.start s)))
                                     (Some (Some (Calendar.end_ s)))) in
     let r := run env (Calendar.refresh s) s in
     calls r = [call (crm.listObligations window)] /\ outcome r = Resolved tt /\
     Calendar.loading (final r) = false /\
     match settle env _ (crm.listObligations window) with
     | Rejected e =>
         Calendar.rows (final r) = Calendar.rows s /\
         exists msg, Calendar.error (final r) = Some msg /\ msg <> "" /\
                     (message e <> "" -> msg = message e)
     | Resolved data => Calendar.rows (final r) = data
     end).
Proof.
  split; [|split]; intros s; cbn.
  - settle_cases env (crm.listDeals None); cbn; repeat split.
    eexists; repeat split.
    + apply or_else_nonempty. discriminate.
    + intros Hne. apply truthy_iff in Hne. unfold or_else. rewrite Hne. reflexivity.
  - settle_cases env crm.listContacts; cbn; repeat split.
    eexists; repeat split.
    + apply or_else_nonempty. discriminate.
    + intros Hne. apply truthy_iff in Hne. unfold or_else. rewrite Hne. reflexivity.
  - settle_cases env
      (crm.listObligations
         (Some (crm.mkRange (Some (Some (Calendar.start s))) (Some (Some (Calendar.end_ s))))));
      cbn; repeat split.
    eexists; repeat split.
    + apply or_else_nonempty. discriminate.
    + intros Hne. apply truthy_iff in Hne. unfold or_else. rewrite Hne. reflexivity.
Qed.

Lemma C8_refresh_witness :
  let s := Sample.kanban [Sample.deal 7 "a" novo] in
  let r := run (Sample.browser true None Sample.not_found) Kanban.refresh s in
  settle (Sample.browser true None Sample.not_found) _ (crm.listDeals None)
    = Rejected (mkError "Not Found") /\
  Kanban.items (final r) = [Sample.deal 7 "a" novo] /\
  Kanban.loading (final r) = false /\
  Kanban.error (final r) = Some "Not Found".
Proof.
  intros s r.
  destruct (proj1 (C8_refresh (Sample.browser true None Sample.not_found)) s)
    as (_ & _ & Hloading & Hitems & _).
  split; [reflexivity|]. split; [exact Hitems|]. split; [exact Hloading|].
  reflexivity.
Defined.

(** *** C1: rollback *)

Lemma all_rejected_head {St R A} (env : Env) (c : crm.Api A) (r : Run St R) (v : A) :
  calls r = call c :: [] -> settle env A c = Resolved v -> ~ all_rejected env r.
Proof.
  intros Hcalls Hv Hall. unfold all_rejected in Hall. rewrite Hcalls in Hall.
  apply Forall_cons_1 in Hall as [[e He] _]. simpl in He. congruence.
Qed.

Ltac rollback env c :=
  cbn; settle_cases env c; cbn;
  [ intros Hall; exfalso; eapply all_rejected_head in Hall; eauto; reflexivity
  | intros _; split; reflexivity ].

(** C1: for each optimistic mutation (moving a deal, toggling an
    obligation's status, toggling a contact's [is_real], removing a deal, a
    contact or an obligation), started on the state its handler was rendered
    from: when the remote calls of the run are rejected, the collection left
    behind is the collection the snapshot was taken from, entity for entity,
    whatever other updates the state received while the call was in flight;
    the rejection is caught, so the handler itself resolves. *)
Theorem C1_rollback_restores_snapshot (env : Env) :
  (forall inflight (s : Kanban.State) (d : Deal.t) (to : Column),
     let r := exec env inflight (Kanban.move s d to) s in
     all_rejected env r ->
     Kanban.items (final r) = Kanban.items s /\ outcome r = Resolved tt) /\
  (forall inflight (s : Calendar.State) (o : Obligation.t),
     let r := exec env inflight (Calendar.toggleDone s o) s in
     all_rejected env r ->
     Calendar.rows (final r) = Calendar.rows s /\ outcome r = Resolved tt) /\
  (forall inflight (s : Contacts.State) (id : Z) (current : bool),
     let r := exec env inflight (Contacts.toggleReal s id current) s in
     all_rejected env r ->
     Contacts.rows (final r) = Contacts.rows s /\ outcome r = Resolved tt) /\
  (forall inflight (s : Kanban.State) (id : Z),
     let r := exec env inflight (Kanban.remove s id) s in
     all_rejected env r ->
     Kanban.items (final r) = Kanban.items s /\ outcome r = Resolved tt) /\
  (forall inflight (s : Contacts.State) (id : Z),
     let r := exec env inflight (Contacts.remove s id) s in
     all_rejected env r ->
     Contacts.rows (final r) = Contacts.rows s /\ outcome r = Resolved tt) /\
  (forall inflight (s : Calendar.State) (id : Z),
     let r := exec env inflight (Calendar.remove s id) s in
     all_rejected env r ->
     Calendar.rows (final r) = Calendar.rows s /\ outcome r = Resolved tt).
Proof.
  repeat apply conj.
  - intros inflight s d to. unfold Kanban.move.
    destruct (decide (Deal.column d = to)); [cbn; intros _; split; reflexivity|].
    rollback env (crm.updateDeal (Deal.id d)
                    (DealUpdate.mk None None None (Some to) None None None)).
  - intros inflight s o. unfold Calendar.toggleDone.
    rollback env (crm.updateObligation (Obligation.id o)
                    (ObligationUpdate.mk None None None
                       (Some (if decide (Obligation.status o = Status.done)
                              then Status.open else Status.done)) None)).
  - intros inflight s id current. unfold Contacts.toggleReal.
    rollback env (crm.updateContact id
                    (ContactUpdate.mk None None None None None None
                       (Some (negb current)) None)).
  - intros inflight s id. unfold Kanban.remove. cbn.
    destruct (answer env bool (confirm "Excluir este negócio?"));
      [|cbn; intros _; split; reflexivity].
    rollback env (crm.deleteDeal id).
  - intros inflight s id. unfold Contacts.remove. cbn.
    destruct (answer env bool (confirm "Excluir este contato?"));
      [|cbn; intros _; split; reflexivity].
    rollback env (crm.deleteContact id).
  - intros inflight s id. unfold Calendar.remove. cbn.
    destruct (answer env bool (confirm "Excluir esta obrigação?"));
      [|cbn; intros _; split; reflexivity].
    rollback env (crm.deleteObligation id).
Qed.

Lemma C1_rollback_restores_snapshot_witness :
  let s := Sample.kanban [Sample.deal 1 "Site" novo] in
  let r := exec (Sample.env true None Sample.failing) (fun s => s)
             (Kanban.move s (Sample.deal 1 "Site" novo) ganho) s in
  all_rejected (Sample.env true None Sample.failing) r /\
  Kanban.items (final r) = [Sample.deal 1 "Site" novo].
Proof.
  intros s r.
  assert (Hall : all_rejected (Sample.env true None Sample.failing) r).
  { repeat constructor. exists (mkError "Failed to fetch"). reflexivity. }
  split; [exact Hall|].
  exact (proj1 (proj1 (C1_rollback_restores_snapshot
                         (Sample.env true None Sample.failing))
                  (fun s => s) s (Sample.deal 1 "Site" novo) ganho Hall)).
Defined.

(** *** C3: removal *)

(** C3, as the claim states it, fails: [remove] first asks the user to
    confirm. When the user declines, nothing is filtered out and no delete is
    issued, so on a service that would have accepted the delete the
    collection [[{id:7},{id:8}]] stays as it is. *)
Lemma C3_remove_declined_keeps_entity :
  let s := Sample.kanban [Sample.deal 7 "a" novo; Sample.deal 8 "b" novo] in
  let env := Sample.env false None Sample.serving in
  settle env _ (crm.deleteDeal 7) = Resolved (Some true) /\
  suspended env (Kanban.remove s 7) s = (s, None) /\
  Kanban.items (final (run env (Kanban.remove s 7) s))
    = [Sample.deal 7 "a" novo; Sample.deal 8 "b" novo] /\
  calls (run env (Kanban.remove s 7) s) = [].
Proof. repeat split. Qed.

Lemma filter_by_id_In {A} (key : A -> Z) (id : Z) (l : list A) (x : A) :
  In x (List.filter (fun y => negb (key y =? id)%Z) l) <-> In x l /\ key x <> id.
Proof.
  rewrite filter_In, negb_true_iff, Z.eqb_neq. reflexivity.
Qed.

(** C3 (amended): on each page, once the user has accepted the
    confirmation dialog, [remove id] optimistically filters out of the
    collection exactly the entities whose identity is [id], keeping the
    others in their order, and then awaits the delete; if the delete
    resolves the collection stays so filtered, and if it rejects the
    collection is again the one the handler started from. When the user
    declines the dialog, the state is left as it is and no delete is
    issued. *)
Theorem C3_remove (env : Env) (id : Z) :
  (forall s : Kanban.State,
     let r := run env (Kanban.remove s id) s in
     let rest := List.filter (fun x => negb (Deal.id x =? id)%Z) (Kanban.items s) in
     (answer env _ (confirm "Excluir este negócio?") = true ->
        suspended env (Kanban.remove s id) s
          = (Kanban.setItems (fun _ => rest) s, Some (call (crm.deleteDeal id))) /\
        (forall x, In x rest <-> In x (Kanban.items s) /\ Deal.id x <> id) /\
        (forall v, settle env _ (crm.deleteDeal id) = Resolved v ->
           Kanban.items (final r) = rest) /\
        (forall e, settle env _ (crm.deleteDeal id) = Rejected e ->
           Kanban.items (final r) = Kanban.items s)) /\
     (answer env _ (confirm "Excluir este negócio?") = false ->
        r = mkRun s (Resolved tt) [])) /\
  (forall s : Contacts.State,
     let r := run env (Contacts.remove s id) s in
     let rest := List.filter (fun x => negb (Contact.id x =? id)%Z) (Contacts.rows s) in
     (answer env _ (confirm "Excluir este contato?") = true ->
        suspended env (Contacts.remove s id) s
          = (Contacts.setRows (fun _ => rest) s, Some (call (crm.deleteContact id))) /\
        (forall x, In x rest <-> In x (Contacts.rows s) /\ Contact.id x <> id) /\
        (forall v, settle env _ (crm.deleteContact id) = Resolved v ->
           Contacts.rows (final r) = rest) /\
        (forall e, settle env _ (crm.deleteContact id) = Rejected e ->
           Contacts.rows (final r) = Contacts.rows s)) /\
     (answer env _ (confirm "Excluir este contato?") = false ->
        r = mkRun s (Resolved tt) [])) /\
  (forall s : Calendar.State,
     let r := run env (Calendar.remove s id) s in
     let rest := List.filter (fun x => negb (Obligation.id x =? id)%Z) (Calendar.rows s) in
     (answer env _ (confirm "Excluir esta obrigação?") = true ->
        suspended env (Calendar.remove s id) s
          = (Calendar.setRows (fun _ => rest) s, Some (call (crm.deleteObligation id))) /\
        (forall x, In x rest <-> In x (Calendar.rows s) /\ Obligation.id x <> id) /\
        (forall v, settle env _ (crm.deleteObligation id) = Resolved v ->
           Calendar.rows (final r) = rest) /\
        (forall e, settle env _ (crm.deleteObligation id) = Rejected e ->
           Calendar.rows (final r) = Calendar.rows s)) /\
     (answer env _ (confirm "Excluir esta obrigação?") = false ->
        r = mkRun s (Resolved tt) [])).
Proof.
  repeat apply conj; intros s r rest; subst r rest; split.
  - intros Hsure. unfold run, Kanban.remove. cbn. rewrite Hsure. cbn.
    repeat apply conj; try reflexivity.
    + intros x. apply (filter_by_id_In Deal.id).
    + intros v Hv. rewrite Hv. reflexivity.
    + intros e He. rewrite He. reflexivity.
  - intros Hsure. unfold run, Kanban.remove. cbn. rewrite Hsure. reflexivity.
  - intros Hsure. unfold run, Contacts.remove. cbn. rewrite Hsure. cbn.
    repeat apply conj; try reflexivity.
    + intros x. apply (filter_by_id_In Contact.id).
    + intros v Hv. rewrite Hv. reflexivity.
    + intros e He. rewrite He. reflexivity.
  - intros Hsure. unfold run, Contacts.remove. cbn. rewrite Hsure. reflexivity.
  - intros Hsure. unfold run, Calendar.remove. cbn. rewrite Hsure. cbn.
    repeat apply conj; try reflexivity.
    + intros x. apply (filter_by_id_In Obligation.id).
    + intros v Hv. rewrite Hv. reflexivity.
    + intros e He. rewrite He. reflexivity.
  - intros Hsure. unfold run, Calendar.remove. cbn. rewrite Hsure. reflexivity.
Qed.

Lemma C3_remove_witness :
  let s := Sample.kanban [Sample.deal 7 "a" novo; Sample.deal 8 "b" novo] in
  answer (Sample.env true None Sample.serving) _ (confirm "Excluir este negócio?") = true /\
  Kanban.items (final (run (Sample.env true None Sample.serving) (Kanban.remove s 7) s))
    = [Sample.deal 8 "b" novo] /\
  Kanban.items (final (run (Sample.env true None Sample.failing) (Kanban.remove s 7) s))
    = [Sample.deal 7 "a" novo; Sample.deal 8 "b" novo].
Proof.
  intros s. split; [reflexivity|]. split.
  - apply (proj1 (proj2 (proj2 (proj1 (proj1 (C3_remove (Sample.env true None Sample.serving) 7) s) eq_refl)))
             (Some true)).
    reflexivity.
  - apply (proj2 (proj2 (proj2 (proj1 (proj1 (C3_remove (Sample.env true None Sample.failing) 7) s) eq_refl)))
             (mkError "Failed to fetch")).
    reflexivity.
Defined.

(** *** C5: creation *)

(** C5: on each page [quickAdd] writes nothing to the state before it
    awaits the create call, whatever the dialogs answer. Once a title has
    been typed the draft is sent in one create call; if the call resolves,
    the entity the service returned is put in front of the collection, the
    rest following as it was; if it rejects, the state is left as it was and
    the handler's own promise rejects with the same error, which nobody
    catches. *)
Theorem C5_quickAdd (env : Env) :
  (forall (Number : string -> option Q) (s : Kanban.State),
     (suspended env (Kanban.quickAdd Number) s).1 = s /\
     forall title : string,
       answer env _ (prompt "Título do negócio:" None) = Some title -> title <> "" ->
       let valueStr :=
         opt_or (answer env _ (prompt "Valor (apenas número):" (Some "0"))) "0" in
       let draft :=
         DealCreate.mk 0 title (default 0%Q (Number valueStr)) novo "normal" None (Some []) in
       let r := run env (Kanban.quickAdd Number) s in
       calls r = [call (crm.createDeal draft)] /\
       (forall created, settle env _ (crm.createDeal draft) = Resolved created ->
          Kanban.items (final r) = created :: Kanban.items s /\
          outcome r = Resolved tt) /\
       (forall e, settle env _ (crm.createDeal draft) = Rejected e ->
          final r = s /\ outcome r = Rejected e)) /\
  (forall s : Contacts.State,
     (suspended env Contacts.quickAdd s).1 = s /\
     forall name : string,
       answer env _ (prompt "Nome do contato:" None) = Some name -> name <> "" ->
       let draft := ContactCreate.mk name None None lead warm none true None in
       let r := run env Contacts.quickAdd s in
       calls r = [call (crm.createContact draft)] /\
       (forall created, settle env _ (crm.createContact draft) = Resolved created ->
          Contacts.rows (final r) = created :: Contacts.rows s /\
          outcome r = Resolved tt) /\
       (forall e, settle env _ (crm.createContact draft) = Rejected e ->
          final r = s /\ outcome r = Rejected e)) /\
  (forall (today : string) (s : Calendar.State),
     (suspended env (Calendar.quickAdd today) s).1 = s /\
     forall title : string,
       answer env _ (prompt "Título da obrigação:" None) = Some title -> title <> "" ->
       let when :=
         opt_or (answer env _ (prompt "Data/hora (YYYY-MM-DD HH:MM):"
                                 (Some (today +:+ " 09:00"))))
                (today +:+ " 09:00") in
       let draft :=
         ObligationCreate.mk title None (replace when " " "T" +:+ ":00")
                             Status.open None in
       let r := run env (Calendar.quickAdd today) s in
       calls r = [call (crm.createObligation draft)] /\
       (forall created, settle env _ (crm.createObligation draft) = Resolved created ->
          Calendar.rows (final r) = created :: Calendar.rows s /\
          outcome r = Resolved tt) /\
       (forall e, settle env _ (crm.createObligation draft) = Rejected e ->
          final r = s /\ outcome r = Rejected e)).
Proof.
  repeat apply conj.
  - intros Number s. split.
    + unfold Kanban.quickAdd. cbn.
      destruct (answer env _ (prompt "Título do negócio:" None)) as [[|a t]|];
        reflexivity.
    + intros title Htitle Hne valueStr draft r. subst r draft valueStr.
      unfold run, Kanban.quickAdd. cbn. rewrite Htitle.
      destruct title as [|a t]; [contradiction|]. cbn.
      match goal with |- context [settle env ?A ?c] =>
        destruct (settle env A c) as [created'|e'] end; cbn;
        (split; [reflexivity | split]).
      * intros created Hc. injection Hc as <-. split; reflexivity.
      * intros e He. discriminate He.
      * intros created Hc. discriminate Hc.
      * intros e He. injection He as <-. split; reflexivity.
  - intros s. split.
    + unfold Contacts.quickAdd. cbn.
      destruct (answer env _ (prompt "Nome do contato:" None)) as [[|a t]|];
        reflexivity.
    + intros name Hname Hne draft r. subst r draft.
      unfold run, Contacts.quickAdd. cbn. rewrite Hname.
      destruct name as [|a t]; [contradiction|]. cbn.
      match goal with |- context [settle env ?A ?c] =>
        destruct (settle env A c) as [created'|e'] end; cbn;
        (split; [reflexivity | split]).
      * intros created Hc. injection Hc as <-. split; reflexivity.
      * intros e He. discriminate He.
      * intros created Hc. discriminate Hc.
      * intros e He. injection He as <-. split; reflexivity.
  - intros today s. split.
    + unfold Calendar.quickAdd. cbn.
      destruct (answer env _ (prompt "Título da obrigação:" None)) as [[|a t]|];
        reflexivity.
    + intros title Htitle Hne when draft r. subst r draft when.
      unfold run, Calendar.quickAdd. cbn. rewrite Htitle.
      destruct title as [|a t]; [contradiction|]. cbn.
      match goal with |- context [settle env ?A ?c] =>
        destruct (settle env A c) as [created'|e'] end; cbn;
        (split; [reflexivity | split]).
      * intros created Hc. injection Hc as <-. split; reflexivity.
      * intros e He. discriminate He.
      * intros created Hc. discriminate Hc.
      * intros e He. injection He as <-. split; reflexivity.
Qed.

Lemma C5_quickAdd_witness :
  let env := Sample.env true (Some "Novo negócio") Sample.serving in
  let s := Sample.kanban [Sample.deal 7 "a" novo] in
  answer env _ (prompt "Título do negócio:" None) = Some "Novo negócio" /\
  Deal.id <$> Kanban.items (final (run env (Kanban.quickAdd (fun _ => None)) s))
    = [42; 7]%Z.
Proof.
  intros env s. split; [reflexivity|].
  destruct (proj2 (proj1 (C5_quickAdd env) (fun _ => None) s) "Novo negócio"
              eq_refl ltac:(discriminate)) as (_ & Hok & _).
  rewrite (proj1 (Hok _ eq_refl)). reflexivity.
Defined.

(** *** C6: the frame of an optimistic update *)

Lemma lookup_map {A B} (f : A -> B) (l : list A) (i : nat) :
  List.map f l !! i = f <$> (l !! i).
Proof.
  revert i. induction l as [|a l IH]; intros [|i]; simpl; auto.
Qed.

Section Frame.
Context {A : Type} (key : A -> Z) (upd : A -> A) (but : A -> A -> Prop) (id : Z).
Hypothesis but_refl : forall x, but x x.
Hypothesis but_upd : forall x, but x (upd x).

Let patch (y : A) : A := if (key y =? id)%Z then upd y else y.

Lemma patch_changed (x : A) : patch x <> x -> key x = id.
Proof.
  unfold patch. destruct (key x =? id)%Z eqn:E; [intros _; lia | congruence].
Qed.

Lemma update_by_id_frame (l : list A) :
  NoDup (List.map key l) -> frame key but id l (List.map patch l).
Proof.
  intros Hnodup. unfold frame. split; [apply length_map|]. split.
  - intros i x Hx. exists (patch x). rewrite lookup_map, Hx. split; [reflexivity|].
    unfold patch. destruct (key x =? id)%Z eqn:E.
    + split; [apply but_upd | intros Hne; lia].
    + split; [apply but_refl | reflexivity].
  - intros i j x y Hx Hy Hi Hj.
    rewrite lookup_map, Hx in Hi. rewrite lookup_map, Hy in Hj. simpl in Hi, Hj.
    assert (Hkx : key x = id) by (apply patch_changed; congruence).
    assert (Hky : key y = id) by (apply patch_changed; congruence).
    apply (NoDup_lookup (List.map key l) i j id Hnodup).
    + rewrite lookup_map, Hx. simpl. congruence.
    + rewrite lookup_map, Hy. simpl. congruence.
Qed.

Lemma unchanged_frame (l : list A) : frame key but id l l.
Proof.
  unfold frame. split; [reflexivity|]. split.
  - intros i x Hx. exists x. auto.
  - intros i j x y Hx Hy Hi. congruence.
Qed.

End Frame.

(** C6: when the identities in the collection are pairwise distinct, the
    state a field update ([move], [toggleDone], [toggleReal]) has reached
    when it suspends at its remote call differs from the state it started
    from in the collection only, and the collection is within the frame of
    the update: same length, same order, every entity of another identity
    untouched, the entity of the given identity changed at most in the
    designated field, and at most one entity changed. The entity of that
    identity then holds the new value of the field. *)
Theorem C6_optimistic_update_frame (env : Env) :
  (forall (s : Kanban.State) (d : Deal.t) (to : Column),
     NoDup (List.map Deal.id (Kanban.items s)) ->
     let s' := (suspended env (Kanban.move s d to) s).1 in
     s' = Kanban.setItems (fun _ => Kanban.items s') s /\
     frame Deal.id Deal_but_column (Deal.id d) (Kanban.items s) (Kanban.items s') /\
     (forall x', In x' (Kanban.items s') -> Deal.id x' = Deal.id d ->
        Deal.column d <> to -> Deal.column x' = to)) /\
  (forall (s : Calendar.State) (o : Obligation.t),
     NoDup (List.map Obligation.id (Calendar.rows s)) ->
     let s' := (suspended env (Calendar.toggleDone s o) s).1 in
     s' = Calendar.setRows (fun _ => Calendar.rows s') s /\
     frame Obligation.id Obligation_but_status (Obligation.id o)
           (Calendar.rows s) (Calendar.rows s') /\
     (forall x', In x' (Calendar.rows s') -> Obligation.id x' = Obligation.id o ->
        Obligation.status x' <> Obligation.status o)) /\
  (forall (s : Contacts.State) (id : Z) (current : bool),
     NoDup (List.map Contact.id (Contacts.rows s)) ->
     let s' := (suspended env (Contacts.toggleReal s id current) s).1 in
     s' = Contacts.setRows (fun _ => Contacts.rows s') s /\
     frame Contact.id Contact_but_is_real id (Contacts.rows s) (Contacts.rows s') /\
     (forall x', In x' (Contacts.rows s') -> Contact.id x' = id ->
        Contact.is_real x' = negb current)).
Proof.
  repeat apply conj.
  - intros s d to Hnodup. unfold Kanban.move.
    destruct (decide (Deal.column d = to)) as [Heq|Hne]; cbn.
    + split; [destruct s; reflexivity|]. split; [|contradiction].
      apply unchanged_frame. intros x; repeat split.
    + split; [reflexivity|]. split.
      * apply (update_by_id_frame Deal.id (fun x => Deal.with_column x to));
          [intros x; repeat split | intros x; repeat split | exact Hnodup].
      * intros x' Hin Hid _. apply in_map_iff in Hin as (x & <- & _).
        destruct (Deal.id x =? Deal.id d)%Z eqn:E; [reflexivity|].
        apply Z.eqb_neq in E. contradiction.
  - intros s o Hnodup. unfold Calendar.toggleDone. cbn.
    split; [reflexivity|]. split.
    + apply (update_by_id_frame Obligation.id
               (fun x => Obligation.with_status x
                           (if decide (Obligation.status o = Status.done)
                            then Status.open else Status.done)));
        [intros x; repeat split | intros x; repeat split | exact Hnodup].
    + intros x' Hin Hid. apply in_map_iff in Hin as (x & <- & _).
      destruct (Obligation.id x =? Obligation.id o)%Z eqn:E.
      * simpl. destruct (decide (Obligation.status o = Status.done)) as [->|Hn];
          [discriminate|]. destruct (Obligation.status o); congruence.
      * apply Z.eqb_neq in E. contradiction.
  - intros s id current Hnodup. unfold Contacts.toggleReal. cbn.
    split; [reflexivity|]. split.
    + apply (update_by_id_frame Contact.id
               (fun x => Contact.with_is_real x (negb current)));
        [intros x; repeat split | intros x; repeat split | exact Hnodup].
    + intros x' Hin Hid. apply in_map_iff in Hin as (x & <- & _).
      destruct (Contact.id x =? id)%Z eqn:E; [reflexivity|].
      apply Z.eqb_neq in E. contradiction.
Qed.

Lemma C6_optimistic_update_frame_witness :
  let s := Sample.kanban [Sample.deal 1 "Site" novo; Sample.deal 2 "Loja" novo] in
  let s' := (suspended (Sample.env true None Sample.serving)
               (Kanban.move s (Sample.deal 1 "Site" novo) ganho) s).1 in
  NoDup (List.map Deal.id (Kanban.items s)) /\
  Kanban.items s' = [Sample.deal 1 "Site" ganho; Sample.deal 2 "Loja" novo] /\
  frame Deal.id Deal_but_column 1 (Kanban.items s) (Kanban.items s').
Proof.
  intros s s'.
  assert (Hnodup : NoDup (List.map Deal.id (Kanban.items s))).
  { simpl. apply NoDup_cons_2.
    - intros H. apply list_elem_of_In in H. destruct H as [H|[]]. discriminate H.
    - apply NoDup_cons_2; [|apply NoDup_nil_2].
      intros H. apply list_elem_of_In in H. destruct H. }
  split; [exact Hnodup|]. split; [reflexivity|].
  exact (proj1 (proj2 (proj1 (C6_optimistic_update_frame
                                (Sample.env true None Sample.serving))
                          s (Sample.deal 1 "Site" novo) ganho Hnodup))).
Defined.

(** ** Strings *)

#[local] Arguments String.append !s1 s2 : simpl nomatch.

Lemma startsWith_spec (p s : string) :
  startsWith p s = true <-> exists post, s = p +:+ post.
Proof.
  revert s. induction p as [|a p IH]; intros s; simpl.
  - split; [intros _; exists s; reflexivity | reflexivity].
  - destruct s as [|b s].
    + split; [discriminate | intros [post H]; discriminate].
    + destruct (Ascii.eqb a b) eqn:E.
      * apply Ascii.eqb_eq in E. subst b. rewrite IH. split.
        -- intros [post ->]. exists post. reflexivity.
        -- intros [post H]. injection H as H. exists post. exact H.
      * apply Ascii.eqb_neq in E. split; [discriminate|].
        intros [post H]. injection H as H1 H2. congruence.
Qed.

Lemma includes_spec (hay s : string) :
  includes hay s = true <-> exists pre post, hay = pre +:+ s +:+ post.
Proof.
  induction hay as [|c hay IH]; simpl.
  - rewrite orb_false_r, startsWith_spec. split.
    + intros [post H]. exists "", post. exact H.
    + intros [[|a pre] [post H]]; [exists post; exact H | discriminate].
  - rewrite orb_true_iff, startsWith_spec, IH. split.
    + intros [[post H] | [pre [post H]]].
      * exists "", post. exact H.
      * exists (String c pre), post. simpl. rewrite H. reflexivity.
    + intros [[|a pre] [post H]].
      * left. exists post. exact H.
      * right. simpl in H. injection H as H1 H2. exists pre, post. exact H2.
Qed.

Lemma ascii_lower_app (a b : string) :
  ascii_lower (a +:+ b) = ascii_lower a +:+ ascii_lower b.
Proof. induction a as [|x a IH]; simpl; [reflexivity | rewrite IH; reflexivity]. Qed.

Lemma ascii_lower_split (h a' b' : string) :
  ascii_lower h = a' +:+ b' ->
  exists a b, h = a +:+ b /\ ascii_lower a = a' /\ ascii_lower b = b'.
Proof.
  revert h. induction a' as [|x a' IH]; intros h H; simpl in H.
  - exists "", h. auto.
  - destruct h as [|c h]; [discriminate|]. simpl in H. injection H as Hc Hh.
    destruct (IH h Hh) as (a & b & -> & Ha & Hb).
    exists (String c a), b. simpl. rewrite Ha, Hc. auto.
Qed.

(** On text of the letters A to Z, [hay.toLowerCase().includes(q.toLowerCase())]
    is containment up to case. *)
Lemma includes_ci (hay q : string) :
  includes (ascii_lower hay) (ascii_lower q) = true <-> contains_ci hay q.
Proof.
  rewrite includes_spec. unfold contains_ci. split.
  - intros (pre' & post' & H).
    apply ascii_lower_split in H as (pre & rest & -> & _ & Hrest).
    apply ascii_lower_split in Hrest as (u & post & -> & Hu & _).
    exists pre, u, post. auto.
  - intros (pre & u & post & -> & Hu).
    exists (ascii_lower pre), (ascii_lower post).
    rewrite !ascii_lower_app, Hu. reflexivity.
Qed.

Lemma contains_ci_empty (hay : string) : contains_ci hay "".
Proof. exists "", "", hay. auto. Qed.

Lemma toLowerCase_empty (rt : Runtime) : toLowerCase rt "" = "".
Proof. apply (toLowerCase_ascii rt ""). reflexivity. Qed.

(** What the pages compute, [hay.toLowerCase().includes(s)] for [s] the
    trimmed, lower-cased query, is [found]. *)
Lemma found_includes (rt : Runtime) (hay q : string) :
  includes (toLowerCase rt hay) (toLowerCase rt (trim rt q)) = true <-> found rt hay q.
Proof. apply includes_spec. Qed.

Global Instance found_dec (rt : Runtime) (hay q : string) : Decision (found rt hay q).
Proof.
  destruct (includes (toLowerCase rt hay) (toLowerCase rt (trim rt q))) eqn:E.
  - left. apply found_includes. exact E.
  - right. intros H. apply found_includes in H. congruence.
Defined.

Lemma found_empty (rt : Runtime) (hay q : string) : trim rt q = "" -> found rt hay q.
Proof.
  intros Hq. exists "", (toLowerCase rt hay). rewrite Hq, toLowerCase_empty. reflexivity.
Qed.

(** On ASCII text and an ASCII query, [found] is containment of the trimmed
    query up to case. *)
Lemma found_ascii (rt : Runtime) (hay q : string) :
  is_ascii hay = true -> is_ascii (trim rt q) = true ->
  (found rt hay q <-> contains_ci hay (trim rt q)).
Proof.
  intros Hhay Hq. rewrite <- found_includes, <- includes_ci.
  rewrite (toLowerCase_ascii rt hay Hhay), (toLowerCase_ascii rt (trim rt q) Hq).
  reflexivity.
Qed.

(** The test the three pages make on an entity's text, for [s] the trimmed,
    lower-cased query: skipped when [s] is empty. *)
Lemma query_test (rt : Runtime) (hay q : string) :
  truthy (toLowerCase rt (trim rt q)) &&
    negb (includes (toLowerCase rt hay) (toLowerCase rt (trim rt q))) = false
  <-> found rt hay q.
Proof.
  rewrite <- found_includes. destruct (toLowerCase rt (trim rt q)) eqn:E; simpl.
  - split; [intros _|reflexivity].
    destruct (toLowerCase rt hay); reflexivity.
  - rewrite negb_false_iff. reflexivity.
Qed.

(** The texts the pages build are the designated ones. *)
Lemma Contacts_searchable (c : Contact.t) : Contacts.searchable c = Contact_text c.
Proof.
  unfold Contacts.searchable, Contact_text.
  destruct (Contact.email c) as [[|? ?]|], (Contact.phone c) as [[|? ?]|]; reflexivity.
Qed.

Lemma Kanban_searchable (d : Deal.t) : Kanban.searchable d = Deal_text d.
Proof.
  unfold Kanban.searchable, Deal_text.
  destruct (Deal.tags d) as [l|]; [|reflexivity]. simpl.
  unfold or_else. destruct (join " " l); reflexivity.
Qed.

Lemma Calendar_searchable (o : Obligation.t) : Calendar.searchable o = Obligation_text o.
Proof.
  unfold Calendar.searchable, Obligation_text.
  destruct (Obligation.description o) as [[|? ?]|]; reflexivity.
Qed.

(** [List.filter] by a test and stdpp's [filter] by the property it decides. *)
Lemma filter_decides {A} (f : A -> bool) (P : A -> Prop) `{!forall x, Decision (P x)}
    (l : list A) :
  (forall x, f x = true <-> P x) -> List.filter f l = filter P l.
Proof.
  intros Hf. induction l as [|a l IH]; [reflexivity|]. simpl.
  destruct (f a) eqn:E.
  - rewrite filter_cons_True by (apply Hf; exact E). rewrite IH. reflexivity.
  - rewrite filter_cons_False; [exact IH|]. intros HP. apply Hf in HP. congruence.
Qed.

(** ** The calendar's arrays *)

Section CalendarStore.
Variable rt : Runtime.
Variable Date_parse : string -> option Z.
Variable clock : nat -> Z.
Import Calendar.

Lemma deref_extends (h h' : Store) (r : Ref) :
  extends h h' -> (r < length h)%nat -> deref h' r = deref h r.
Proof. intros [_ H] Hr. unfold deref. rewrite H by exact Hr. reflexivity. Qed.

Lemma alloc_spec (v : list Obligation.t) (h : Store) :
  let '(new, h') := alloc h v in
  new = length h /\ length h' = S (length h) /\ extends h h' /\ deref h' new = v.
Proof.
  unfold alloc. split; [reflexivity|]. split.
  - rewrite length_app. simpl. lia.
  - split.
    + split; [rewrite length_app; lia|].
      intros r Hr. apply lookup_app_l. exact Hr.
    + unfold deref. rewrite lookup_app_r by lia.
      rewrite Nat.sub_diag. reflexivity.
Qed.

Lemma Array_filter_spec (p : Obligation.t -> bool) (arr : Ref) (h : Store) :
  let '(new, h') := Array_filter p arr h in
  new = length h /\ length h' = S (length h) /\ extends h h' /\
  deref h' new = List.filter p (deref h arr).
Proof. exact (alloc_spec (List.filter p (deref h arr)) h). Qed.

Lemma Array_filterM_spec (p : Obligation.t -> Reading bool) (arr : Ref) (h : Store)
    (n : nat) :
  let '(new, h', n') := Array_filterM p arr h n in
  new = length h /\ length h' = S (length h) /\ extends h h' /\
  deref h' new = (filterM p (deref h arr) n).1 /\
  n' = (filterM p (deref h arr) n).2.
Proof.
  unfold Array_filterM. destruct (filterM p (deref h arr) n) as [v n'].
  pose proof (alloc_spec v h) as H. destruct (alloc h v) as [new h'].
  simpl. tauto.
Qed.

(** Sorting the array [data] in place leaves every other array alone. *)
Lemma Section_in_store_spec (data : Ref) (h : Store) :
  (data < length h)%nat ->
  let '(shown, h') := Section_in_store rt Date_parse data h in
  shown = Section_ rt Date_parse (deref h data) /\ length h' = length h /\
  forall r, r <> data -> h' !! r = h !! r.
Proof.
  intros Hdata. unfold Section_in_store, Section_, Array_sort.
  destruct (deref h data) as [|o l] eqn:E.
  - repeat split.
  - split.
    + unfold deref. rewrite list_lookup_insert_eq by exact Hdata. reflexivity.
    + split; [apply length_insert|].
      intros r Hr. apply list_lookup_insert_ne. congruence.
Qed.

(** One render of the calendar shows the three buckets of the filtered
    rows, each through [Section_], and leaves every array that existed before
    it, the state's [rows] among them, as it was. *)
Lemma render_spec (rows : Ref) (q : string) (h : Store) :
  (rows < length h)%nat ->
  let '(atrasados, proximos, concluidos, h') := render rt Date_parse clock rows q h in
  let b := buckets Date_parse clock (filtered rt (deref h rows) q) in
  atrasados = Section_ rt Date_parse b.1.1 /\
  proximos = Section_ rt Date_parse b.1.2 /\
  concluidos = Section_ rt Date_parse b.2 /\
  extends h h'.
Proof.
  intros Hrows. unfold render, buckets, overdue, upcoming.
  pose proof (Array_filter_spec (matches rt (toLowerCase rt (trim rt q))) rows h) as H1.
  destruct (Array_filter (matches rt (toLowerCase rt (trim rt q))) rows h) as [f h1].
  destruct H1 as (Hf & L1 & E1 & D1).
  pose proof (Array_filterM_spec (is_overdue Date_parse clock) f h1 0) as H2.
  destruct (Array_filterM (is_overdue Date_parse clock) f h1 0) as [[o h2] n2].
  destruct H2 as (Ho & L2 & E2 & D2 & N2).
  assert (Df2 : deref h2 f = deref h1 f) by (apply deref_extends; [exact E2 | lia]).
  pose proof (Array_filterM_spec (is_upcoming Date_parse clock) f h2 n2) as H3.
  destruct (Array_filterM (is_upcoming Date_parse clock) f h2 n2) as [[u h3] n3].
  destruct H3 as (Hu & L3 & E3 & D3 & N3).
  pose proof (Array_filter_spec is_done f h3) as H4.
  destruct (Array_filter is_done f h3) as [d h4].
  destruct H4 as (Hd & L4 & E4 & D4).
  pose proof (Section_in_store_spec o h4 ltac:(lia)) as S1.
  destruct (Section_in_store rt Date_parse o h4) as [a h5].
  destruct S1 as (Ha & L5 & F5).
  pose proof (Section_in_store_spec u h5 ltac:(lia)) as S2.
  destruct (Section_in_store rt Date_parse u h5) as [b h6].
  destruct S2 as (Hb & L6 & F6).
  pose proof (Section_in_store_spec d h6 ltac:(lia)) as S3.
  destruct (Section_in_store rt Date_parse d h6) as [c h7].
  destruct S3 as (Hc & L7 & F7).
  assert (Df3 : deref h3 f = deref h1 f).
  { rewrite <- Df2. apply deref_extends; [exact E3 | lia]. }
  assert (Do4 : deref h4 o = deref h2 o).
  { transitivity (deref h3 o); apply deref_extends; auto; lia. }
  assert (Du4 : deref h4 u = deref h3 u) by (apply deref_extends; [exact E4 | lia]).
  assert (Du5 : deref h5 u = deref h4 u).
  { unfold deref. rewrite F5 by lia. reflexivity. }
  assert (Dd6 : deref h6 d = deref h4 d).
  { unfold deref. rewrite F6, F5 by lia. reflexivity. }
  unfold filtered. rewrite <- D1.
  rewrite Df2 in D3. rewrite Df3 in D4. subst n2.
  destruct (filterM (is_overdue Date_parse clock) (deref h1 f) 0) as [vo n2].
  simpl in *.
  destruct (filterM (is_upcoming Date_parse clock) (deref h1 f) n2) as [vu n3'].
  simpl in *.
  split; [rewrite Ha, Do4, D2; reflexivity|].
  split; [rewrite Hb, Du5, Du4, D3; reflexivity|].
  split; [rewrite Hc, Dd6, D4; reflexivity|].
  split; [lia|].
  intros r Hr. rewrite F7, F6, F5 by lia.
  destruct E4 as [_ E4]. destruct E3 as [_ E3]. destruct E2 as [_ E2].
  destruct E1 as [_ E1].
  rewrite E4, E3, E2, E1 by lia. reflexivity.
Qed.

End CalendarStore.

(** ** C2: the filtered projection *)

Lemma filteredByCol_fold (skip : Deal.t -> bool) (items : list Deal.t)
    (map : Column -> list Deal.t) (col : Column) :
  fold_left (fun map d => if skip d then map else Kanban.push map (Deal.column d) d)
            items map col
  = (map col ++
     List.filter (fun d => negb (skip d) && bool_decide (Deal.column d = col)) items)%list.
Proof.
  revert map. induction items as [|d items IH]; intros map; simpl.
  - rewrite app_nil_r. reflexivity.
  - rewrite IH. destruct (skip d); simpl; [reflexivity|].
    unfold Kanban.push.
    destruct (decide (col = Deal.column d)) as [->|Hne].
    + rewrite bool_decide_eq_true_2 by reflexivity. rewrite <- app_assoc. reflexivity.
    + rewrite bool_decide_eq_false_2 by congruence. reflexivity.
Qed.

Lemma filter_all {A} (P : A -> Prop) `{!forall x, Decision (P x)} (l : list A) :
  (forall x, P x) -> filter P l = l.
Proof.
  intros HP. induction l as [|a l IH]; [reflexivity|].
  rewrite filter_cons_True by apply HP. rewrite IH. reflexivity.
Qed.

(** C2, as claimed, fails on text that is not ASCII. The deal titled ΚΟΣΜΟΣ
    has the query ΚΟΣ as a substring of its text, letter for letter, so it
    contains it as a case-insensitive substring; but the title lower-cased
    as a whole is κοσμος, the query lower-cased is κος with the final sigma,
    and the column does not show the deal. The same holds of a contact of
    that name and of an obligation of that title. *)
Lemma C2_final_sigma_hides_match :
  let d := Sample.deal 1 "ΚΟΣΜΟΣ" novo in
  let c := Sample.contact 1 "ΚΟΣΜΟΣ" true in
  let o := Sample.obligation 1 "ΚΟΣΜΟΣ" "2024-01-01T09:00" Status.open in
  trim Sample.runtime "ΚΟΣ" = "ΚΟΣ" /\
  toLowerCase Sample.runtime "ΚΟΣΜΟΣ" = "κοσμος" /\
  toLowerCase Sample.runtime "ΚΟΣ" = "κος" /\
  includes (Deal_text d) "ΚΟΣ" = true /\
  contains_ci (Deal_text d) "ΚΟΣ" /\
  contains_ci (Contact_text c) "ΚΟΣ" /\
  contains_ci (Obligation_text o) "ΚΟΣ" /\
  Kanban.filteredByCol Sample.runtime [d] "ΚΟΣ" novo = [] /\
  Contacts.filtered Sample.runtime [c] "ΚΟΣ" None None None false = [] /\
  Calendar.filtered Sample.runtime [o] "ΚΟΣ" = [].
Proof.
  intros d c o. repeat split.
  - exists "", "ΚΟΣ", "ΜΟΣ ". split; reflexivity.
  - exists "", "ΚΟΣ", "ΜΟΣ  ". split; reflexivity.
  - exists "", "ΚΟΣ", "ΜΟΣ ". split; reflexivity.
Qed.

(** C2, amended: in every engine, with the select filters and the check box
    at their defaults, the contact table is the rows in whose text (name, a
    space, e-mail, a space, phone) the query is found, a kanban column is
    the deals of that column in whose text (title, a space, the tags with
    spaces between them) it is found, the calendar's filtered list is the
    obligations in whose text (title, a space, description) it is found,
    each in the order of the source collection; the query is found in a text
    when the text lower-cased as a whole has the trimmed, lower-cased query
    as a substring, which for a text and a trimmed query made of ASCII
    characters is to contain the trimmed query as a case-insensitive
    substring. A query that trims to the empty string keeps every element.
    The projections are computed into new arrays: a render of the calendar,
    the one place where an array is sorted in place, leaves every array that
    existed before it (the state's rows among them) as it was. *)
Theorem C2_filtered_projection (rt : Runtime) :
  (forall (rows : list Contact.t) (q : string),
     Contacts.filtered rt rows q None None None false
       = filter (fun c => found rt (Contact_text c) q) rows) /\
  (forall (items : list Deal.t) (q : string) (col : Column),
     Kanban.filteredByCol rt items q col
       = filter (fun d => found rt (Deal_text d) q /\ Deal.column d = col) items) /\
  (forall (rows : list Obligation.t) (q : string),
     Calendar.filtered rt rows q
       = filter (fun o => found rt (Obligation_text o) q) rows) /\
  (forall hay q : string,
     is_ascii hay = true -> is_ascii (trim rt q) = true ->
     (found rt hay q <-> contains_ci hay (trim rt q))) /\
  (forall q : string, trim rt q = "" ->
     (forall rows, Contacts.filtered rt rows q None None None false = rows) /\
     (forall items col,
        Kanban.filteredByCol rt items q col
          = filter (fun d => Deal.column d = col) items) /\
     (forall rows, Calendar.filtered rt rows q = rows)) /\
  (forall (Date_parse : string -> option Z) (clock : nat -> Z) (rows : Calendar.Ref)
          (q : string) (h : Calendar.Store),
     (rows < length h)%nat ->
     extends h (Calendar.render rt Date_parse clock rows q h).2).
Proof.
  assert (HC : forall rows q,
             Contacts.filtered rt rows q None None None false
             = filter (fun c => found rt (Contact_text c) q) rows).
  { intros rows q. unfold Contacts.filtered. apply filter_decides. intros c.
    rewrite <- query_test, Contacts_searchable. simpl.
    destruct (truthy (toLowerCase rt (trim rt q)) &&
              negb (includes (toLowerCase rt (Contact_text c))
                             (toLowerCase rt (trim rt q)))); split; congruence. }
  assert (HK : forall items q col,
             Kanban.filteredByCol rt items q col
             = filter (fun d => found rt (Deal_text d) q /\ Deal.column d = col) items).
  { intros items q col. unfold Kanban.filteredByCol.
    rewrite filteredByCol_fold. simpl. apply filter_decides. intros d.
    rewrite <- query_test, Kanban_searchable, andb_true_iff, negb_true_iff,
      bool_decide_eq_true.
    reflexivity. }
  assert (HO : forall rows q,
             Calendar.filtered rt rows q
             = filter (fun o => found rt (Obligation_text o) q) rows).
  { intros rows q. unfold Calendar.filtered. apply filter_decides. intros o.
    rewrite <- query_test, <- Calendar_searchable. unfold Calendar.matches.
    destruct (truthy (toLowerCase rt (trim rt q))); simpl.
    - rewrite negb_false_iff. reflexivity.
    - split; reflexivity. }
  split; [exact HC|]. split; [exact HK|]. split; [exact HO|].
  split; [exact (found_ascii rt)|]. split.
  - intros q Hq. split; [|split].
    + intros rows. rewrite HC. apply filter_all. intros c. apply found_empty, Hq.
    + intros items col. rewrite HK.
      induction items as [|d items IH]; [reflexivity|].
      destruct (decide (Deal.column d = col)) as [Hc|Hc].
      * rewrite !filter_cons_True; [rewrite IH; reflexivity | exact Hc |].
        split; [apply found_empty, Hq | exact Hc].
      * rewrite !filter_cons_False; [exact IH | exact Hc | tauto].
    + intros rows. rewrite HO. apply filter_all. intros o. apply found_empty, Hq.
  - intros Date_parse clock rows q h Hrows.
    pose proof (render_spec rt Date_parse clock rows q h Hrows) as H.
    destruct (Calendar.render rt Date_parse clock rows q h) as [[[a b] c] h'].
    cbv zeta in H. simpl. tauto.
Qed.

Lemma C2_filtered_projection_witness :
  let stamp := "2024-01-01T00:00:00" in
  let ana := Contact.mk 1 1 "Ana Lima" (Some "+55 11 91234-5678") (Some "ana@acme.com")
               lead warm none true None stamp stamp in
  let bruno := Contact.mk 2 1 "Bruno" None (Some "bruno@site.org")
                 client hot none false None stamp stamp in
  let joana := Contact.mk 3 1 "JOANA" (Some "+55 21 98888-0000") None
                 lead cold awaiting_us true None stamp stamp in
  let rows := [ana; bruno; joana] in
  let site := Deal.mk 1 1 "Site novo" 0 novo "normal" None (Some ["Urgente"; "web"]) stamp in
  let loja := Deal.mk 2 1 "Loja" 0 novo "normal" None None stamp in
  let app := Deal.mk 3 1 "App" 0 ganho "normal" None (Some ["urgente"]) stamp in
  let items := [site; loja; app] in
  let ligar := Obligation.mk 1 1 "Ligar" (Some "Cobrar a proposta") "2024-01-02T09:00"
                 Status.open None stamp in
  let enviar := Obligation.mk 2 1 "Enviar proposta" None "2024-01-01T09:00"
                  Status.open None stamp in
  let agenda := [ligar; enviar] in
  let h : Calendar.Store := [agenda] in
  Contact.id <$> filter (fun c => found Sample.runtime (Contact_text c) "  aN ") rows
    = [1; 3]%Z /\
  Contact.id <$> Contacts.filtered Sample.runtime rows "ACME.com" None None None false
    = [1]%Z /\
  Contact.id <$> Contacts.filtered Sample.runtime rows " 98888" None None None false
    = [3]%Z /\
  Deal.id <$> Kanban.filteredByCol Sample.runtime items "urgente WEB" novo = [1]%Z /\
  Deal.id <$> Kanban.filteredByCol Sample.runtime items "URGENTE" ganho = [3]%Z /\
  Obligation.id <$> Calendar.filtered Sample.runtime agenda "cobrar" = [1]%Z /\
  Obligation.id <$> Calendar.filtered Sample.runtime agenda "PROPOSTA" = [1; 2]%Z /\
  is_ascii (Contact_text ana) = true /\ is_ascii (trim Sample.runtime "  aN ") = true /\
  contains_ci (Contact_text ana) (trim Sample.runtime "  aN ") /\
  trim Sample.runtime "   " = "" /\
  Contacts.filtered Sample.runtime rows "   " None None None false = rows /\
  (0 < length h)%nat /\
  extends h (Calendar.render Sample.runtime Sample.Date_parse (Sample.at_ 1704200000000)
               0 "proposta" h).2.
Proof.
  intros stamp ana bruno joana rows site loja app items ligar enviar agenda h.
  destruct (C2_filtered_projection Sample.runtime) as (HC & HK & HO & Hascii & Hempty & Hstore).
  split; [rewrite <- (HC rows "  aN "); reflexivity|].
  split; [rewrite (HC rows "ACME.com"); reflexivity|].
  split; [rewrite (HC rows " 98888"); reflexivity|].
  split; [rewrite (HK items "urgente WEB" novo); reflexivity|].
  split; [rewrite (HK items "URGENTE" ganho); reflexivity|].
  split; [rewrite (HO agenda "cobrar"); reflexivity|].
  split; [rewrite (HO agenda "PROPOSTA"); reflexivity|].
  split; [reflexivity|]. split; [reflexivity|].
  split.
  { apply (Hascii (Contact_text ana) "  aN "); [reflexivity | reflexivity |].
    rewrite <- (found_includes Sample.runtime). reflexivity. }
  split; [reflexivity|].
  split; [apply (proj1 (Hempty "   " eq_refl))|].
  split; [simpl; lia|].
  apply Hstore. simpl. lia.
Defined.

(** ** Sorting *)

Section Sorting.
Context {A : Type} (key : A -> option Z).

(** The comparator of the calendar: the difference of the keys, [NaN] when
    one of them is. *)
Let by_key (a b : A) : option Z :=
  match key a, key b with
  | Some x, Some y => Some (x - y)%Z
  | _, _ => None
  end.

Let key_le (a b : A) : Prop :=
  exists x y, key a = Some x /\ key b = Some y /\ (x <= y)%Z.

Lemma key_le_trans : Transitive key_le.
Proof.
  intros a b c (x & y & Hx & Hy & Hxy) (y' & z & Hy' & Hz & Hyz).
  exists x, z. repeat split; try assumption. rewrite Hy in Hy'.
  injection Hy' as <-. lia.
Qed.

Lemma insert_Sorted (x : A) (l : list A) :
  is_Some (key x) -> Forall (fun a => is_Some (key a)) l ->
  Sorted key_le l -> Sorted key_le (JS.insert by_key x l).
Proof.
  intros [kx Hkx] Hvalid Hsorted.
  induction l as [|y l IH]; simpl; [repeat constructor|].
  apply Forall_cons_1 in Hvalid as [[ky Hky] Hvalid].
  apply Sorted_inv in Hsorted as [Hsorted Hhd].
  unfold SortCompare, by_key at 1. rewrite Hkx, Hky. simpl.
  destruct (kx - ky <=? 0)%Z eqn:E.
  - apply Z.leb_le in E. constructor; [constructor; assumption|].
    constructor. exists kx, ky. repeat split; try assumption. lia.
  - apply Z.leb_gt in E. constructor; [apply IH; assumption|].
    destruct l as [|z l]; simpl.
    + constructor. exists ky, kx. repeat split; try assumption. lia.
    + destruct (SortCompare by_key x z <=? 0)%Z.
      * constructor. exists ky, kx. repeat split; try assumption. lia.
      * constructor. inversion Hhd; assumption.
Qed.

(** On elements that all carry a key, the stable order by the difference of
    the keys is the ascending order of the key. *)
Lemma stable_sort_Sorted (l : list A) :
  Forall (fun a => is_Some (key a)) l ->
  StronglySorted key_le (stable_sort by_key l).
Proof.
  intros Hvalid. apply Sorted_StronglySorted; [exact key_le_trans|].
  induction l as [|x l IH]; [constructor|].
  apply Forall_cons_1 in Hvalid as [Hx Hvalid].
  unfold stable_sort. simpl. apply insert_Sorted; [exact Hx | | apply IH; exact Hvalid].
  apply List.Forall_forall. intros a Ha.
  apply (Permutation_in _ (stable_sort_Permutation by_key l)) in Ha.
  rewrite List.Forall_forall in Hvalid. apply Hvalid. exact Ha.
Qed.

(** On elements that all carry a key, the difference of the keys is a
    consistent comparator: it ranks the elements by their keys. *)
Lemma by_key_consistent (l : list A) :
  Forall (fun a => is_Some (key a)) l -> consistent by_key l.
Proof.
  intros Hvalid. exists (fun a => default 0%Z (key a)). intros a b Ha Hb.
  rewrite List.Forall_forall in Hvalid.
  destruct (Hvalid a Ha) as [x Hx]. destruct (Hvalid b Hb) as [y Hy].
  unfold SortCompare, by_key. rewrite Hx, Hy. simpl.
  symmetry. apply Z.compare_sub.
Qed.

End Sorting.

(** ** Filters that read the clock *)

Section Readings.
Context {A : Type} (p : A -> Calendar.Reading bool).

Lemma filterM_In (l : list A) (n : nat) (x : A) :
  In x (Calendar.filterM p l n).1 -> In x l /\ exists i, (p x i).1 = true.
Proof.
  revert n. induction l as [|a l IH]; intros n; simpl; [tauto|].
  destruct (p a n) as [b n1] eqn:Ea.
  specialize (IH n1). destruct (Calendar.filterM p l n1) as [r n2].
  simpl in *. destruct b; simpl.
  - intros [<-|H].
    + split; [left; reflexivity|]. exists n. rewrite Ea. reflexivity.
    + destruct (IH H) as [Hin Hi]. auto.
  - intros H. destruct (IH H) as [Hin Hi]. auto.
Qed.

Lemma filterM_In_always (l : list A) (n : nat) (x : A) :
  In x l -> (forall i, (p x i).1 = true) -> In x (Calendar.filterM p l n).1.
Proof.
  intros Hin Hx. revert n. induction l as [|a l IH]; intros n; simpl; [destruct Hin|].
  destruct (p a n) as [b n1] eqn:Ea.
  assert (IH' := fun H => IH H n1). destruct (Calendar.filterM p l n1) as [r n2].
  simpl in *. destruct Hin as [->|Hin].
  - specialize (Hx n). rewrite Ea in Hx. simpl in Hx. subst b. left. reflexivity.
  - destruct b; [right|]; apply IH'; exact Hin.
Qed.

(** A callback that does not look at the readings filters as [List.filter]. *)
Lemma filterM_pure (f : A -> bool) (l : list A) (n : nat) :
  (forall x i, (p x i).1 = f x) -> (Calendar.filterM p l n).1 = List.filter f l.
Proof.
  intros Hf. revert n. induction l as [|a l IH]; intros n; simpl; [reflexivity|].
  pose proof (Hf a n) as Ha. destruct (p a n) as [b n1].
  specialize (IH n1). destruct (Calendar.filterM p l n1) as [r n2].
  simpl in *. subst b r. destruct (f a); reflexivity.
Qed.

Lemma filterM_readings (l : list A) (n : nat) :
  (forall a i, (i <= (p a i).2)%nat) -> (n <= (Calendar.filterM p l n).2)%nat.
Proof.
  intros Hp. revert n. induction l as [|a l IH]; intros n; simpl; [lia|].
  pose proof (Hp a n) as Hn. destruct (p a n) as [b n1].
  specialize (IH n1). destruct (Calendar.filterM p l n1) as [r n2].
  simpl in *. lia.
Qed.

(** The readings of a filter are made in order: an element kept was tested
    on a reading made during the filter. *)
Lemma filterM_In_during (l : list A) (n : nat) (x : A) :
  (forall a i, (i <= (p a i).2)%nat) ->
  In x (Calendar.filterM p l n).1 ->
  exists i, (n <= i)%nat /\ ((p x i).2 <= (Calendar.filterM p l n).2)%nat /\
            (p x i).1 = true.
Proof.
  intros Hp. revert n. induction l as [|a l IH]; intros n; simpl; [tauto|].
  pose proof (Hp a n) as Hn.
  pose proof (filterM_readings l (p a n).2 Hp) as Hmono.
  destruct (p a n) as [b n1] eqn:Ea.
  specialize (IH n1). simpl in Hn, Hmono.
  destruct (Calendar.filterM p l n1) as [r n2].
  simpl in *. intros H.
  assert (Hr : In x r ->
            exists i, (n <= i)%nat /\ ((p x i).2 <= n2)%nat /\ (p x i).1 = true).
  { intros Hin. destruct (IH Hin) as (i & Hi & Hle & Hb). exists i.
    repeat split; auto. lia. }
  destruct b; [|auto]. destruct H as [<-|H]; [|auto].
  exists n. rewrite Ea. simpl. split; [lia|]. split; [exact Hmono | reflexivity].
Qed.

End Readings.

(** ** C4: the calendar's buckets *)

Section Buckets.
Variable rt : Runtime.
Variable Date_parse : string -> option Z.
Variable clock : nat -> Z.

Lemma is_overdue_true (o : Obligation.t) (i : nat) :
  (Calendar.is_overdue Date_parse clock o i).1 = true <->
  Obligation.status o = Status.open /\
  exists t, Calendar.due Date_parse o = Some t /\ (t < clock i)%Z.
Proof.
  unfold Calendar.is_overdue, Calendar.new_Date.
  destruct (decide (Obligation.status o = Status.open)) as [Hs|Hs].
  - rewrite bool_decide_eq_true_2 by exact Hs. simpl.
    destruct (Calendar.due Date_parse o) as [t|].
    + rewrite Z.ltb_lt. split.
      * intros Hlt. eauto.
      * intros (_ & t' & Ht' & Hlt). injection Ht' as <-. exact Hlt.
    + split; [discriminate|]. intros (_ & t' & Ht' & _). discriminate.
  - rewrite bool_decide_eq_false_2 by exact Hs. simpl.
    split; [discriminate | tauto].
Qed.

Lemma is_upcoming_true (o : Obligation.t) (i : nat) :
  (Calendar.is_upcoming Date_parse clock o i).1 = true <->
  Obligation.status o = Status.open /\
  exists t, Calendar.due Date_parse o = Some t /\ (clock i <= t)%Z.
Proof.
  unfold Calendar.is_upcoming, Calendar.new_Date.
  destruct (decide (Obligation.status o = Status.open)) as [Hs|Hs].
  - rewrite bool_decide_eq_true_2 by exact Hs. simpl.
    destruct (Calendar.due Date_parse o) as [t|].
    + rewrite Z.leb_le. split.
      * intros Hle. eauto.
      * intros (_ & t' & Ht' & Hle). injection Ht' as <-. exact Hle.
    + split; [discriminate|]. intros (_ & t' & Ht' & _). discriminate.
  - rewrite bool_decide_eq_false_2 by exact Hs. simpl.
    split; [discriminate | tauto].
Qed.

Lemma buckets_eq (filtered : list Obligation.t) :
  Calendar.buckets Date_parse clock filtered =
  ((Calendar.overdue Date_parse clock filtered 0).1,
   (Calendar.upcoming Date_parse clock filtered
      (Calendar.overdue Date_parse clock filtered 0).2).1,
   Calendar.done filtered).
Proof.
  unfold Calendar.buckets.
  destruct (Calendar.overdue Date_parse clock filtered 0) as [o n]. simpl.
  destruct (Calendar.upcoming Date_parse clock filtered n) as [u n']. reflexivity.
Qed.

Lemma Section_Permutation (data : list Obligation.t) :
  Permutation (Calendar.Section_ rt Date_parse data) data.
Proof. destruct data; [reflexivity | apply sort_elements]. Qed.

Lemma Section_In (data : list Obligation.t) (o : Obligation.t) :
  In o (Calendar.Section_ rt Date_parse data) <-> In o data.
Proof.
  split; apply Permutation_in; [|symmetry]; apply Section_Permutation.
Qed.

(** On obligations whose due dates are all valid, the engine has no choice:
    [Section] lists them in the stable order. *)
Lemma Section_sort (data : list Obligation.t) :
  Forall (fun o => is_Some (Calendar.due Date_parse o)) data ->
  Calendar.Section_ rt Date_parse data
  = stable_sort (Calendar.by_due_date Date_parse) data.
Proof.
  intros Hvalid. destruct data as [|o data]; [reflexivity|].
  apply sort_consistent.
  exact (by_key_consistent (Calendar.due Date_parse) (o :: data) Hvalid).
Qed.

Lemma Section_Sorted (data : list Obligation.t) :
  Forall (fun o => is_Some (Calendar.due Date_parse o)) data ->
  StronglySorted (due_le Date_parse) (Calendar.Section_ rt Date_parse data).
Proof.
  intros Hvalid. rewrite Section_sort by exact Hvalid.
  exact (stable_sort_Sorted (Calendar.due Date_parse) data Hvalid).
Qed.

Lemma overdue_due (filtered : list Obligation.t) (n : nat) :
  Forall (fun o => is_Some (Calendar.due Date_parse o))
         (Calendar.overdue Date_parse clock filtered n).1.
Proof.
  apply List.Forall_forall. intros o Ho.
  apply filterM_In in Ho as (_ & i & Hi).
  apply is_overdue_true in Hi as (_ & t & Ht & _). rewrite Ht. eexists. reflexivity.
Qed.

Lemma upcoming_due (filtered : list Obligation.t) (n : nat) :
  Forall (fun o => is_Some (Calendar.due Date_parse o))
         (Calendar.upcoming Date_parse clock filtered n).1.
Proof.
  apply List.Forall_forall. intros o Ho.
  apply filterM_In in Ho as (_ & i & Hi).
  apply is_upcoming_true in Hi as (_ & t & Ht & _). rewrite Ht. eexists. reflexivity.
Qed.

(** Between two bounds of the readings, the first two lists hold what is due
    before the lower bound, respectively from the upper bound on, and nothing
    that is due from the upper bound on, respectively before the lower one. *)
Lemma buckets_within (lo hi : Z) (filtered : list Obligation.t) (o : Obligation.t)
    (t : Z) :
  within clock lo hi ->
  In o filtered -> Obligation.status o = Status.open ->
  Calendar.due Date_parse o = Some t ->
  let b := Calendar.buckets Date_parse clock filtered in
  ((t < lo)%Z -> In o b.1.1) /\ ((hi <= t)%Z -> In o b.1.2) /\
  (In o b.1.1 -> (t < hi)%Z) /\ (In o b.1.2 -> (lo <= t)%Z).
Proof.
  intros Hclock Hin Hopen Hdue. rewrite buckets_eq. simpl.
  split; [|split; [|split]].
  - intros Hlt. apply filterM_In_always; [exact Hin|]. intros i.
    apply is_overdue_true. split; [exact Hopen|]. exists t. split; [exact Hdue|].
    specialize (Hclock i). lia.
  - intros Hle. apply filterM_In_always; [exact Hin|]. intros i.
    apply is_upcoming_true. split; [exact Hopen|]. exists t. split; [exact Hdue|].
    specialize (Hclock i). lia.
  - intros Ho. apply filterM_In in Ho as (_ & i & Hi).
    apply is_overdue_true in Hi as (_ & t' & Ht' & Hlt).
    rewrite Hdue in Ht'. injection Ht' as <-. specialize (Hclock i). lia.
  - intros Ho. apply filterM_In in Ho as (_ & i & Hi).
    apply is_upcoming_true in Hi as (_ & t' & Ht' & Hle).
    rewrite Hdue in Ht'. injection Ht' as <-. specialize (Hclock i). lia.
Qed.

Lemma buckets_open (filtered : list Obligation.t) (o : Obligation.t) :
  let b := Calendar.buckets Date_parse clock filtered in
  In o b.1.1 \/ In o b.1.2 ->
  In o filtered /\ Obligation.status o = Status.open /\
  is_Some (Calendar.due Date_parse o).
Proof.
  rewrite buckets_eq. simpl. intros [Ho|Ho].
  - apply filterM_In in Ho as (Hin & i & Hi).
    apply is_overdue_true in Hi as (Hopen & t & Ht & _). rewrite Ht. eauto.
  - apply filterM_In in Ho as (Hin & i & Hi).
    apply is_upcoming_true in Hi as (Hopen & t & Ht & _). rewrite Ht. eauto.
Qed.

End Buckets.

(** C4, as claimed, fails in two ways. First, the list of the done
    obligations is not always in ascending order of the due timestamp: of
    three done obligations due on 2 January, on a date that is no date and on
    1 January, in an engine whose sort is the insertion sort the comparator
    answers [NaN] for the middle one against each neighbour, nothing moves,
    and the one due on 2 January is shown above the one due on 1 January.
    Second, the clock is read again for every open obligation and in each of
    the two filters: an open obligation due at the instant of the first
    reading is not overdue at that reading and, the clock having advanced, no
    longer upcoming at the second, so it is in neither list. *)
Lemma C4_done_unsorted_and_clock_gap :
  let a := Sample.obligation 1 "a" "2024-01-02T09:00" Status.done in
  let b := Sample.obligation 2 "b" "sem data" Status.done in
  let c := Sample.obligation 3 "c" "2024-01-01T09:00" Status.done in
  let o := Sample.obligation 4 "d" "2024-01-01T09:00" Status.open in
  let now := 1704200000000%Z in
  (Calendar.render Sample.runtime Sample.Date_parse (Sample.at_ now) 0 "" [[a; b; c]]).1
    = ([], [], [a; b; c]) /\
  ~ due_le Sample.Date_parse a c /\
  ~ StronglySorted (due_le Sample.Date_parse) [a; b; c] /\
  Calendar.due Sample.Date_parse o = Some 1704099600000%Z /\
  Sample.ticking 1704099600000 0 = 1704099600000%Z /\
  Sample.ticking 1704099600000 1 = 1704099600001%Z /\
  (Calendar.render Sample.runtime Sample.Date_parse (Sample.ticking 1704099600000)
     0 "" [[o]]).1 = ([], [], []).
Proof.
  intros a b c o now.
  split; [reflexivity|]. split.
  { intros (x & y & Hx & Hy & Hle). vm_compute in Hx, Hy.
    injection Hx as <-. injection Hy as <-. lia. }
  split.
  { intros H. apply StronglySorted_inv in H as [_ H].
    apply Forall_cons_1 in H as [(x & y & _ & Hy & _) _]. discriminate. }
  repeat split.
Qed.

(** C4, amended: for every list of obligations, in every engine, when the
    clock reads the same time [now] throughout the render the list shown
    under "Atrasados" holds exactly the open obligations due strictly before
    [now] and the list under "Próximos" exactly the open ones due at [now] or
    later; when the clock moves during the render, between [lo] and [hi], an
    open obligation due before [lo] is under "Atrasados" and none due at [hi]
    or later is, one due at [hi] or later is under "Próximos" and none due
    before [lo] is. The list under "Concluídos" holds exactly the done ones.
    The first two lists are in ascending order of the due timestamp, and so
    is the third when the due date of every done obligation is a valid date
    (an open obligation whose due date is not valid is in neither of the
    first two lists). A render of the page shows these three lists. *)
Theorem C4_buckets_sorted (rt : Runtime) (Date_parse : string -> option Z)
    (clock : nat -> Z) (filtered : list Obligation.t) :
  let b := Calendar.buckets Date_parse clock filtered in
  let atrasados := Calendar.Section_ rt Date_parse b.1.1 in
  let proximos := Calendar.Section_ rt Date_parse b.1.2 in
  let concluidos := Calendar.Section_ rt Date_parse b.2 in
  (forall now, steady clock now ->
     (forall o, In o atrasados <->
        In o filtered /\ Obligation.status o = Status.open /\
        exists t, Calendar.due Date_parse o = Some t /\ (t < now)%Z) /\
     (forall o, In o proximos <->
        In o filtered /\ Obligation.status o = Status.open /\
        exists t, Calendar.due Date_parse o = Some t /\ (now <= t)%Z)) /\
  (forall lo hi, within clock lo hi ->
     forall o t, In o filtered -> Obligation.status o = Status.open ->
       Calendar.due Date_parse o = Some t ->
       ((t < lo)%Z -> In o atrasados) /\ ((hi <= t)%Z -> In o proximos) /\
       (In o atrasados -> (t < hi)%Z) /\ (In o proximos -> (lo <= t)%Z)) /\
  (forall o, In o atrasados \/ In o proximos ->
     In o filtered /\ Obligation.status o = Status.open /\
     is_Some (Calendar.due Date_parse o)) /\
  (forall o, In o concluidos <->
     In o filtered /\ Obligation.status o = Status.done) /\
  StronglySorted (due_le Date_parse) atrasados /\
  StronglySorted (due_le Date_parse) proximos /\
  (Forall (fun o => is_Some (Calendar.due Date_parse o)) (Calendar.done filtered) ->
   StronglySorted (due_le Date_parse) concluidos) /\
  (forall (rows : Calendar.Ref) (q : string) (h : Calendar.Store),
     (rows < length h)%nat ->
     filtered = Calendar.filtered rt (Calendar.deref h rows) q ->
     (Calendar.render rt Date_parse clock rows q h).1 = (atrasados, proximos, concluidos)).
Proof.
  intros b atrasados proximos concluidos.
  assert (Hwithin : forall lo hi, within clock lo hi ->
     forall o t, In o filtered -> Obligation.status o = Status.open ->
       Calendar.due Date_parse o = Some t ->
       ((t < lo)%Z -> In o atrasados) /\ ((hi <= t)%Z -> In o proximos) /\
       (In o atrasados -> (t < hi)%Z) /\ (In o proximos -> (lo <= t)%Z)).
  { intros lo hi Hclock o t Hin Hopen Hdue. subst atrasados proximos.
    rewrite !Section_In.
    exact (buckets_within Date_parse clock lo hi filtered o t Hclock Hin Hopen Hdue). }
  assert (Hopen : forall o, In o atrasados \/ In o proximos ->
     In o filtered /\ Obligation.status o = Status.open /\
     is_Some (Calendar.due Date_parse o)).
  { intros o. subst atrasados proximos. rewrite !Section_In.
    exact (buckets_open Date_parse clock filtered o). }
  split; [|split; [exact Hwithin|split; [exact Hopen|]]].
  - intros now Hsteady.
    assert (Hclock : within clock now now) by (intros n; rewrite (Hsteady n); lia).
    split; intros o; split.
    + intros Ho. destruct (Hopen o (or_introl Ho)) as (Hin & Hst & t & Ht).
      split; [exact Hin|]. split; [exact Hst|]. exists t. split; [exact Ht|].
      apply (Hwithin now now Hclock o t Hin Hst Ht). exact Ho.
    + intros (Hin & Hst & t & Ht & Hlt).
      apply (Hwithin now now Hclock o t Hin Hst Ht). exact Hlt.
    + intros Ho. destruct (Hopen o (or_intror Ho)) as (Hin & Hst & t & Ht).
      split; [exact Hin|]. split; [exact Hst|]. exists t. split; [exact Ht|].
      apply (Hwithin now now Hclock o t Hin Hst Ht). exact Ho.
    + intros (Hin & Hst & t & Ht & Hle).
      apply (Hwithin now now Hclock o t Hin Hst Ht). exact Hle.
  - subst atrasados proximos concluidos b. rewrite buckets_eq. simpl.
    split; [|split; [|split; [|split]]].
    + intros o. rewrite Section_In. unfold Calendar.done.
      rewrite filter_In. unfold Calendar.is_done. rewrite bool_decide_eq_true.
      reflexivity.
    + apply Section_Sorted, overdue_due.
    + apply Section_Sorted, upcoming_due.
    + apply Section_Sorted.
    + intros rows q h Hrows ->.
      pose proof (render_spec rt Date_parse clock rows q h Hrows) as H.
      destruct (Calendar.render rt Date_parse clock rows q h) as [[[x y] z] h'].
      cbv zeta in H. rewrite buckets_eq in H. simpl in H.
      destruct H as (-> & -> & -> & _). reflexivity.
Qed.

Lemma C4_buckets_sorted_witness :
  let late := Sample.obligation 2 "Enviar proposta" "2024-01-02T09:00" Status.open in
  let early := Sample.obligation 1 "Ligar" "2024-01-01T09:00" Status.open in
  let paid := Sample.obligation 4 "Cobrar" "2024-01-02T09:00" Status.done in
  let sent := Sample.obligation 3 "Enviar contrato" "2024-01-01T09:00" Status.done in
  let rows := [late; paid; early; sent] in
  let after := 1704200000000%Z in
  let between := 1704100000000%Z in
  steady (Sample.at_ after) after /\
  within (Sample.ticking between) between (between + 1000) /\
  Forall (fun o => is_Some (Calendar.due Sample.Date_parse o)) (Calendar.done rows) /\
  (forall o,
     In o (Calendar.Section_ Sample.runtime Sample.Date_parse
             (Calendar.buckets Sample.Date_parse (Sample.at_ after) rows).1.1) <->
     In o rows /\ Obligation.status o = Status.open /\
     exists t, Calendar.due Sample.Date_parse o = Some t /\ (t < after)%Z) /\
  In early (Calendar.Section_ Sample.runtime Sample.Date_parse
              (Calendar.buckets Sample.Date_parse (Sample.ticking between) rows).1.1) /\
  In late (Calendar.Section_ Sample.runtime Sample.Date_parse
             (Calendar.buckets Sample.Date_parse (Sample.ticking between) rows).1.2) /\
  StronglySorted (due_le Sample.Date_parse)
    (Calendar.Section_ Sample.runtime Sample.Date_parse
       (Calendar.buckets Sample.Date_parse (Sample.at_ after) rows).2) /\
  (Calendar.render Sample.runtime Sample.Date_parse (Sample.at_ after) 0 "" [rows]).1
    = ([early; late], [], [sent; paid]) /\
  (Calendar.render Sample.runtime Sample.Date_parse (Sample.ticking between) 0 "" [rows]).1
    = ([early], [late], [sent; paid]) /\
  (Calendar.render Sample.runtime Sample.Date_parse (Sample.at_ after) 0 ""
     [[early; late]]).1 = ([early; late], [], []).
Proof.
  intros late early paid sent rows after between.
  assert (Hsteady : steady (Sample.at_ after) after) by (intros n; reflexivity).
  assert (Hwithin : within (Sample.ticking between) between (between + 1000)).
  { intros n. unfold Sample.ticking. lia. }
  assert (Hvalid : Forall (fun o => is_Some (Calendar.due Sample.Date_parse o))
                     (Calendar.done rows)).
  { repeat constructor; eexists; reflexivity. }
  pose proof (C4_buckets_sorted Sample.runtime Sample.Date_parse (Sample.at_ after) rows)
    as (Hat & _ & _ & _ & _ & _ & Hdone & Hrender).
  pose proof (C4_buckets_sorted Sample.runtime Sample.Date_parse (Sample.ticking between) rows)
    as (_ & Hbounds & _ & _ & _ & _ & _ & Hrender').
  destruct (Hat after Hsteady) as [Hover _].
  assert (Hearly : In early rows) by (right; right; left; reflexivity).
  assert (Hlate : In late rows) by (left; reflexivity).
  destruct (Hbounds between (between + 1000)%Z Hwithin early 1704099600000%Z
              Hearly eq_refl eq_refl) as (Hbefore & _).
  destruct (Hbounds between (between + 1000)%Z Hwithin late 1704186000000%Z
              Hlate eq_refl eq_refl) as (_ & Hafter & _).
  split; [exact Hsteady|]. split; [exact Hwithin|]. split; [exact Hvalid|].
  split; [exact Hover|].
  split; [exact (Hbefore eq_refl)|].
  split; [apply Hafter; discriminate|].
  split; [exact (Hdone Hvalid)|].
  split; [|split].
  - rewrite (Hrender 0%nat "" [rows]); [reflexivity | simpl; lia | reflexivity].
  - rewrite (Hrender' 0%nat "" [rows]); [reflexivity | simpl; lia | reflexivity].
  - reflexivity.
Defined.

(** * Further properties of the client and the pages *)

(** ** lib/crm.ts *)

Lemma perform_eq (w : World) {A} (c : crm.Api A) :
  crm.perform w c =
  crm.http w (crm.request_of c).1.1 (crm.request_of c).1.2 (crm.request_of c).2.
Proof. unfold crm.perform. destruct (crm.request_of c) as [[p i] q]. reflexivity. Qed.

(** X1: the helper resolves with [v] exactly when [fetch] resolved with a
    response of status 200..299 whose [json()] resolves with [v]; a rejection
    of [fetch] itself (no connection) rejects the helper with the same
    error. *)
Theorem X1_http_resolves_iff {T : Type} (w : World) (path : string)
    (init : option RequestInit) (query : option crm.Query) :
  (forall v : T,
     crm.http w path init query = Resolved v <->
     exists res, fetch w T (crm.http_request w path init query) = Resolved res /\
                 (200 <= status res <= 299)%N /\ json res = Resolved v) /\
  (forall e, fetch w T (crm.http_request w path init query) = Rejected e ->
     crm.http (T:=T) w path init query = Rejected e).
Proof.
  unfold crm.http. split.
  - intros v.
    destruct (fetch w T (crm.http_request w path init query)) as [res|e].
    + destruct (ok res) eqn:Hok; simpl.
      * apply ok_iff in Hok. split.
        -- intros Hv. exists res. auto.
        -- intros (res' & Hres & _ & Hv). injection Hres as <-. exact Hv.
      * split; [discriminate|].
        intros (res' & Hres & Hst & _). injection Hres as <-.
        apply ok_iff in Hst. congruence.
    + split; [discriminate|]. intros (res & Hres & _). discriminate.
  - intros e He. rewrite He. reflexivity.
Qed.

(** X2: every request of an exported function carries the header
    [Content-Type: application/json], and no header other than
    [Content-Type] and [Authorization]. *)
Theorem X2_outgoing_headers (w : World) {A : Type} (c : crm.Api A) :
  req_headers (crm.outgoing w c) !! "Content-Type" = Some "application/json" /\
  forall k, is_Some (req_headers (crm.outgoing w c) !! k) ->
            k = "Content-Type" \/ k = "Authorization".
Proof.
  split.
  - rewrite outgoing_eq, http_request_headers, request_of_no_headers, lookup_empty.
    assert (Hauth : crm.authHeaders w !! "Content-Type" = None).
    { unfold crm.authHeaders.
      destruct (localStorage w !! "token") as [token|]; [|apply lookup_empty].
      destruct (truthy token); [|apply lookup_empty].
      apply lookup_singleton_ne. discriminate. }
    rewrite Hauth. apply lookup_singleton_eq.
  - intros k. rewrite outgoing_eq, http_request_headers, request_of_no_headers,
      lookup_empty.
    destruct (decide (k = "Authorization")) as [->|Hauth]; [auto|].
    destruct (decide (k = "Content-Type")) as [->|Hct]; [auto|].
    assert (Hnone : crm.authHeaders w !! k = None).
    { unfold crm.authHeaders.
      destruct (localStorage w !! "token") as [token|]; [|apply lookup_empty].
      destruct (truthy token); [|apply lookup_empty].
      apply lookup_singleton_ne. congruence. }
    rewrite Hnone, lookup_singleton_ne by congruence.
    intros [v Hv]. discriminate.
Qed.

Lemma String_of_N_not_name (n : N) (k : string) :
  (exists c t, k = String c t /\ (nat_of_ascii c < 48 \/ 57 < nat_of_ascii c)%nat) ->
  String_of_N n <> k.
Proof.
  intros (c & t & -> & Hc). unfold String_of_N.
  destruct (N.to_uint n); simpl; try discriminate;
    intros H; injection H as <- _; vm_compute in Hc; lia.
Qed.

Lemma Pairs_lookup (l : list (string * string)) (k : string) :
  (forall i : nat, String_of_N (N.of_nat i) <> k) ->
  own_properties (Pairs l) !! k = None.
Proof.
  intros Hk. unfold own_properties. apply not_elem_of_list_to_map.
  intros Hin. apply list_elem_of_fmap in Hin as (kv & -> & Hin).
  apply elem_of_lookup_imap in Hin as (i & y & -> & _).
  exact (Hk i eq_refl).
Qed.

(** X3: what a caller passes in [init.headers] reaches the [headers] object
    handed to [fetch] as far as the spread copies it. A name passed in a
    plain object is in that object with the caller's value, in place of the
    helper's header of exactly that name ([Authorization], [Content-Type]); a
    name the caller does not pass is there as without [init.headers], so a
    caller's name that differs from the helper's in the case of a letter
    stands beside the helper's header. Of a [Headers] instance the spread
    copies nothing, and of an array of pairs it copies the indices: with
    either, the two headers of the helper are as without [init.headers]. *)
Theorem X3_caller_headers_spread (w : World) (path : string) (init : RequestInit)
    (query : option crm.Query) :
  let sent := req_headers (crm.http_request w path (Some init) query) in
  let own := req_headers (crm.http_request w path None query) in
  (forall h k, init_headers init = Some (Record_ h) ->
     (forall v, h !! k = Some v -> sent !! k = Some v) /\
     (h !! k = None -> sent !! k = own !! k)) /\
  (forall h, init_headers init = Some (Headers h) -> sent = own) /\
  (forall h k, init_headers init = Some (Pairs h) ->
     (forall i : nat, String_of_N (N.of_nat i) <> k) -> sent !! k = own !! k) /\
  (forall h, init_headers init = Some (Pairs h) ->
     sent !! "Authorization" = own !! "Authorization" /\
     sent !! "Content-Type" = own !! "Content-Type").
Proof.
  intros sent own. subst sent own.
  assert (HP : forall h k, init_headers init = Some (Pairs h) ->
     (forall i : nat, String_of_N (N.of_nat i) <> k) ->
     req_headers (crm.http_request w path (Some init) query) !! k
     = req_headers (crm.http_request w path None query) !! k).
  { intros h k Hh Hk. rewrite !http_request_headers. simpl. rewrite Hh.
    change (from_option own_properties ∅ (Some (Pairs h))) with (own_properties (Pairs h)).
    rewrite (Pairs_lookup h k Hk), lookup_empty. reflexivity. }
  split; [|split; [|split; [exact HP|]]].
  - intros h k Hh. rewrite !http_request_headers. simpl. rewrite Hh. simpl. split.
    + intros v Hv. rewrite Hv. reflexivity.
    + intros Hnone. rewrite Hnone, lookup_empty. reflexivity.
  - intros h Hh. unfold crm.http_request. simpl. rewrite Hh. reflexivity.
  - intros h Hh. split; apply (HP h _ Hh); intros i; apply String_of_N_not_name.
    + exists "A"%char, "uthorization". split; [reflexivity | right; vm_compute; lia].
    + exists "C"%char, "ontent-Type". split; [reflexivity | right; vm_compute; lia].
Qed.

Lemma X3_caller_headers_spread_witness :
  let basic := mkInit (Some "GET") None
                 (Some (Record_ {[ "Authorization" := "Basic abc" ]})) in
  let plain := mkInit (Some "GET") None
                 (Some (Record_ {[ "content-type" := "text/plain" ]})) in
  let instance := mkInit (Some "GET") None (Some (Headers [("Authorization", "Basic abc")])) in
  let pairs := mkInit (Some "GET") None (Some (Pairs [("Authorization", "Basic abc")])) in
  let sent init := req_headers (crm.http_request Sample.not_found "/contacts" (Some init) None) in
  sent basic !! "Authorization" = Some "Basic abc" /\
  sent plain !! "content-type" = Some "text/plain" /\
  sent plain !! "Content-Type" = Some "application/json" /\
  sent instance !! "Authorization" = Some "Bearer s3cr3t" /\
  sent pairs !! "Authorization" = Some "Bearer s3cr3t" /\
  sent pairs !! "0" = Some "Authorization,Basic abc".
Proof.
  intros basic plain instance pairs sent.
  split.
  { apply (proj1 (proj1 (X3_caller_headers_spread Sample.not_found "/contacts" basic None)
                    {[ "Authorization" := "Basic abc" ]} "Authorization" eq_refl)).
    reflexivity. }
  split.
  { apply (proj1 (proj1 (X3_caller_headers_spread Sample.not_found "/contacts" plain None)
                    {[ "content-type" := "text/plain" ]} "content-type" eq_refl)).
    reflexivity. }
  split.
  { unfold sent.
    rewrite (proj2 (proj1 (X3_caller_headers_spread Sample.not_found "/contacts" plain None)
                      {[ "content-type" := "text/plain" ]} "Content-Type" eq_refl));
      reflexivity. }
  split.
  { unfold sent.
    rewrite (proj1 (proj2 (X3_caller_headers_spread Sample.not_found "/contacts" instance None))
               [("Authorization", "Basic abc")] eq_refl).
    reflexivity. }
  split.
  { unfold sent.
    rewrite (proj1 (proj2 (proj2 (proj2
               (X3_caller_headers_spread Sample.not_found "/contacts" pairs None)))
               [("Authorization", "Basic abc")] eq_refl)).
    reflexivity. }
  reflexivity.
Defined.

Lemma String_of_Z_inj (a b : Z) : crm.String_of_Z a = crm.String_of_Z b -> a = b.
Proof.
  unfold crm.String_of_Z. intros H. apply DecimalZ.to_int_inj.
  assert (Hs : Some (Z.to_int a) = Some (Z.to_int b)).
  { rewrite <- !NilEmpty.isi. rewrite H. reflexivity. }
  congruence.
Qed.

Lemma append_inj_l (p a b : string) : p +:+ a = p +:+ b -> a = b.
Proof.
  induction p as [|c p IH]; simpl; intros H; [exact H|].
  injection H as H. auto.
Qed.

(** X4: the calls that address one entity put its identity in the path in a
    way that tells identities apart: two reads, two updates or two deletes
    ask for the same path only when they name the same identity, whatever
    their payloads. *)
Theorem X4_entity_paths_injective (a b : Z) :
  (path_of (crm.getContact a) = path_of (crm.getContact b) -> a = b) /\
  (forall p p', path_of (crm.updateContact a p) = path_of (crm.updateContact b p') -> a = b) /\
  (path_of (crm.deleteContact a) = path_of (crm.deleteContact b) -> a = b) /\
  (forall p p', path_of (crm.updateDeal a p) = path_of (crm.updateDeal b p') -> a = b) /\
  (path_of (crm.deleteDeal a) = path_of (crm.deleteDeal b) -> a = b) /\
  (forall p p', path_of (crm.updateObligation a p) = path_of (crm.updateObligation b p')
                -> a = b) /\
  (path_of (crm.deleteObligation a) = path_of (crm.deleteObligation b) -> a = b).
Proof.
  repeat apply conj.
  - intros H. apply String_of_Z_inj, (append_inj_l "/contacts/"). exact H.
  - intros p p' H. apply String_of_Z_inj, (append_inj_l "/contacts/"). exact H.
  - intros H. apply String_of_Z_inj, (append_inj_l "/contacts/"). exact H.
  - intros p p' H. apply String_of_Z_inj, (append_inj_l "/deals/"). exact H.
  - intros H. apply String_of_Z_inj, (append_inj_l "/deals/"). exact H.
  - intros p p' H. apply String_of_Z_inj, (append_inj_l "/obligations/"). exact H.
  - intros H. apply String_of_Z_inj, (append_inj_l "/obligations/"). exact H.
Qed.

Lemma X4_entity_paths_injective_witness :
  path_of (crm.deleteDeal 7) = "/deals/7" /\
  (path_of (crm.deleteDeal 7) = path_of (crm.deleteDeal 7) -> 7 = 7)%Z.
Proof.
  split; [reflexivity|].
  exact (proj1 (proj2 (proj2 (proj2 (proj2 (X4_entity_paths_injective 7 7)))))).
Defined.

(** X5: on the wire, the list calls of the pages. The board asks for
    [/deals] with no query string. The calendar asks for [/obligations] with
    the bounds of its date inputs as [start] and [end], in this order, and
    leaves out a bound whose input is empty; when both are empty the query
    string is there and empty. A column filter of [listDeals] goes out as
    [column=<name>]. *)
Theorem X5_list_urls (w : World) (env : Env) :
  (forall s : Kanban.State,
     exists c : crm.Api (list Deal.t),
       calls (run env Kanban.refresh s) = [call c] /\
       req_url (crm.outgoing w c) = mkURL (crm.BASE_URL w) "/deals" None) /\
  (forall s : Calendar.State,
     exists c : crm.Api (list Obligation.t),
       calls (run env (Calendar.refresh s) s) = [call c] /\
       req_url (crm.outgoing w c) =
         mkURL (crm.BASE_URL w) "/obligations"
           (Some ((if truthy (Calendar.start s)
                   then [("start", Calendar.start s)] else []) ++
                  (if truthy (Calendar.end_ s)
                   then [("end", Calendar.end_ s)] else []))%list)) /\
  (forall col : Column,
     req_url (crm.outgoing w (crm.listDeals (Some col))) =
       mkURL (crm.BASE_URL w) "/deals" (Some [("column", crm.Column_name col)])).
Proof.
  split; [|split].
  - intros s. exists (crm.listDeals None). split; [|reflexivity].
    unfold run, Kanban.refresh. cbn.
    destruct (settle env _ (crm.listDeals None)); reflexivity.
  - intros s.
    exists (crm.listObligations
              (Some (crm.mkRange (Some (Some (Calendar.start s)))
                                 (Some (Some (Calendar.end_ s)))))).
    split.
    + unfold run, Calendar.refresh. cbn.
      match goal with |- context [settle env ?A ?c] =>
        destruct (settle env A c) end; reflexivity.
    + unfold crm.outgoing, crm.http_request, crm.querystring. simpl.
      destruct (truthy (Calendar.start s)), (truthy (Calendar.end_ s)); reflexivity.
  - intros col. unfold crm.outgoing, crm.http_request, crm.querystring. simpl.
    destruct col; reflexivity.
Qed.

(** X6: a page in the browser, reloading against a service that answers
    the list request with a status outside 200..299, shows as its error the
    body text of the response when that text is non-empty, and
    ["HTTP <status>"] when it is empty or cannot be read: the page's own
    fallback text is not used for such a failure. *)
Theorem X6_refresh_shows_http_error (w : World) (env : Env) :
  through w env ->
  (forall (s : Kanban.State) (res : Response (list Deal.t)),
     fetch w _ (crm.outgoing w (crm.listDeals None)) = Resolved res ->
     ~ (200 <= status res <= 299)%N ->
     Kanban.error (final (run env Kanban.refresh s)) = Some (status_message res) /\
     status_message res <> "") /\
  (forall (s : Contacts.State) (res : Response (list Contact.t)),
     fetch w _ (crm.outgoing w crm.listContacts) = Resolved res ->
     ~ (200 <= status res <= 299)%N ->
     Contacts.error (final (run env Contacts.refresh s)) = Some (status_message res) /\
     status_message res <> "") /\
  (forall (s : Calendar.State) (res : Response (list Obligation.t)),
     fetch w _ (crm.outgoing w
                  (crm.listObligations
                     (Some (crm.mkRange (Some (Some (Calendar.start s)))
                                        (Some (Some (Calendar.end_ s)))))))
       = Resolved res ->
     ~ (200 <= status res <= 299)%N ->
     Calendar.error (final (run env (Calendar.refresh s) s))
       = Some (status_message res) /\
     status_message res <> "").
Proof.
  intros Hthrough.
  assert (Hrej : forall A (c : crm.Api A) (res : Response A),
            fetch w _ (crm.outgoing w c) = Resolved res ->
            ~ (200 <= status res <= 299)%N ->
            settle env A c = Rejected (mkError (status_message res))).
  { intros A c res Hres Hst. rewrite Hthrough, perform_eq. unfold crm.http.
    rewrite outgoing_eq in Hres. rewrite Hres.
    destruct (ok res) eqn:Hok; [apply ok_iff in Hok; contradiction|].
    unfold status_message. simpl. destruct (text res) as [[|a t]|e]; reflexivity. }
  assert (Hne : forall A (res : Response A), status_message res <> "").
  { intros A res. unfold status_message.
    destruct (text res) as [[|a t]|e]; discriminate. }
  assert (Hown : forall A (res : Response A) fallback,
            or_else (status_message res) fallback = status_message res).
  { intros A res fallback. unfold or_else.
    rewrite (proj2 (truthy_iff _) (Hne A res)). reflexivity. }
  split; [|split]; intros s res Hres Hst; (split; [|apply Hne]).
  - unfold run, Kanban.refresh. cbn. rewrite (Hrej _ _ res Hres Hst). cbn.
    rewrite Hown. reflexivity.
  - unfold run, Contacts.refresh. cbn. rewrite (Hrej _ _ res Hres Hst). cbn.
    rewrite Hown. reflexivity.
  - unfold run, Calendar.refresh. cbn. rewrite (Hrej _ _ res Hres Hst). cbn.
    rewrite Hown. reflexivity.
Qed.

Lemma X6_refresh_shows_http_error_witness :
  let env := Sample.browser true None Sample.not_found in
  let res : Response (list Deal.t) :=
    mkResponse 404 (Resolved "Not Found") (Sample.unparsable _) in
  through Sample.not_found env /\
  fetch Sample.not_found _ (crm.outgoing Sample.not_found (crm.listDeals None))
    = Resolved res /\
  Kanban.error (final (run env Kanban.refresh (Sample.kanban []))) = Some "Not Found".
Proof.
  intros env res.
  assert (Hthrough : through Sample.not_found env) by (intros A c; reflexivity).
  split; [exact Hthrough|]. split; [reflexivity|].
  apply (proj1 (proj1 (X6_refresh_shows_http_error Sample.not_found env Hthrough)
                  (Sample.kanban []) res eq_refl ltac:(simpl; lia))).
Defined.

(** ** The handlers of the pages *)

(** Case analysis on every answer of the environment a run depends on. *)
Ltac answers env :=
  repeat (cbn;
    match goal with
    | |- context [answer env ?A ?d] => destruct (answer env A d)
    | |- context [settle env ?A ?c] => destruct (settle env A c)
    | |- context [match ?t with EmptyString => _ | String _ _ => _ end] => destruct t
    end); cbn.

(** X7: no handler of the three pages issues more than one remote call in
    a run: a failed load, update, create or delete is never sent again. *)
Theorem X7_no_retry :
  at_most_one_call Kanban.refresh /\
  at_most_one_call Contacts.refresh /\
  (forall render, at_most_one_call (Calendar.refresh render)) /\
  (forall render d to, at_most_one_call (Kanban.move render d to)) /\
  (forall render o, at_most_one_call (Calendar.toggleDone render o)) /\
  (forall render id current, at_most_one_call (Contacts.toggleReal render id current)) /\
  (forall Number, at_most_one_call (Kanban.quickAdd Number)) /\
  at_most_one_call Contacts.quickAdd /\
  (forall today, at_most_one_call (Calendar.quickAdd today)) /\
  (forall render id, at_most_one_call (Kanban.remove render id)) /\
  (forall render id, at_most_one_call (Contacts.remove render id)) /\
  (forall render id, at_most_one_call (Calendar.remove render id)).
Proof.
  unfold at_most_one_call. repeat apply conj; intros.
  - unfold Kanban.refresh. answers env; lia.
  - unfold Contacts.refresh. answers env; lia.
  - unfold Calendar.refresh. answers env; lia.
  - unfold Kanban.move. destruct (decide (Deal.column d = to)); answers env; lia.
  - unfold Calendar.toggleDone. answers env; lia.
  - unfold Contacts.toggleReal. answers env; lia.
  - unfold Kanban.quickAdd. answers env; lia.
  - unfold Contacts.quickAdd. answers env; lia.
  - unfold Calendar.quickAdd. answers env; lia.
  - unfold Kanban.remove. answers env; lia.
  - unfold Contacts.remove. answers env; lia.
  - unfold Calendar.remove. answers env; lia.
Qed.

(** X8: the six optimistic handlers never reject and never show anything:
    whatever the dialogs answer and however the remote call settles, the
    handler's own promise resolves, and the state it leaves differs from the
    state it started from in the collection only (loading flag, query,
    filters and error message are as before). *)
Theorem X8_mutations_are_silent (env : Env) :
  (forall (s : Kanban.State) d to,
     let r := run env (Kanban.move s d to) s in
     outcome r = Resolved tt /\
     final r = Kanban.setItems (fun _ => Kanban.items (final r)) s) /\
  (forall (s : Calendar.State) o,
     let r := run env (Calendar.toggleDone s o) s in
     outcome r = Resolved tt /\
     final r = Calendar.setRows (fun _ => Calendar.rows (final r)) s) /\
  (forall (s : Contacts.State) id current,
     let r := run env (Contacts.toggleReal s id current) s in
     outcome r = Resolved tt /\
     final r = Contacts.setRows (fun _ => Contacts.rows (final r)) s) /\
  (forall (s : Kanban.State) id,
     let r := run env (Kanban.remove s id) s in
     outcome r = Resolved tt /\
     final r = Kanban.setItems (fun _ => Kanban.items (final r)) s) /\
  (forall (s : Contacts.State) id,
     let r := run env (Contacts.remove s id) s in
     outcome r = Resolved tt /\
     final r = Contacts.setRows (fun _ => Contacts.rows (final r)) s) /\
  (forall (s : Calendar.State) id,
     let r := run env (Calendar.remove s id) s in
     outcome r = Resolved tt /\
     final r = Calendar.setRows (fun _ => Calendar.rows (final r)) s).
Proof.
  repeat apply conj; intros s; intros; subst r; unfold run.
  - unfold Kanban.move. destruct (decide (Deal.column d = to));
      answers env; destruct s; split; reflexivity.
  - unfold Calendar.toggleDone. answers env; destruct s; split; reflexivity.
  - unfold Contacts.toggleReal. answers env; destruct s; split; reflexivity.
  - unfold Kanban.remove. answers env; destruct s; split; reflexivity.
  - unfold Contacts.remove. answers env; destruct s; split; reflexivity.
  - unfold Calendar.remove. answers env; destruct s; split; reflexivity.
Qed.

(** X9: when the update is accepted, the collection stays as the
    optimistic step left it: the entity the service sends back is not put
    into the collection. *)
Theorem X9_update_success_keeps_optimistic (env : Env) :
  (forall (s : Kanban.State) d to served,
     Deal.column d <> to ->
     settle env _ (crm.updateDeal (Deal.id d)
                     (DealUpdate.mk None None None (Some to) None None None))
       = Resolved served ->
     Kanban.items (final (run env (Kanban.move s d to) s)) =
       List.map (fun x => if (Deal.id x =? Deal.id d)%Z
                          then Deal.with_column x to else x) (Kanban.items s)) /\
  (forall (s : Calendar.State) o served,
     let next := if decide (Obligation.status o = Status.done)
                 then Status.open else Status.done in
     settle env _ (crm.updateObligation (Obligation.id o)
                     (ObligationUpdate.mk None None None (Some next) None))
       = Resolved served ->
     Calendar.rows (final (run env (Calendar.toggleDone s o) s)) =
       List.map (fun x => if (Obligation.id x =? Obligation.id o)%Z
                          then Obligation.with_status x next else x)
                (Calendar.rows s)) /\
  (forall (s : Contacts.State) id current served,
     settle env _ (crm.updateContact id
                     (ContactUpdate.mk None None None None None None
                        (Some (negb current)) None))
       = Resolved served ->
     Contacts.rows (final (run env (Contacts.toggleReal s id current) s)) =
       List.map (fun r => if (Contact.id r =? id)%Z
                          then Contact.with_is_real r (negb current) else r)
                (Contacts.rows s)).
Proof.
  repeat apply conj.
  - intros s d to served Hne Hok. unfold run, Kanban.move.
    destruct (decide (Deal.column d = to)); [contradiction|]. cbn.
    rewrite Hok. reflexivity.
  - intros s o served next Hok. unfold run, Calendar.toggleDone. cbn.
    fold next. rewrite Hok. reflexivity.
  - intros s id current served Hok. unfold run, Contacts.toggleReal. cbn.
    rewrite Hok. reflexivity.
Qed.

Lemma X9_update_success_keeps_optimistic_witness :
  let env := Sample.env true None Sample.serving in
  let s := Sample.kanban [Sample.deal 1 "Site" novo; Sample.deal 2 "Loja" novo] in
  Deal.column (Sample.deal 1 "Site" novo) <> proposta /\
  Kanban.items (final (run env (Kanban.move s (Sample.deal 1 "Site" novo) proposta) s))
    = [Sample.deal 1 "Site" proposta; Sample.deal 2 "Loja" novo].
Proof.
  intros env s.
  assert (Hne : Deal.column (Sample.deal 1 "Site" novo) <> proposta) by discriminate.
  split; [exact Hne|].
  rewrite (proj1 (X9_update_success_keeps_optimistic env) s
             (Sample.deal 1 "Site" novo) proposta _ Hne eq_refl).
  reflexivity.
Defined.

(** X10: the snapshot a rollback restores is the collection of the render
    the handler belongs to, not the collection in the state when the handler
    runs. When the state has moved on since that render, a rejected call
    brings the older collection back, whatever the state held meanwhile. *)
Theorem X10_rollback_restores_render (env : Env) :
  (forall inflight (render s : Kanban.State) d to e,
     Deal.column d <> to ->
     settle env _ (crm.updateDeal (Deal.id d)
                     (DealUpdate.mk None None None (Some to) None None None))
       = Rejected e ->
     Kanban.items (final (exec env inflight (Kanban.move render d to) s))
       = Kanban.items render) /\
  (forall inflight (render s : Calendar.State) o e,
     settle env _ (crm.updateObligation (Obligation.id o)
                     (ObligationUpdate.mk None None None
                        (Some (if decide (Obligation.status o = Status.done)
                               then Status.open else Status.done)) None))
       = Rejected e ->
     Calendar.rows (final (exec env inflight (Calendar.toggleDone render o) s))
       = Calendar.rows render) /\
  (forall inflight (render s : Contacts.State) id current e,
     settle env _ (crm.updateContact id
                     (ContactUpdate.mk None None None None None None
                        (Some (negb current)) None))
       = Rejected e ->
     Contacts.rows (final (exec env inflight (Contacts.toggleReal render id current) s))
       = Contacts.rows render) /\
  (forall inflight (render s : Kanban.State) id e,
     answer env _ (confirm "Excluir este negócio?") = true ->
     settle env _ (crm.deleteDeal id) = Rejected e ->
     Kanban.items (final (exec env inflight (Kanban.remove render id) s))
       = Kanban.items render) /\
  (forall inflight (render s : Contacts.State) id e,
     answer env _ (confirm "Excluir este contato?") = true ->
     settle env _ (crm.deleteContact id) = Rejected e ->
     Contacts.rows (final (exec env inflight (Contacts.remove render id) s))
       = Contacts.rows render) /\
  (forall inflight (render s : Calendar.State) id e,
     answer env _ (confirm "Excluir esta obrigação?") = true ->
     settle env _ (crm.deleteObligation id) = Rejected e ->
     Calendar.rows (final (exec env inflight (Calendar.remove render id) s))
       = Calendar.rows render).
Proof.
  repeat apply conj.
  - intros inflight render s d to e Hne Hrej. unfold Kanban.move.
    destruct (decide (Deal.column d = to)); [contradiction|]. cbn.
    rewrite Hrej. reflexivity.
  - intros inflight render s o e Hrej. unfold Calendar.toggleDone. cbn.
    rewrite Hrej. reflexivity.
  - intros inflight render s id current e Hrej. unfold Contacts.toggleReal. cbn.
    rewrite Hrej. reflexivity.
  - intros inflight render s id e Hsure Hrej. unfold Kanban.remove. cbn.
    rewrite Hsure. cbn. rewrite Hrej. reflexivity.
  - intros inflight render s id e Hsure Hrej. unfold Contacts.remove. cbn.
    rewrite Hsure. cbn. rewrite Hrej. reflexivity.
  - intros inflight render s id e Hsure Hrej. unfold Calendar.remove. cbn.
    rewrite Hsure. cbn. rewrite Hrej. reflexivity.
Qed.

(** Two removals started from one render: the first has already taken
    entity 7 out of the state when the second, of entity 8, is rejected; its
    rollback puts entity 7 back as well. *)
Lemma X10_rollback_restores_render_witness :
  let env := Sample.env true None Sample.failing in
  let render := Sample.kanban [Sample.deal 7 "a" novo; Sample.deal 8 "b" novo] in
  let s := Sample.kanban [Sample.deal 8 "b" novo] in
  answer env _ (confirm "Excluir este negócio?") = true /\
  Kanban.items (final (run env (Kanban.remove render 8) s))
    = [Sample.deal 7 "a" novo; Sample.deal 8 "b" novo].
Proof.
  intros env render s. split; [reflexivity|].
  apply (proj1 (proj2 (proj2 (proj2 (X10_rollback_restores_render env))))
           (fun s => s) render s 8%Z (mkError "Failed to fetch"));
    reflexivity.
Defined.

(** *** Round trips *)

Lemma unique_by_key {A} (key : A -> Z) (l : list A) (x d : A) :
  NoDup (List.map key l) -> In x l -> In d l -> key x = key d -> x = d.
Proof.
  intros Hnodup Hx Hd Hkey.
  apply list_elem_of_In, list_elem_of_lookup in Hx as [i Hi].
  apply list_elem_of_In, list_elem_of_lookup in Hd as [j Hj].
  assert (i = j).
  { apply (NoDup_lookup (List.map key l) i j (key d) Hnodup).
    - rewrite lookup_map, Hi. simpl. congruence.
    - rewrite lookup_map, Hj. reflexivity. }
  subst j. congruence.
Qed.

Lemma patch_and_back {A} (key : A -> Z) (f g : A -> A) (d : A) (l : list A) :
  NoDup (List.map key l) -> In d l ->
  key (f d) = key d -> g (f d) = d ->
  List.map (fun x => if (key x =? key (f d))%Z then g x else x)
    (List.map (fun x => if (key x =? key d)%Z then f x else x) l) = l.
Proof.
  intros Hnodup Hd Hkey Hback. rewrite List.map_map.
  rewrite <- (List.map_id l) at 2. apply List.map_ext_in. intros x Hx.
  destruct (key x =? key d)%Z eqn:E.
  - apply Z.eqb_eq in E.
    assert (x = d) by (apply (unique_by_key key l); assumption). subst x.
    rewrite Z.eqb_refl. exact Hback.
  - rewrite Hkey, E. reflexivity.
Qed.

(** X11: on a service that accepts the updates, in a collection whose
    identities are pairwise distinct, undoing a field update through the same
    handler gives the collection back: a deal moved to another column and
    then, from its card there, back to its column; an obligation toggled
    twice; a contact's "Real?" box toggled twice. *)
Theorem X11_update_round_trip (env : Env) :
  accepting env ->
  (forall (s : Kanban.State) d to,
     NoDup (List.map Deal.id (Kanban.items s)) -> In d (Kanban.items s) ->
     Deal.column d <> to ->
     let s1 := final (run env (Kanban.move s d to) s) in
     let card := Deal.with_column d to in
     In card (Kanban.items s1) /\
     Kanban.items (final (run env (Kanban.move s1 card (Deal.column d)) s1))
       = Kanban.items s) /\
  (forall (s : Calendar.State) o,
     NoDup (List.map Obligation.id (Calendar.rows s)) -> In o (Calendar.rows s) ->
     let s1 := final (run env (Calendar.toggleDone s o) s) in
     let item := Obligation.with_status o
                   (if decide (Obligation.status o = Status.done)
                    then Status.open else Status.done) in
     In item (Calendar.rows s1) /\
     Calendar.rows (final (run env (Calendar.toggleDone s1 item) s1))
       = Calendar.rows s) /\
  (forall (s : Contacts.State) c,
     NoDup (List.map Contact.id (Contacts.rows s)) -> In c (Contacts.rows s) ->
     let s1 := final (run env (Contacts.toggleReal s (Contact.id c) (Contact.is_real c)) s) in
     let row := Contact.with_is_real c (negb (Contact.is_real c)) in
     In row (Contacts.rows s1) /\
     Contacts.rows (final (run env (Contacts.toggleReal s1 (Contact.id row)
                                      (Contact.is_real row)) s1))
       = Contacts.rows s).
Proof.
  intros Hacc. repeat apply conj.
  - intros s d to Hnodup Hd Hne s1 card.
    assert (Hs1 : Kanban.items s1 =
              List.map (fun x => if (Deal.id x =? Deal.id d)%Z
                                 then Deal.with_column x to else x) (Kanban.items s)).
    { subst s1. unfold run, Kanban.move.
      destruct (decide (Deal.column d = to)); [contradiction|]. cbn.
      destruct (Hacc _ (crm.updateDeal (Deal.id d)
                          (DealUpdate.mk None None None (Some to) None None None)))
        as [v ->]. reflexivity. }
    clearbody s1. split.
    + rewrite Hs1. apply in_map_iff. exists d. rewrite Z.eqb_refl. auto.
    + unfold run, Kanban.move.
      destruct (decide (Deal.column card = Deal.column d)) as [Heq|_];
        [simpl in Heq; congruence|]. cbn.
      match goal with |- context [settle env ?A ?c] =>
        destruct (Hacc A c) as [v ->] end. cbn. rewrite Hs1.
      apply (patch_and_back Deal.id (fun x => Deal.with_column x to)
               (fun x => Deal.with_column x (Deal.column d)) d);
        [exact Hnodup | exact Hd | reflexivity | destruct d; reflexivity].
  - intros s o Hnodup Ho s1 item.
    set (next := if decide (Obligation.status o = Status.done)
                 then Status.open else Status.done) in *.
    assert (Hs1 : Calendar.rows s1 =
              List.map (fun x => if (Obligation.id x =? Obligation.id o)%Z
                                 then Obligation.with_status x next else x)
                       (Calendar.rows s)).
    { subst s1. unfold run, Calendar.toggleDone. cbn. fold next.
      match goal with |- context [settle env ?A ?c] =>
        destruct (Hacc A c) as [v ->] end. reflexivity. }
    clearbody s1. split.
    + rewrite Hs1. apply in_map_iff. exists o. rewrite Z.eqb_refl. auto.
    + unfold run, Calendar.toggleDone. cbn.
      match goal with |- context [settle env ?A ?c] =>
        destruct (Hacc A c) as [v ->] end. cbn. rewrite Hs1.
      apply (patch_and_back Obligation.id (fun x => Obligation.with_status x next)
               (fun x => Obligation.with_status x
                           (if decide (Obligation.status item = Status.done)
                            then Status.open else Status.done)) o);
        [exact Hnodup | exact Ho | reflexivity |].
      subst item next. destruct o as [? ? ? ? ? [] ? ?]; reflexivity.
  - intros s c Hnodup Hc s1 row.
    assert (Hs1 : Contacts.rows s1 =
              List.map (fun r => if (Contact.id r =? Contact.id c)%Z
                                 then Contact.with_is_real r (negb (Contact.is_real c))
                                 else r) (Contacts.rows s)).
    { subst s1. unfold run, Contacts.toggleReal. cbn.
      match goal with |- context [settle env ?A ?c] =>
        destruct (Hacc A c) as [v ->] end. reflexivity. }
    clearbody s1. split.
    + rewrite Hs1. apply in_map_iff. exists c. rewrite Z.eqb_refl. auto.
    + unfold run, Contacts.toggleReal. cbn.
      match goal with |- context [settle env ?A ?c] =>
        destruct (Hacc A c) as [v ->] end. cbn. rewrite Hs1.
      apply (patch_and_back Contact.id
               (fun r => Contact.with_is_real r (negb (Contact.is_real c)))
               (fun r => Contact.with_is_real r (negb (Contact.is_real row))) c);
        [exact Hnodup | exact Hc | reflexivity |].
      subst row. destruct c as [? ? ? ? ? ? ? ? [] ? ? ?]; reflexivity.
Qed.

Lemma serving_accepting (sure : bool) (typed : option string) :
  accepting (Sample.env sure typed Sample.serving).
Proof. intros A c. destruct c; eexists; reflexivity. Qed.

Lemma X11_update_round_trip_witness :
  let env := Sample.env true None Sample.serving in
  let d := Sample.deal 1 "Site" novo in
  let s := Sample.kanban [d; Sample.deal 2 "Loja" novo] in
  accepting env /\
  NoDup (List.map Deal.id (Kanban.items s)) /\
  let s1 := final (run env (Kanban.move s d ganho) s) in
  Kanban.items s1 = [Sample.deal 1 "Site" ganho; Sample.deal 2 "Loja" novo] /\
  Kanban.items (final (run env (Kanban.move s1 (Sample.deal 1 "Site" ganho) novo) s1))
    = Kanban.items s.
Proof.
  intros env d s.
  assert (Hacc : accepting env) by apply serving_accepting.
  assert (Hnodup : NoDup (List.map Deal.id (Kanban.items s))).
  { simpl. apply NoDup_cons_2.
    - intros H. apply list_elem_of_In in H. destruct H as [H|[]]. discriminate H.
    - apply NoDup_cons_2; [|apply NoDup_nil_2].
      intros H. apply list_elem_of_In in H. destruct H. }
  split; [exact Hacc|]. split; [exact Hnodup|]. intros s1. split; [reflexivity|].
  exact (proj2 (proj1 (X11_update_round_trip env Hacc) s d ganho Hnodup
                  ltac:(left; reflexivity) ltac:(discriminate))).
Defined.

(** *** Reloading *)

(** X12: [refresh] never clears the error message. After a reload that
    failed, a reload that succeeds replaces the collection and leaves the
    message of the failure in the state, so the page goes on showing it. *)
Theorem X12_reload_keeps_error (failed served : Env) :
  (forall (s : Kanban.State) e ds,
     settle failed _ (crm.listDeals None) = Rejected e ->
     settle served _ (crm.listDeals None) = Resolved ds ->
     let s1 := final (run failed Kanban.refresh s) in
     let s2 := final (run served Kanban.refresh s1) in
     Kanban.items s2 = ds /\ Kanban.error s2 = Kanban.error s1 /\
     exists msg, Kanban.error s2 = Some msg /\ msg <> "") /\
  (forall (s : Contacts.State) e data,
     settle failed _ crm.listContacts = Rejected e ->
     settle served _ crm.listContacts = Resolved data ->
     let s1 := final (run failed Contacts.refresh s) in
     let s2 := final (run served Contacts.refresh s1) in
     Contacts.rows s2 = data /\ Contacts.error s2 = Contacts.error s1 /\
     exists msg, Contacts.error s2 = Some msg /\ msg <> "") /\
  (forall (s : Calendar.State) e data,
     let window := Some (crm.mkRange (Some (Some (Calendar.start s)))
                                     (Some (Some (Calendar.end_ s)))) in
     settle failed _ (crm.listObligations window) = Rejected e ->
     settle served _ (crm.listObligations window) = Resolved data ->
     let s1 := final (run failed (Calendar.refresh s) s) in
     let s2 := final (run served (Calendar.refresh s1) s1) in
     Calendar.rows s2 = data /\ Calendar.error s2 = Calendar.error s1 /\
     exists msg, Calendar.error s2 = Some msg /\ msg <> "").
Proof.
  repeat apply conj.
  - intros s e ds Hrej Hok s1 s2. subst s2 s1. unfold run, Kanban.refresh. cbn.
    rewrite Hrej. cbn. rewrite Hok. cbn. repeat split.
    eexists. split; [reflexivity|]. apply or_else_nonempty. discriminate.
  - intros s e data Hrej Hok s1 s2. subst s2 s1. unfold run, Contacts.refresh. cbn.
    rewrite Hrej. cbn. rewrite Hok. cbn. repeat split.
    eexists. split; [reflexivity|]. apply or_else_nonempty. discriminate.
  - intros s e data window Hrej Hok s1 s2. subst s2 s1 window.
    unfold run, Calendar.refresh. cbn.
    rewrite Hrej. cbn. rewrite Hok. cbn. repeat split.
    eexists. split; [reflexivity|]. apply or_else_nonempty. discriminate.
Qed.

Lemma X12_reload_keeps_error_witness :
  let failed := Sample.env true None Sample.failing in
  let served := Sample.env true None Sample.serving in
  let s2 := final (run served Kanban.refresh
                     (final (run failed Kanban.refresh (Sample.kanban [])))) in
  settle failed _ (crm.listDeals None) = Rejected (mkError "Failed to fetch") /\
  Kanban.items s2 = [Sample.deal 1 "Site" novo] /\
  Kanban.error s2 = Some "Failed to fetch".
Proof.
  intros failed served s2. split; [reflexivity|].
  destruct (proj1 (X12_reload_keeps_error failed served) (Sample.kanban [])
              (mkError "Failed to fetch") [Sample.deal 1 "Site" novo]
              eq_refl eq_refl) as (Hitems & Herr & _).
  split; [exact Hitems|]. exact (eq_trans Herr eq_refl).
Defined.

(** X13: reloading is idempotent: against a service that answers the list
    request the same way, a second reload leaves the state the first one
    left. *)
Theorem X13_refresh_idempotent (env : Env) :
  (forall s : Kanban.State,
     let s1 := final (run env Kanban.refresh s) in
     final (run env Kanban.refresh s1) = s1) /\
  (forall s : Contacts.State,
     let s1 := final (run env Contacts.refresh s) in
     final (run env Contacts.refresh s1) = s1) /\
  (forall s : Calendar.State,
     let s1 := final (run env (Calendar.refresh s) s) in
     final (run env (Calendar.refresh s1) s1) = s1).
Proof.
  repeat apply conj; intros s s1; subst s1; unfold run.
  - unfold Kanban.refresh. cbn.
    destruct (settle env _ (crm.listDeals None)) eqn:E; cbn; rewrite ?E; reflexivity.
  - unfold Contacts.refresh. cbn.
    destruct (settle env _ crm.listContacts) eqn:E; cbn; rewrite ?E; reflexivity.
  - unfold Calendar.refresh. cbn.
    destruct (settle env _ (crm.listObligations
                (Some (crm.mkRange (Some (Some (Calendar.start s)))
                                   (Some (Some (Calendar.end_ s))))))) eqn:E;
      cbn; rewrite ?E; reflexivity.
Qed.

(** *** Creating *)

(** X14: a title prompt that is cancelled or left empty ends [quickAdd]
    there: nothing is sent and the state is untouched. Every create call
    that is sent carries the non-empty title (or name) the user typed, and
    the fixed fields of the page: a deal starts in column [novo] with
    priority [normal], a contact as a warm lead marked real, an obligation
    as open. *)
Theorem X14_quickAdd_needs_title (env : Env) :
  (forall Number (s : Kanban.State),
     let r := run env (Kanban.quickAdd Number) s in
     (answer env _ (prompt "Título do negócio:" None) = None \/
      answer env _ (prompt "Título do negócio:" None) = Some "" ->
      r = mkRun s (Resolved tt) []) /\
     (forall c, In c (calls r) ->
        exists p, c = call (crm.createDeal p) /\
          Some (DealCreate.title p) = answer env _ (prompt "Título do negócio:" None) /\
          DealCreate.title p <> "" /\ DealCreate.column p = novo /\
          DealCreate.priority p = "normal")) /\
  (forall s : Contacts.State,
     let r := run env Contacts.quickAdd s in
     (answer env _ (prompt "Nome do contato:" None) = None \/
      answer env _ (prompt "Nome do contato:" None) = Some "" ->
      r = mkRun s (Resolved tt) []) /\
     (forall c, In c (calls r) ->
        exists p, c = call (crm.createContact p) /\
          Some (ContactCreate.name p) = answer env _ (prompt "Nome do contato:" None) /\
          ContactCreate.name p <> "" /\ ContactCreate.stage p = lead /\
          ContactCreate.heat p = warm /\ ContactCreate.is_real p = true)) /\
  (forall today (s : Calendar.State),
     let r := run env (Calendar.quickAdd today) s in
     (answer env _ (prompt "Título da obrigação:" None) = None \/
      answer env _ (prompt "Título da obrigação:" None) = Some "" ->
      r = mkRun s (Resolved tt) []) /\
     (forall c, In c (calls r) ->
        exists p, c = call (crm.createObligation p) /\
          Some (ObligationCreate.title p)
            = answer env _ (prompt "Título da obrigação:" None) /\
          ObligationCreate.title p <> "" /\
          ObligationCreate.status p = Status.open)).
Proof.
  repeat apply conj.
  - intros Number s r. subst r. unfold run, Kanban.quickAdd. cbn.
    destruct (answer env _ (prompt "Título do negócio:" None)) as [[|a t]|]; cbn.
    + split; [reflexivity | intros c []].
    + split; [intros [H|H]; discriminate|].
      match goal with |- context [settle env ?A ?c] => destruct (settle env A c) end;
        cbn; intros c [<-|[]]; eexists; repeat split; discriminate.
    + split; [reflexivity | intros c []].
  - intros s r. subst r. unfold run, Contacts.quickAdd. cbn.
    destruct (answer env _ (prompt "Nome do contato:" None)) as [[|a t]|]; cbn.
    + split; [reflexivity | intros c []].
    + split; [intros [H|H]; discriminate|].
      match goal with |- context [settle env ?A ?c] => destruct (settle env A c) end;
        cbn; intros c [<-|[]]; eexists; repeat split; discriminate.
    + split; [reflexivity | intros c []].
  - intros today s r. subst r. unfold run, Calendar.quickAdd. cbn.
    destruct (answer env _ (prompt "Título da obrigação:" None)) as [[|a t]|]; cbn.
    + split; [reflexivity | intros c []].
    + split; [intros [H|H]; discriminate|].
      match goal with |- context [settle env ?A ?c] => destruct (settle env A c) end;
        cbn; intros c [<-|[]]; eexists; repeat split; discriminate.
    + split; [reflexivity | intros c []].
Qed.

(** ** pages/Kanban.tsx: the board *)

Lemma filteredByCol_filter (rt : Runtime) (items : list Deal.t) (q : string)
    (col : Column) :
  Kanban.filteredByCol rt items q col =
  List.filter (fun d =>
    negb (truthy (toLowerCase rt (trim rt q)) &&
          negb (includes (toLowerCase rt (Kanban.searchable d))
                         (toLowerCase rt (trim rt q))))
    && bool_decide (Deal.column d = col)) items.
Proof. unfold Kanban.filteredByCol. rewrite filteredByCol_fold. reflexivity. Qed.

Lemma filteredByCol_In (rt : Runtime) (items : list Deal.t) (q : string) (col : Column)
    (x : Deal.t) :
  In x (Kanban.filteredByCol rt items q col) <->
  In x items /\ Deal.column x = col /\ found rt (Deal_text x) q.
Proof.
  rewrite filteredByCol_filter, filter_In, andb_true_iff, negb_true_iff,
    bool_decide_eq_true, query_test, Kanban_searchable. tauto.
Qed.

Lemma columns_partition (keep : Deal.t -> bool) (items : list Deal.t) :
  Permutation
    (concat (List.map (fun col =>
               List.filter (fun d => keep d && bool_decide (Deal.column d = col)) items)
             Kanban.COLUMNS))
    (List.filter keep items).
Proof.
  induction items as [|d items IH]; [reflexivity|].
  unfold Kanban.COLUMNS in *. simpl in *.
  destruct (keep d); simpl; [|exact IH].
  rewrite <- IH.
  destruct (Deal.column d); simpl; repeat rewrite <- Permutation_middle; reflexivity.
Qed.

(** X15: while the page is loading no card is shown. Otherwise the board
    has one section per pipeline column, in the order of [COLUMNS] and under
    its label; the cards of a section are deals of that column, the note
    "Sem cartões" is shown exactly in the sections without cards, and the
    cards of all sections together are the deals in whose title and tags
    text the query is found, each as often as it is in the collection: no
    matching deal is missing and none is shown twice. *)
Theorem X15_board_shows_each_match_once (rt : Runtime) (s : Kanban.State) :
  (Kanban.loading s = true -> Kanban.board rt s = None) /\
  (Kanban.loading s = false ->
   exists cols, Kanban.board rt s = Some cols /\
     List.map Kanban.col_key cols = Kanban.COLUMNS /\
     (forall cv, In cv cols ->
        Kanban.col_title cv = Kanban.LABEL (Kanban.col_key cv) /\
        (Kanban.col_empty cv = true <-> Kanban.col_cards cv = []) /\
        forall d, In d (Kanban.col_cards cv) -> Deal.column d = Kanban.col_key cv) /\
     Permutation (concat (List.map Kanban.col_cards cols))
       (filter (fun d => found rt (Deal_text d) (Kanban.q s)) (Kanban.items s))).
Proof.
  unfold Kanban.board. split; intros Hload; rewrite Hload; [reflexivity|].
  eexists. split; [reflexivity|]. split; [|split].
  - reflexivity.
  - intros cv Hcv. apply in_map_iff in Hcv as (col & <- & _). simpl.
    split; [reflexivity|]. split.
    + rewrite Nat.eqb_eq. apply length_zero_iff_nil.
    + intros d Hd. apply filteredByCol_In in Hd. tauto.
  - pose (keep := fun d : Deal.t =>
      negb (truthy (toLowerCase rt (trim rt (Kanban.q s))) &&
            negb (includes (toLowerCase rt (Kanban.searchable d))
                           (toLowerCase rt (trim rt (Kanban.q s)))))).
    rewrite List.map_map.
    rewrite (List.map_ext _
               (fun col => List.filter
                  (fun d => keep d && bool_decide (Deal.column d = col))
                  (Kanban.items s)))
      by (intros col; apply filteredByCol_filter).
    rewrite (columns_partition keep).
    rewrite (filter_decides keep (fun d => found rt (Deal_text d) (Kanban.q s))).
    + reflexivity.
    + intros d. unfold keep. rewrite negb_true_iff, <- Kanban_searchable.
      apply query_test.
Qed.

Lemma X15_board_shows_each_match_once_witness :
  let s := Kanban.mkState
             [Sample.deal 1 "Site" ganho; Sample.deal 2 "Loja" novo;
              Sample.deal 3 "Sistema" novo] false " s " None in
  Kanban.loading s = false /\
  (List.map (fun cv => Deal.id <$> Kanban.col_cards cv) <$> Kanban.board Sample.runtime s)
    = Some [[3]; []; []; []; [1]; []]%Z /\
  exists cols, Kanban.board Sample.runtime s = Some cols /\
    Permutation (concat (List.map Kanban.col_cards cols))
      (filter (fun d => found Sample.runtime (Deal_text d) (Kanban.q s))
              (Kanban.items s)).
Proof.
  intros s. split; [reflexivity|]. split; [reflexivity|].
  destruct (proj2 (X15_board_shows_each_match_once Sample.runtime s) eq_refl)
    as (cols & Hboard & _ & _ & Hperm).
  exists cols. split; [exact Hboard | exact Hperm].
Defined.

(** X16: the optimistic step of [move] shows on the board at once. In a
    collection of pairwise distinct identities, once [move d to] has
    suspended at its call, a card of [d]'s identity is found in the column
    [to] only, and it is [d] with its column changed; if [d] itself passes
    the query, that card is there. *)
Theorem X16_moved_card_changes_column (rt : Runtime) (env : Env) (s : Kanban.State)
    (d : Deal.t) (to : Column) :
  NoDup (List.map Deal.id (Kanban.items s)) -> In d (Kanban.items s) ->
  Deal.column d <> to ->
  let s' := (suspended env (Kanban.move s d to) s).1 in
  (forall col x, In x (Kanban.filteredByCol rt (Kanban.items s') (Kanban.q s') col) ->
     Deal.id x = Deal.id d -> col = to /\ x = Deal.with_column d to) /\
  (found rt (Deal_text d) (Kanban.q s) ->
   In (Deal.with_column d to)
      (Kanban.filteredByCol rt (Kanban.items s') (Kanban.q s') to)).
Proof.
  intros Hnodup Hd Hne s'.
  assert (Hs' : s' = Kanban.setItems
            (List.map (fun x => if (Deal.id x =? Deal.id d)%Z
                                then Deal.with_column x to else x)) s).
  { subst s'. unfold Kanban.move.
    destruct (decide (Deal.column d = to)); [contradiction|]. reflexivity. }
  rewrite Hs'. simpl. split.
  - intros col x Hx Hid. apply filteredByCol_In in Hx as (Hin & Hcol & _).
    apply in_map_iff in Hin as (y & Hy & Hin).
    destruct (Deal.id y =? Deal.id d)%Z eqn:E.
    + apply Z.eqb_eq in E.
      assert (y = d) by (apply (unique_by_key Deal.id (Kanban.items s)); assumption).
      subst y x. simpl in Hcol. auto.
    + apply Z.eqb_neq in E. subst x. contradiction.
  - intros Hmatch. apply filteredByCol_In. split; [|split].
    + apply in_map_iff. exists d. rewrite Z.eqb_refl. auto.
    + reflexivity.
    + exact Hmatch.
Qed.

Lemma X16_moved_card_changes_column_witness :
  let env := Sample.env true None Sample.failing in
  let d := Sample.deal 1 "Site" novo in
  let s := Sample.kanban [d; Sample.deal 2 "Loja" novo] in
  let s' := (suspended env (Kanban.move s d ganho) s).1 in
  NoDup (List.map Deal.id (Kanban.items s)) /\ In d (Kanban.items s) /\
  Deal.column d <> ganho /\
  In (Sample.deal 1 "Site" ganho)
     (Kanban.filteredByCol Sample.runtime (Kanban.items s') (Kanban.q s') ganho) /\
  Kanban.filteredByCol Sample.runtime (Kanban.items s') (Kanban.q s') novo
    = [Sample.deal 2 "Loja" novo].
Proof.
  intros env d s s'.
  assert (Hnodup : NoDup (List.map Deal.id (Kanban.items s))).
  { simpl. apply NoDup_cons_2.
    - intros H. apply list_elem_of_In in H. destruct H as [H|[]]. discriminate H.
    - apply NoDup_cons_2; [|apply NoDup_nil_2].
      intros H. apply list_elem_of_In in H. destruct H. }
  assert (Hd : In d (Kanban.items s)) by (left; reflexivity).
  assert (Hne : Deal.column d <> ganho) by discriminate.
  split; [exact Hnodup|]. split; [exact Hd|]. split; [exact Hne|].
  split; [|reflexivity].
  apply (proj2 (X16_moved_card_changes_column Sample.runtime env s d ganho Hnodup Hd Hne)).
  apply found_empty. reflexivity.
Defined.

(** ** pages/Contacts.tsx: the filters *)

Lemma excluded_false {A} `{EqDecision A} (sel : option A) (v : A) :
  Contacts.excluded sel v = false <-> forall x, sel = Some x -> v = x.
Proof.
  unfold Contacts.excluded. destruct sel as [x|].
  - rewrite negb_false_iff, bool_decide_eq_true. split.
    + intros -> y Hy. congruence.
    + intros H. apply H. reflexivity.
  - split; [intros _ x Hx; discriminate | reflexivity].
Qed.

Lemma filter_sublist {A} (f : A -> bool) (l : list A) : sublist (List.filter f l) l.
Proof.
  induction l as [|a l IH]; simpl; [constructor|].
  destruct (f a); [apply sublist_skip | apply sublist_cons]; exact IH.
Qed.

(** X17: the contact table, with every filter in play, in every engine. A
    contact is listed exactly when it is in the collection, the query is
    found in its text (its name, a space, its e-mail, a space and its phone,
    an absent e-mail or phone counting as empty: the text lower-cased as a
    whole has the trimmed, lower-cased query as a substring), its stage, heat
    and pending status equal the values chosen in the three selects (a select
    left on "Todos" admits every value), and it is marked real if "Só reais"
    is checked. For a text and a trimmed query made of ASCII characters the
    query is found when the text contains the trimmed query up to case. The
    rows listed are in the order of the collection. *)
Theorem X17_contacts_filters (rt : Runtime) (rows : list Contact.t) (q : string)
    (stage : option Stage) (heat : option Heat) (awaiting : option AwaitStatus)
    (onlyReal : bool) :
  (forall c, In c (Contacts.filtered rt rows q stage heat awaiting onlyReal) <->
     In c rows /\
     found rt (Contact_text c) q /\
     (forall x, stage = Some x -> Contact.stage c = x) /\
     (forall x, heat = Some x -> Contact.heat c = x) /\
     (forall x, awaiting = Some x -> Contact.await_status c = x) /\
     (onlyReal = true -> Contact.is_real c = true)) /\
  (forall c, is_ascii (Contact_text c) = true -> is_ascii (trim rt q) = true ->
     (found rt (Contact_text c) q <-> contains_ci (Contact_text c) (trim rt q))) /\
  sublist (Contacts.filtered rt rows q stage heat awaiting onlyReal) rows.
Proof.
  split; [|split; [intros c; apply found_ascii | apply filter_sublist]].
  intros c. unfold Contacts.filtered. rewrite filter_In.
  rewrite <- query_test, <- !excluded_false, <- Contacts_searchable.
  destruct (truthy (toLowerCase rt (trim rt q)) &&
            negb (includes (toLowerCase rt (Contacts.searchable c))
                           (toLowerCase rt (trim rt q))));
    destruct (Contacts.excluded stage (Contact.stage c));
    destruct (Contacts.excluded heat (Contact.heat c));
    destruct (Contacts.excluded awaiting (Contact.await_status c));
    destruct onlyReal; destruct (Contact.is_real c); simpl;
    intuition congruence.
Qed.

Lemma X17_contacts_filters_witness :
  let stamp := "2024-01-01T00:00:00" in
  let ana := Contact.mk 1 1 "Ana Lima" (Some "+55 11 91234-5678") (Some "ana@acme.com")
               lead warm none true None stamp stamp in
  let bruno := Contact.mk 2 1 "Bruno" None (Some "bruno@acme.com")
                 client hot none false None stamp stamp in
  let rows := [ana; bruno] in
  Contact.id <$> Contacts.filtered Sample.runtime rows " ACME " None None None false
    = [1; 2]%Z /\
  Contact.id <$> Contacts.filtered Sample.runtime rows "91234" None None None false
    = [1]%Z /\
  Contact.id <$> Contacts.filtered Sample.runtime rows " ACME " (Some client) None None false
    = [2]%Z /\
  Contact.id <$> Contacts.filtered Sample.runtime rows " ACME " None None None true
    = [1]%Z /\
  is_ascii (Contact_text ana) = true /\ is_ascii (trim Sample.runtime " ACME ") = true /\
  found Sample.runtime (Contact_text ana) " ACME " /\
  contains_ci (Contact_text ana) (trim Sample.runtime " ACME ").
Proof.
  intros stamp ana bruno rows.
  split; [reflexivity|]. split; [reflexivity|]. split; [reflexivity|].
  split; [reflexivity|]. split; [reflexivity|]. split; [reflexivity|].
  assert (Hin : In ana (Contacts.filtered Sample.runtime rows " ACME " None None None true))
    by (left; reflexivity).
  apply (proj1 (X17_contacts_filters Sample.runtime rows " ACME " None None None true))
    in Hin as (_ & Hfound & _).
  split; [exact Hfound|].
  apply (proj1 (proj2 (X17_contacts_filters Sample.runtime rows " ACME " None None None true))
           ana eq_refl eq_refl).
  exact Hfound.
Defined.

Lemma filter_filter_comm {A} (f g : A -> bool) (l : list A) :
  List.filter f (List.filter g l) = List.filter g (List.filter f l).
Proof.
  induction l as [|a l IH]; [reflexivity|]. simpl.
  destruct (g a) eqn:Hg, (f a) eqn:Hf; simpl; rewrite ?Hg, ?Hf, IH; reflexivity.
Qed.

Lemma filter_filter_and {A} (f g : A -> bool) (l : list A) :
  List.filter f (List.filter g l) = List.filter (fun x => g x && f x) l.
Proof.
  induction l as [|a l IH]; [reflexivity|]. simpl.
  destruct (g a) eqn:Hg; simpl; [destruct (f a)|]; rewrite IH; reflexivity.
Qed.

(** X18: the filters of the contact table compose. Filtering a filtered
    table again, by any second setting of query, selects and check box, gives
    the same rows whichever setting is applied first; filtering twice by one
    setting is filtering once; and the table under a full setting is the
    text-filtered table narrowed by the selects and the check box. *)
Theorem X18_contacts_filters_compose (rt : Runtime) (rows : list Contact.t) :
  (forall q1 st1 h1 a1 r1 q2 st2 h2 a2 r2,
     Contacts.filtered rt (Contacts.filtered rt rows q1 st1 h1 a1 r1) q2 st2 h2 a2 r2 =
     Contacts.filtered rt (Contacts.filtered rt rows q2 st2 h2 a2 r2) q1 st1 h1 a1 r1) /\
  (forall q st h a r,
     Contacts.filtered rt (Contacts.filtered rt rows q st h a r) q st h a r =
     Contacts.filtered rt rows q st h a r) /\
  (forall q st h a r,
     Contacts.filtered rt (Contacts.filtered rt rows q None None None false) "" st h a r =
     Contacts.filtered rt rows q st h a r).
Proof.
  split; [|split].
  - intros. unfold Contacts.filtered. apply filter_filter_comm.
  - intros. unfold Contacts.filtered. rewrite filter_filter_and.
    apply filter_ext. intros c. apply andb_diag.
  - intros. unfold Contacts.filtered. rewrite filter_filter_and.
    rewrite (trim_empty rt), toLowerCase_empty.
    apply filter_ext. intros c. simpl.
    destruct (truthy (toLowerCase rt (trim rt q)) &&
              negb (includes (toLowerCase rt (Contacts.searchable c))
                             (toLowerCase rt (trim rt q)))); reflexivity.
Qed.

(** ** pages/Calendar.tsx *)

Lemma range_forallb (P : Z -> bool) (lo n : Z) :
  forallb P (List.map (fun k => (lo + Z.of_nat k)%Z) (seq 0 (Z.to_nat n))) = true ->
  forall z, (lo <= z < lo + n)%Z -> P z = true.
Proof.
  intros H z Hz. rewrite forallb_forall in H. apply H.
  apply in_map_iff. exists (Z.to_nat (z - lo)). split; [lia|].
  apply in_seq. lia.
Qed.

Lemma year_four_digits (y : Z) :
  (1000 <= y <= 9999)%Z -> crm.String_of_Z y = four_digits y.
Proof.
  intros Hy.
  apply String.eqb_eq.
  apply (range_forallb (fun y => String.eqb (crm.String_of_Z y) (four_digits y))
           1000 9000); [vm_compute; reflexivity | lia].
Qed.

Lemma pad_two_digits (n : Z) :
  (0 <= n <= 99)%Z -> Calendar.pad n = two_digits n.
Proof.
  intros Hn.
  apply String.eqb_eq.
  apply (range_forallb (fun n => String.eqb (Calendar.pad n) (two_digits n)) 0 100);
    [vm_compute; reflexivity | lia].
Qed.

(** X19: for a date in the years 1000 to 9999, [toISODate] is the ten
    characters [YYYY-MM-DD]: the year on four digits, the month counted from
    1 on two digits and the day on two digits, with leading zeros, separated
    by dashes. *)
Theorem X19_toISODate_format (d : Calendar.Date) :
  (1000 <= Calendar.getFullYear d <= 9999)%Z ->
  (0 <= Calendar.getMonth d <= 11)%Z ->
  (1 <= Calendar.getDate d <= 31)%Z ->
  Calendar.toISODate d =
    four_digits (Calendar.getFullYear d) +:+ "-" +:+
    two_digits (Calendar.getMonth d + 1) +:+ "-" +:+
    two_digits (Calendar.getDate d) /\
  String.length (Calendar.toISODate d) = 10%nat.
Proof.
  intros Hy Hm Hd. unfold Calendar.toISODate.
  rewrite year_four_digits, !pad_two_digits by lia. split; reflexivity.
Qed.

Lemma X19_toISODate_format_witness :
  let d := Calendar.mkDate 2024 0 5 in
  (1000 <= Calendar.getFullYear d <= 9999)%Z /\
  Calendar.toISODate d = "2024-01-05" /\
  String.length (Calendar.toISODate d) = 10%nat.
Proof.
  intros d. split; [simpl; lia|]. split; [reflexivity|].
  apply (proj2 (X19_toISODate_format d ltac:(simpl; lia) ltac:(simpl; lia)
                  ltac:(simpl; lia))).
Defined.

Lemma append_assoc (a b c : string) : (a +:+ b) +:+ c = a +:+ (b +:+ c).
Proof. induction a as [|x a IH]; simpl; [reflexivity | rewrite IH; reflexivity]. Qed.

Lemma no_space_cons (c : ascii) (a : string) :
  includes (String c a) " " = false <-> c <> " "%char /\ includes a " " = false.
Proof.
  change (includes (String c a) " ")
    with ((if Ascii.eqb " " c then true else false) || includes a " ").
  destruct (Ascii.eqb " " c) eqn:E.
  - apply Ascii.eqb_eq in E. subst c. split; [discriminate|].
    intros [H _]. congruence.
  - apply Ascii.eqb_neq in E.
    split; [intros H; split; [intros ->; apply E; reflexivity | exact H] | tauto].
Qed.

Lemma no_space_app (a b : string) :
  includes a " " = false -> includes b " " = false -> includes (a +:+ b) " " = false.
Proof.
  intros Ha Hb. induction a as [|c a IH]; [exact Hb|].
  apply no_space_cons in Ha as [Hc Ha]. simpl.
  apply no_space_cons. split; [exact Hc | apply IH; exact Ha].
Qed.

(** [replace] turns the first space into the replacement and no other. *)
Lemma replace_first_space (a b t : string) :
  includes a " " = false -> replace (a +:+ " " +:+ b) " " t = a +:+ t +:+ b.
Proof.
  intros Ha. induction a as [|c a IH]; [reflexivity|].
  apply no_space_cons in Ha as [Hc Ha].
  change (replace (String c a +:+ " " +:+ b) " " t)
    with (if Ascii.eqb c " " then t +:+ (a +:+ " " +:+ b)
          else String c (replace (a +:+ " " +:+ b) " " t)).
  destruct (Ascii.eqb c " ") eqn:E; [apply Ascii.eqb_eq in E; contradiction|].
  rewrite IH by exact Ha. reflexivity.
Qed.

Lemma toISODate_no_space (d : Calendar.Date) :
  (1000 <= Calendar.getFullYear d <= 9999)%Z ->
  (0 <= Calendar.getMonth d <= 11)%Z ->
  (1 <= Calendar.getDate d <= 31)%Z ->
  includes (Calendar.toISODate d) " " = false.
Proof.
  intros Hy Hm Hd. unfold Calendar.toISODate.
  assert (HY : includes (crm.String_of_Z (Calendar.getFullYear d)) " " = false).
  { apply negb_true_iff.
    apply (range_forallb (fun y => negb (includes (crm.String_of_Z y) " ")) 1000 9000);
      [vm_compute; reflexivity | lia]. }
  assert (HP : forall n, (0 <= n <= 99)%Z -> includes (Calendar.pad n) " " = false).
  { intros n Hn. apply negb_true_iff.
    apply (range_forallb (fun n => negb (includes (Calendar.pad n) " ")) 0 100);
      [vm_compute; reflexivity | lia]. }
  repeat apply no_space_app; try reflexivity; auto; apply HP; lia.
Qed.

(** X20: the due date [quickAdd] sends. For a render on a date in the
    years 1000 to 9999 and a title typed in: when the date prompt is
    cancelled, left empty or accepted as proposed, the obligation is created
    open and due [<today>T09:00:00]; when the user types a day without spaces,
    one space and a time, it is due [<day>T<time>:00]. *)
Theorem X20_quickAdd_due_date (env : Env) (d : Calendar.Date) (s : Calendar.State)
    (title : string) :
  (1000 <= Calendar.getFullYear d <= 9999)%Z ->
  (0 <= Calendar.getMonth d <= 11)%Z ->
  (1 <= Calendar.getDate d <= 31)%Z ->
  answer env _ (prompt "Título da obrigação:" None) = Some title -> title <> "" ->
  let today := Calendar.toISODate d in
  let typed := answer env _ (prompt "Data/hora (YYYY-MM-DD HH:MM):"
                               (Some (today +:+ " 09:00"))) in
  let r := run env (Calendar.quickAdd today) s in
  (typed = None \/ typed = Some "" \/ typed = Some (today +:+ " 09:00") ->
   calls r = [call (crm.createObligation
                      (ObligationCreate.mk title None (today +:+ "T09:00:00")
                                           Status.open None))]) /\
  (forall day time, typed = Some (day +:+ " " +:+ time) ->
     includes day " " = false ->
     calls r = [call (crm.createObligation
                        (ObligationCreate.mk title None
                           (day +:+ "T" +:+ time +:+ ":00") Status.open None))]).
Proof.
  intros Hy Hm Hd Htitle Hne today typed r.
  assert (Htoday : includes today " " = false) by (apply toISODate_no_space; assumption).
  assert (Hcalls : calls r =
            [call (crm.createObligation
                     (ObligationCreate.mk title None
                        (replace (opt_or typed (today +:+ " 09:00")) " " "T" +:+ ":00")
                        Status.open None))]).
  { subst r typed. unfold run, Calendar.quickAdd. cbn. rewrite Htitle.
    destruct title as [|a t]; [contradiction|]. cbn.
    match goal with |- context [settle env ?A ?c] => destruct (settle env A c) end;
      reflexivity. }
  assert (Hdefault : replace (today +:+ " 09:00") " " "T" +:+ ":00"
                     = today +:+ "T09:00:00").
  { change (today +:+ " 09:00") with (today +:+ " " +:+ "09:00").
    rewrite (replace_first_space today "09:00" "T") by exact Htoday.
    rewrite !append_assoc. reflexivity. }
  clearbody r typed. split.
  - intros [-> | [-> | ->]]; rewrite Hcalls.
    + cbv beta iota delta [opt_or]. rewrite Hdefault. reflexivity.
    + cbv beta iota delta [opt_or or_else truthy]. rewrite Hdefault. reflexivity.
    + cbv beta iota delta [opt_or or_else].
      destruct (truthy (today +:+ " 09:00")); rewrite Hdefault; reflexivity.
  - intros day time -> Hday. rewrite Hcalls. cbv beta iota delta [opt_or or_else].
    assert (Htruthy : truthy (day +:+ " " +:+ time) = true).
    { destruct day; reflexivity. }
    rewrite Htruthy, (replace_first_space day time "T") by exact Hday.
    rewrite !append_assoc. reflexivity.
Qed.

Lemma X20_quickAdd_due_date_witness :
  let env := mkEnv (Sample.scripted true
                      (fun m => if String.eqb m "Título da obrigação:"
                                then Some "Ligar" else None))
                   Sample.serving in
  let d := Calendar.mkDate 2024 0 5 in
  answer env _ (prompt "Título da obrigação:" None) = Some "Ligar" /\
  answer env _ (prompt "Data/hora (YYYY-MM-DD HH:MM):"
                  (Some (Calendar.toISODate d +:+ " 09:00"))) = None /\
  calls (run env (Calendar.quickAdd (Calendar.toISODate d)) (Sample.calendar []))
    = [call (crm.createObligation
               (ObligationCreate.mk "Ligar" None "2024-01-05T09:00:00"
                                    Status.open None))].
Proof.
  intros env d. split; [reflexivity|]. split; [reflexivity|].
  apply (proj1 (X20_quickAdd_due_date env d (Sample.calendar []) "Ligar"
                  ltac:(simpl; lia) ltac:(simpl; lia) ltac:(simpl; lia)
                  eq_refl ltac:(discriminate))).
  left. reflexivity.
Defined.

(** *** The lists of the calendar *)

Lemma four_way_partition {A} (f1 f2 f3 f4 : A -> bool) (l : list A) :
  (forall x, (f1 x, f2 x, f3 x, f4 x) = (true, false, false, false) \/
             (f1 x, f2 x, f3 x, f4 x) = (false, true, false, false) \/
             (f1 x, f2 x, f3 x, f4 x) = (false, false, true, false) \/
             (f1 x, f2 x, f3 x, f4 x) = (false, false, false, true)) ->
  Permutation
    (List.filter f1 l ++ List.filter f2 l ++ List.filter f3 l ++ List.filter f4 l) l.
Proof.
  intros Hone. induction l as [|x l IH]; [reflexivity|]. simpl.
  destruct (Hone x) as [H|[H|[H|H]]]; injection H as -> -> -> ->; simpl;
    repeat rewrite <- Permutation_middle; rewrite IH; reflexivity.
Qed.

Lemma steady_overdue (Date_parse : string -> option Z) (clock : nat -> Z) (now : Z)
    (o : Obligation.t) (i : nat) :
  steady clock now ->
  (Calendar.is_overdue Date_parse clock o i).1 =
  bool_decide (Obligation.status o = Status.open) &&
  match Calendar.due Date_parse o with Some t => (t <? now)%Z | None => false end.
Proof.
  intros Hsteady. unfold Calendar.is_overdue, Calendar.new_Date.
  rewrite (Hsteady i).
  destruct (bool_decide (Obligation.status o = Status.open)); reflexivity.
Qed.

Lemma steady_upcoming (Date_parse : string -> option Z) (clock : nat -> Z) (now : Z)
    (o : Obligation.t) (i : nat) :
  steady clock now ->
  (Calendar.is_upcoming Date_parse clock o i).1 =
  bool_decide (Obligation.status o = Status.open) &&
  match Calendar.due Date_parse o with Some t => (now <=? t)%Z | None => false end.
Proof.
  intros Hsteady. unfold Calendar.is_upcoming, Calendar.new_Date.
  rewrite (Hsteady i).
  destruct (bool_decide (Obligation.status o = Status.open)); reflexivity.
Qed.

Lemma bucket_of (Date_parse : string -> option Z) (now : Z) (o : Obligation.t) :
  let bits :=
    (bool_decide (Obligation.status o = Status.open) &&
       match Calendar.due Date_parse o with Some t => (t <? now)%Z | None => false end,
     bool_decide (Obligation.status o = Status.open) &&
       match Calendar.due Date_parse o with Some t => (now <=? t)%Z | None => false end,
     Calendar.is_done o, undated Date_parse o) in
  bits = (true, false, false, false) \/ bits = (false, true, false, false) \/
  bits = (false, false, true, false) \/ bits = (false, false, false, true).
Proof.
  unfold Calendar.is_done, undated.
  destruct (Obligation.status o); simpl.
  - destruct (Calendar.due Date_parse o) as [t|]; simpl; [|auto].
    destruct (Z.ltb_spec t now), (Z.leb_spec now t); auto; lia.
  - auto.
Qed.

Lemma is_overdue_reads (Date_parse : string -> option Z) (clock : nat -> Z)
    (o : Obligation.t) (i : nat) :
  (i <= (Calendar.is_overdue Date_parse clock o i).2)%nat /\
  ((Calendar.is_overdue Date_parse clock o i).1 = true ->
   (Calendar.is_overdue Date_parse clock o i).2 = S i).
Proof.
  unfold Calendar.is_overdue, Calendar.new_Date.
  destruct (bool_decide (Obligation.status o = Status.open)); simpl.
  - split; [lia | reflexivity].
  - split; [lia | discriminate].
Qed.

Lemma is_upcoming_reads (Date_parse : string -> option Z) (clock : nat -> Z)
    (o : Obligation.t) (i : nat) :
  (i <= (Calendar.is_upcoming Date_parse clock o i).2)%nat.
Proof.
  unfold Calendar.is_upcoming, Calendar.new_Date.
  destruct (bool_decide (Obligation.status o = Status.open)); simpl; lia.
Qed.

(** X21: where each obligation of the filtered list goes, in every engine.
    When the clock reads the same time throughout the render, the three
    lists shown and the open obligations whose due date is not a valid date
    make up the filtered list, each obligation counted once: an obligation is
    shown in exactly one list, except an open one without a valid due date,
    which is shown in none. When the clock never goes back during the render,
    no obligation is shown both under "Atrasados" and under "Próximos".
    Whatever the clock, a done obligation is shown under "Concluídos" only,
    and an open one without a valid due date in no list. *)
Theorem X21_every_obligation_is_shown_once (rt : Runtime)
    (Date_parse : string -> option Z) (clock : nat -> Z)
    (filtered : list Obligation.t) :
  let b := Calendar.buckets Date_parse clock filtered in
  let atrasados := Calendar.Section_ rt Date_parse b.1.1 in
  let proximos := Calendar.Section_ rt Date_parse b.1.2 in
  let concluidos := Calendar.Section_ rt Date_parse b.2 in
  (forall now, steady clock now ->
     Permutation
       (atrasados ++ proximos ++ concluidos ++ List.filter (undated Date_parse) filtered)
       filtered) /\
  (never_back clock -> forall o, ~ (In o atrasados /\ In o proximos)) /\
  (forall o, ~ (In o atrasados /\ In o concluidos) /\
             ~ (In o proximos /\ In o concluidos)) /\
  (forall o, undated Date_parse o = true ->
     ~ In o atrasados /\ ~ In o proximos /\ ~ In o concluidos).
Proof.
  intros b atrasados proximos concluidos.
  subst atrasados proximos concluidos b. rewrite buckets_eq. simpl.
  split; [|split; [|split]].
  - intros now Hsteady. rewrite !Section_Permutation.
    unfold Calendar.overdue, Calendar.upcoming, Calendar.done.
    rewrite (filterM_pure _ _ filtered 0
               (fun o i => steady_overdue Date_parse clock now o i Hsteady)).
    rewrite (filterM_pure _ _ filtered _
               (fun o i => steady_upcoming Date_parse clock now o i Hsteady)).
    apply four_way_partition. intros o. apply (bucket_of Date_parse now o).
  - intros Hclock o. rewrite !Section_In. intros [Ho Hu].
    apply filterM_In_during in Ho as (i & _ & Hi & Hover);
      [|intros a k; apply is_overdue_reads].
    apply filterM_In_during in Hu as (j & Hj & _ & Hup);
      [|intros a k; apply is_upcoming_reads].
    rewrite (proj2 (is_overdue_reads Date_parse clock o i) Hover) in Hi.
    apply is_overdue_true in Hover as (_ & t & Ht & Hlt).
    apply is_upcoming_true in Hup as (_ & t' & Ht' & Hle).
    rewrite Ht in Ht'. injection Ht' as <-.
    fold (Calendar.overdue Date_parse clock filtered 0) in Hi.
    assert (Hij : (i <= j)%nat) by lia.
    specialize (Hclock i j Hij). lia.
  - intros o. rewrite !Section_In. unfold Calendar.done. rewrite filter_In.
    unfold Calendar.is_done. rewrite bool_decide_eq_true.
    split; intros [Ho Hd]; apply filterM_In in Ho as (_ & i & Hi);
      [apply is_overdue_true in Hi as [Hopen _]
      |apply is_upcoming_true in Hi as [Hopen _]];
      destruct Hd as [_ Hd]; congruence.
  - intros o Hund. unfold undated in Hund. apply andb_true_iff in Hund as [Hopen Hnone].
    apply bool_decide_eq_true in Hopen.
    rewrite !Section_In. unfold Calendar.done. rewrite filter_In.
    unfold Calendar.is_done. rewrite bool_decide_eq_true.
    split; [|split].
    + intros Ho. apply filterM_In in Ho as (_ & i & Hi).
      apply is_overdue_true in Hi as (_ & t & Ht & _). rewrite Ht in Hnone. discriminate.
    + intros Ho. apply filterM_In in Ho as (_ & i & Hi).
      apply is_upcoming_true in Hi as (_ & t & Ht & _). rewrite Ht in Hnone. discriminate.
    + intros [_ Hd]. congruence.
Qed.

Lemma X21_every_obligation_is_shown_once_witness :
  let late := Sample.obligation 2 "Enviar proposta" "2024-01-02T09:00" Status.open in
  let early := Sample.obligation 1 "Ligar" "2024-01-01T09:00" Status.open in
  let paid := Sample.obligation 4 "Cobrar" "2024-01-02T09:00" Status.done in
  let someday := Sample.obligation 5 "Revisar" "um dia" Status.open in
  let rows := [late; someday; paid; early] in
  let between := 1704100000000%Z in
  let shown clock :=
    let b := Calendar.buckets Sample.Date_parse clock rows in
    (Calendar.Section_ Sample.runtime Sample.Date_parse b.1.1,
     Calendar.Section_ Sample.runtime Sample.Date_parse b.1.2,
     Calendar.Section_ Sample.runtime Sample.Date_parse b.2) in
  steady (Sample.at_ between) between /\
  never_back (Sample.ticking between) /\
  shown (Sample.at_ between) = ([early], [late], [paid]) /\
  List.filter (undated Sample.Date_parse) rows = [someday] /\
  Permutation [early; late; paid; someday] rows /\
  ~ (In early (shown (Sample.ticking between)).1.1 /\
     In early (shown (Sample.ticking between)).1.2).
Proof.
  intros late early paid someday rows between shown.
  assert (Hsteady : steady (Sample.at_ between) between) by (intros n; reflexivity).
  assert (Hmono : never_back (Sample.ticking between)).
  { intros i j Hij. unfold Sample.ticking. lia. }
  split; [exact Hsteady|]. split; [exact Hmono|].
  split; [reflexivity|]. split; [reflexivity|]. split.
  - exact (proj1 (X21_every_obligation_is_shown_once Sample.runtime Sample.Date_parse
                    (Sample.at_ between) rows) between Hsteady).
  - exact (proj1 (proj2 (X21_every_obligation_is_shown_once Sample.runtime
                           Sample.Date_parse (Sample.ticking between) rows))
             Hmono early).
Defined.

Section Stability.
Context {A : Type} (key : A -> option Z).

Let by_key (a b : A) : option Z :=
  match key a, key b with
  | Some x, Some y => Some (x - y)%Z
  | _, _ => None
  end.

Lemma insert_keeps_ties (t : Z) (x : A) (l : list A) :
  List.filter (fun a => bool_decide (key a = Some t)) (JS.insert by_key x l) =
  List.filter (fun a => bool_decide (key a = Some t)) (x :: l).
Proof.
  induction l as [|y l IH]; [reflexivity|].
  simpl JS.insert. unfold SortCompare, by_key at 1.
  destruct (key x) as [kx|] eqn:Hx; destruct (key y) as [ky|] eqn:Hy; simpl default;
    try reflexivity.
  destruct (kx - ky <=? 0)%Z eqn:E; [reflexivity|]. apply Z.leb_gt in E.
  simpl. simpl in IH. rewrite IH, Hx, Hy.
  destruct (bool_decide (Some ky = Some t)) eqn:E1;
    destruct (bool_decide (Some kx = Some t)) eqn:E2; try reflexivity.
  apply bool_decide_eq_true in E1, E2. exfalso. injection E1 as ->.
  injection E2 as ->. lia.
Qed.

Lemma stable_sort_keeps_ties (t : Z) (l : list A) :
  List.filter (fun a => bool_decide (key a = Some t)) (stable_sort by_key l) =
  List.filter (fun a => bool_decide (key a = Some t)) l.
Proof.
  induction l as [|x l IH]; [reflexivity|].
  unfold stable_sort in *. simpl foldr. rewrite insert_keeps_ties. simpl.
  rewrite IH. reflexivity.
Qed.

End Stability.

(** X22: in every engine, when the due dates of the obligations of a list
    are all valid dates, the obligations due at the same instant keep, in
    the list shown, the order they have in the data: for every instant, the
    obligations of the list that are due at it come in the order of the
    data. *)
Theorem X22_same_due_keep_order (rt : Runtime) (Date_parse : string -> option Z)
    (t : Z) (data : list Obligation.t) :
  Forall (fun o => is_Some (Calendar.due Date_parse o)) data ->
  List.filter (fun o => bool_decide (Calendar.due Date_parse o = Some t))
              (Calendar.Section_ rt Date_parse data) =
  List.filter (fun o => bool_decide (Calendar.due Date_parse o = Some t)) data.
Proof.
  intros Hvalid. rewrite Section_sort by exact Hvalid.
  exact (stable_sort_keeps_ties (Calendar.due Date_parse) t data).
Qed.

Lemma X22_same_due_keep_order_witness :
  let a := Sample.obligation 4 "Cobrar" "2024-01-02T09:00" Status.open in
  let b := Sample.obligation 7 "Ligar" "2024-01-01T09:00" Status.open in
  let c := Sample.obligation 6 "Enviar proposta" "2024-01-02T09:00" Status.open in
  Forall (fun o => is_Some (Calendar.due Sample.Date_parse o)) [a; b; c] /\
  Calendar.Section_ Sample.runtime Sample.Date_parse [a; b; c] = [b; a; c] /\
  List.filter (fun o => bool_decide (Calendar.due Sample.Date_parse o = Some 1704186000000%Z))
              (Calendar.Section_ Sample.runtime Sample.Date_parse [a; b; c]) = [a; c].
Proof.
  intros a b c.
  assert (Hvalid : Forall (fun o => is_Some (Calendar.due Sample.Date_parse o)) [a; b; c]).
  { repeat constructor; eexists; reflexivity. }
  split; [exact Hvalid|]. split; [reflexivity|].
  rewrite (X22_same_due_keep_order Sample.runtime Sample.Date_parse 1704186000000
             [a; b; c] Hvalid).
  reflexivity.
Defined.
